(** * Skill packages: the generator (init_skill.py) and the validator
    (validate_skill.py) of crates/agent-skill/src/store/builtin_scripts.

    The two scripts are embedded as functions over Python strings (lists of
    code points), a filesystem (a finite map from paths to nodes) and the
    values a YAML document denotes.  What the scripts take from the Python
    runtime (the Unicode character database, datetime.fromisoformat) is an
    interface, [Python], whose laws fix its behaviour on ASCII text only;
    the optional yaml module is a parameter of the validator, and
    [yaml_subset] is what YAML makes of a document written the way the
    generator writes its frontmatter. *)

From Stdlib Require Import NArith String Ascii.
From stdpp Require Import gmap list sorting.

Set Default Proof Using "Type".
#[local] Set Warnings "-clear-no-such-hyp".

(** ** Python strings *)

(** A [str] is a sequence of Unicode code points. *)
Abbreviation str := (list N).

(** [u "text"] is the str of an ASCII literal. *)
Definition u (s : string) : str := List.map N_of_ascii (list_ascii_of_string s).
Arguments u s%_string.

Definition HYPHEN : N := 45.
Definition NEWLINE : N := 10.
Definition DQUOTE : N := 34.

Definition is_ascii (c : N) : bool := (c <? 128)%N.
Definition is_az (c : N) : bool := (97 <=? c)%N && (c <=? 122)%N.
Definition is_AZ (c : N) : bool := (65 <=? c)%N && (c <=? 90)%N.
Definition is_09 (c : N) : bool := (48 <=? c)%N && (c <=? 57)%N.
Definition is_hyphen (c : N) : bool := (c =? HYPHEN)%N.

(** The character class [a-z0-9] of the normalizer's first pattern. *)
Definition is_az09 (c : N) : bool := is_az c || is_09 c.

(** [s == t] on strs. *)
Definition str_eqb (s t : str) : bool := bool_decide (s = t).

(** [s.startswith(prefix)]. *)
Fixpoint startswith (prefix s : str) : bool :=
  match prefix, s with
  | [], _ => true
  | _ :: _, [] => false
  | a :: prefix', b :: s' => (a =? b)%N && startswith prefix' s'
  end.

(** [s.partition(sep)] for a non-empty [sep], as an option: the text before
    and after the leftmost occurrence of [sep], or [None] without one. *)
Fixpoint partition (sep s : str) : option (str * str) :=
  if startswith sep s then Some ([], drop (length sep) s)
  else match s with
       | [] => None
       | c :: s' =>
           match partition sep s' with
           | Some (before, after) => Some (c :: before, after)
           | None => None
           end
       end.

(** [s.split(sep, maxsplit)] for a non-empty [sep]: at most [maxsplit] cuts,
    at the leftmost occurrences, which do not overlap. *)
Fixpoint split_max (sep : str) (maxsplit : nat) (s : str) : list str :=
  match maxsplit with
  | O => [s]
  | S n =>
      match partition sep s with
      | Some (before, after) => before :: split_max sep n after
      | None => [s]
      end
  end.

(** [s.split(sep)]: no bound on the cuts (a str of length n has at most n
    occurrences of a non-empty separator that do not overlap). *)
Definition split (sep s : str) : list str := split_max sep (length s) s.

(** [sep.join(parts)]. *)
Fixpoint join (sep : str) (parts : list str) : str :=
  match parts with
  | [] => []
  | [p] => p
  | p :: rest => p ++ sep ++ join sep rest
  end.

(** [sub in s]. *)
Fixpoint contains (sub s : str) : bool :=
  startswith sub s ||
  match s with
  | [] => false
  | _ :: s' => contains sub s'
  end.

(** [s.count(sub)] for a non-empty [sub]: occurrences that do not overlap,
    counted from the left. *)
Fixpoint count_from (n : nat) (sub s : str) : nat :=
  match n with
  | O => 0
  | S n' =>
      match partition sub s with
      | Some (_, after) => S (count_from n' sub after)
      | None => 0
      end
  end.
Definition count (sub s : str) : nat := count_from (length s) sub s.

(** [s.replace(old, new)] for a single character [old]. *)
Definition replace_char (old : N) (new : str) (s : str) : str :=
  flat_map (fun c => if (c =? old)%N then new else [c]) s.

Fixpoint drop_while (p : N -> bool) (s : str) : str :=
  match s with
  | [] => []
  | c :: s' => if p c then drop_while p s' else s
  end.

(** [s.strip(chars)], with the set [chars] given as a predicate. *)
Definition strip_with (p : N -> bool) (s : str) : str :=
  rev (drop_while p (rev (drop_while p s))).

(** [re.sub(r"[^a-z0-9]+", "-", s)]: every maximal run of characters outside
    [a-z0-9] becomes one hyphen.  [in_run] says that the previous character
    belonged to the run being replaced. *)
Fixpoint sub_non_alnum_from (in_run : bool) (s : str) : str :=
  match s with
  | [] => []
  | c :: s' =>
      if is_az09 c then c :: sub_non_alnum_from false s'
      else if in_run then sub_non_alnum_from true s'
      else HYPHEN :: sub_non_alnum_from true s'
  end.
Definition sub_non_alnum (s : str) : str := sub_non_alnum_from false s.

(** [re.sub(r"-{2,}", "-", s)]: every run of two or more hyphens becomes one
    hyphen (a hyphen followed by a hyphen is dropped, the last of the run
    stays); a lone hyphen is not matched. *)
Fixpoint sub_hyphen_runs (s : str) : str :=
  match s with
  | [] => []
  | c :: s' =>
      if is_hyphen c && startswith [HYPHEN] s' then sub_hyphen_runs s'
      else c :: sub_hyphen_runs s'
  end.

(** ** The Python runtime

    ASCII behaviour of the str methods the scripts call. *)

Definition ascii_isspace (c : N) : bool :=
  (9 <=? c)%N && (c <=? 13)%N || (28 <=? c)%N && (c <=? 32)%N.
Definition ascii_lower (c : N) : N := if is_AZ c then (c + 32)%N else c.
Definition ascii_upper (c : N) : N := if is_az c then (c - 32)%N else c.
Definition ascii_capitalize (s : str) : str :=
  match s with
  | [] => []
  | c :: s' => ascii_upper c :: List.map ascii_lower s'
  end.
(** str.islower: some cased character, and no uppercase one. *)
Definition ascii_islower (s : str) : bool :=
  existsb is_az s && negb (existsb is_AZ s).
(** str.isdigit: not empty, digits only. *)
Definition ascii_isdigit (s : str) : bool :=
  negb (bool_decide (s = [])) && forallb is_09 s.

(** A calendar date and time of day, as datetime.now(timezone.utc) gives. *)
Record datetime : Type := mk_datetime {
  year : N; month : N; day : N; hour : N; minute : N; second : N
}.

Definition is_leap (y : N) : bool :=
  ((y mod 4 =? 0) && negb (y mod 100 =? 0) || (y mod 400 =? 0))%N.
Definition days_in_month (y m : N) : N :=
  match m with
  | 2 => if is_leap y then 29 else 28
  | 4 | 6 | 9 | 11 => 30
  | _ => 31
  end%N.
(** The datetimes whose year strftime writes with four digits. *)
Definition valid_datetime (d : datetime) : bool :=
  ((1000 <=? year d) && (year d <=? 9999) &&
   (1 <=? month d) && (month d <=? 12) &&
   (1 <=? day d) && (day d <=? days_in_month (year d) (month d)) &&
   (hour d <? 24) && (minute d <? 60) && (second d <? 60))%N.

Definition digit (n : N) : N := (48 + n mod 10)%N.
Definition pad2 (n : N) : str := [digit (n / 10); digit n].
Definition pad4 (n : N) : str :=
  [digit (n / 1000); digit (n / 100); digit (n / 10); digit n].

(** [d.strftime("%Y-%m-%dT%H:%M:%S")]. *)
Definition iso_seconds (d : datetime) : str :=
  pad4 (year d) ++ u "-" ++ pad2 (month d) ++ u "-" ++ pad2 (day d) ++ u "T" ++
  pad2 (hour d) ++ u ":" ++ pad2 (minute d) ++ u ":" ++ pad2 (second d).

(** [d.strftime("%Y-%m-%dT%H:%M:%SZ")]. *)
Definition strftime_utc (d : datetime) : str := iso_seconds d ++ u "Z".

Class Python : Type := {
  (** c.isspace() for one character *)
  isspace : N -> bool;
  (** s.lower() *)
  lower : str -> str;
  (** s.capitalize() *)
  capitalize : str -> str;
  (** s.islower() *)
  islower : str -> bool;
  (** s.isdigit() *)
  isdigit : str -> bool;
  (** datetime.fromisoformat(s) returns (true) or raises ValueError (false) *)
  fromisoformat : str -> bool;
  isspace_ascii : forall c, is_ascii c = true -> isspace c = ascii_isspace c;
  lower_ascii : forall s, forallb is_ascii s = true -> lower s = List.map ascii_lower s;
  capitalize_ascii : forall s, forallb is_ascii s = true -> capitalize s = ascii_capitalize s;
  islower_ascii : forall s, forallb is_ascii s = true -> islower s = ascii_islower s;
  isdigit_ascii : forall s, forallb is_ascii s = true -> isdigit s = ascii_isdigit s;
  fromisoformat_utc : forall d, valid_datetime d = true ->
    fromisoformat (iso_seconds d ++ u "+00:00") = true
}.

(** A fromisoformat that reads the one format the generator writes (after
    the validator has replaced the Z). *)
Definition parse2 (s : str) : option N :=
  match s with
  | [a; b] => if is_09 a && is_09 b
              then Some ((a - 48) * 10 + (b - 48))%N else None
  | _ => None
  end.
Definition parse4 (s : str) : option N :=
  match s with
  | [a; b; c; d] =>
      match parse2 [a; b], parse2 [c; d] with
      | Some h, Some l => Some (h * 100 + l)%N
      | _, _ => None
      end
  | _ => None
  end.
Definition ascii_fromisoformat (s : str) : bool :=
  match s with
  | y1 :: y2 :: y3 :: y4 :: 45%N :: m1 :: m2 :: 45%N :: d1 :: d2 :: 84%N ::
    h1 :: h2 :: 58%N :: i1 :: i2 :: 58%N :: s1 :: s2 :: tz =>
      match parse4 [y1; y2; y3; y4], parse2 [m1; m2], parse2 [d1; d2],
            parse2 [h1; h2], parse2 [i1; i2], parse2 [s1; s2] with
      | Some y, Some m, Some d, Some h, Some i, Some sec =>
          ((1 <=? y) && (1 <=? m) && (m <=? 12) && (1 <=? d) &&
           (d <=? days_in_month y m) && (h <? 24) && (i <? 60) && (sec <? 60))%N
          && str_eqb tz (u "+00:00")
      | _, _, _, _, _, _ => false
      end
  | _ => false
  end.

(** ** The generator: init_skill.py *)

Definition MAX_SKILL_NAME_LENGTH : nat := 64.
Definition ALLOWED_RESOURCES : list str := [u "scripts"; u "references"; u "assets"].

(** A template literal: every line of the source ends with a newline. *)
Definition unlines (lines : list str) : str :=
  flat_map (fun l => l ++ [NEWLINE]) lines.

(** The lines of SKILL_TEMPLATE, with the three placeholders of
    SKILL_TEMPLATE.format as arguments. *)
Definition SKILL_TEMPLATE_lines (skill_name : str) (skill_title : str) (timestamp : str) : list str :=
  [ u "---";
    u "id: " ++ skill_name;
    u "name: " ++ skill_title;
    u "description: [TODO: Describe what this skill does and WHEN to use it. This is critical for skill triggering. Include specific scenarios, file types, or tasks that should trigger this skill.]";
    u "category: [TODO: e.g., development, document, system, etc.]";
    u "tags:";
    u "  - [TODO: tag1]";
    u "  - [TODO: tag2]";
    u "tool_refs: []";
    u "workflow_refs: []";
    u "visibility: public";
    u "version: " ++ [DQUOTE] ++ u "1.0.0" ++ [DQUOTE];
    u "created_at: " ++ [DQUOTE] ++ timestamp ++ [DQUOTE];
    u "updated_at: " ++ [DQUOTE] ++ timestamp ++ [DQUOTE];
    u "---";
    [];
    u "# " ++ skill_title;
    [];
    u "## Overview";
    [];
    u "[TODO: 1-2 sentences explaining what this skill enables]";
    [];
    u "## When to Use";
    [];
    u "[TODO: Specific scenarios that trigger this skill. Examples:";
    u "- " ++ [DQUOTE] ++ u "Use this skill when working with PDF files" ++ [DQUOTE];
    u "- " ++ [DQUOTE] ++ u "Use this skill for code review tasks" ++ [DQUOTE];
    u "- " ++ [DQUOTE] ++ u "Use this skill when analyzing database schemas" ++ [DQUOTE];
    u "]";
    [];
    u "## Workflow";
    [];
    u "[TODO: Describe the workflow for using this skill]";
    [];
    u "### Step 1: [First step]";
    [];
    u "[Instructions and examples]";
    [];
    u "### Step 2: [Second step]";
    [];
    u "[Instructions and examples]";
    [];
    u "## Resources";
    [];
    u "[TODO: Reference bundled resources if applicable]";
    [];
    u "### scripts/";
    u "- `scripts/example.py` - [Description of what this script does]";
    [];
    u "### references/";
    u "- `references/guide.md` - [Description of reference documentation]";
    [];
    u "### assets/";
    u "- `assets/template.txt` - [Description of asset files]";
    [];
    u "---";
    [];
    u "**Delete TODO sections as you complete them**" ].

(** The lines of EXAMPLE_SCRIPT; its doubled braces are format escapes. *)
Definition EXAMPLE_SCRIPT_lines (skill_name : str) : list str :=
  [ u "#!/usr/bin/env python3";
    [DQUOTE] ++ [DQUOTE] ++ [DQUOTE];
    u "Example helper script for " ++ skill_name;
    [];
    u "This is a placeholder script. Replace with actual implementation or delete.";
    [];
    u "Usage:";
    u "    python3 example.py <input> <output>";
    [DQUOTE] ++ [DQUOTE] ++ [DQUOTE];
    [];
    u "import argparse";
    [];
    [];
    u "def main():";
    u "    parser = argparse.ArgumentParser(description=" ++ [DQUOTE] ++ u "Example script for " ++ skill_name ++ [DQUOTE] ++ u ")";
    u "    parser.add_argument(" ++ [DQUOTE] ++ u "input" ++ [DQUOTE] ++ u ", help=" ++ [DQUOTE] ++ u "Input file" ++ [DQUOTE] ++ u ")";
    u "    parser.add_argument(" ++ [DQUOTE] ++ u "output" ++ [DQUOTE] ++ u ", help=" ++ [DQUOTE] ++ u "Output file" ++ [DQUOTE] ++ u ")";
    u "    args = parser.parse_args()";
    [];
    u "    # TODO: Add actual script logic here";
    u "    print(f" ++ [DQUOTE] ++ u "Processing {args.input} -> {args.output}" ++ [DQUOTE] ++ u ")";
    [];
    [];
    u "if __name__ == " ++ [DQUOTE] ++ u "__main__" ++ [DQUOTE] ++ u ":";
    u "    main()" ].

(** The lines of EXAMPLE_REFERENCE. *)
Definition EXAMPLE_REFERENCE_lines (skill_title : str) : list str :=
  [ u "# Reference Guide for " ++ skill_title;
    [];
    u "This is placeholder reference documentation. Replace with actual content or delete.";
    [];
    u "## Purpose";
    [];
    u "[Describe what information this reference contains]";
    [];
    u "## When to Read This";
    [];
    u "[Specify when this reference should be loaded into context]";
    [];
    u "## Content";
    [];
    u "[Detailed reference information]";
    [];
    u "## Examples";
    [];
    u "[Concrete examples if applicable]" ].

(** The lines of EXAMPLE_ASSET, which is written as it is. *)
Definition EXAMPLE_ASSET_lines : list str :=
  [ u "# Example Asset";
    [];
    u "This placeholder represents asset files stored in the assets/ directory.";
    [];
    u "Asset files are NOT loaded into context but are used in the output.";
    [];
    u "Examples:";
    u "- Templates (pptx, docx)";
    u "- Images (png, jpg, svg)";
    u "- Fonts (ttf, woff2)";
    u "- Boilerplate code directories";
    [];
    u "Replace this file with actual assets or delete if not needed." ].

Definition SKILL_TEMPLATE (skill_name skill_title timestamp : str) : str :=
  unlines (SKILL_TEMPLATE_lines skill_name skill_title timestamp).
Definition EXAMPLE_SCRIPT (skill_name : str) : str :=
  unlines (EXAMPLE_SCRIPT_lines skill_name).
Definition EXAMPLE_REFERENCE (skill_title : str) : str :=
  unlines (EXAMPLE_REFERENCE_lines skill_title).
Definition EXAMPLE_ASSET : str := unlines EXAMPLE_ASSET_lines.

(** *** Names and resource selections *)

Section Generator.
Context {py : Python}.

(** [s.strip()]: whitespace off both ends. *)
Definition strip (s : str) : str := strip_with isspace s.

Definition normalize_skill_name (skill_name : str) : str :=
  let normalized := lower (strip skill_name) in
  let normalized := sub_non_alnum normalized in
  let normalized := strip_with is_hyphen normalized in
  let normalized := sub_hyphen_runs normalized in
  normalized.

Definition title_case_skill_name (skill_name : str) : str :=
  join (u " ") (List.map capitalize (split (u "-") skill_name)).

End Generator.

(** *** The filesystem and the console *)

(** A path is the list of its components below the root, already resolved
    (absolute, no dot segments, no symbolic links): [Path(p).resolve()] is
    the identity on it, and [p / name] appends one component. *)
Abbreviation path := (list (list N)).

Inductive node : Type :=
  | Dir
  | File (content : str) (executable : bool).

Abbreviation filesystem := (gmap (list (list N)) node).

(** The OSErrors of the model.  It has no permissions and no limit on the
    length of a name: PermissionError and the error of a name too long are
    not among them. *)
Inductive oserror : Type :=
  | FileExistsError
  | FileNotFoundError
  | NotADirectoryError
  | IsADirectoryError.

(** What the generator prints, one constructor per print call. *)
Inductive line : Type :=
  | ErrUnknownResources (invalid : str)
  | AllowedResources (allowed : str)
  | OkCreatedResource (what : str)
  | ErrAlreadyExists (skill_dir : path)
  | OkCreatedDirectory (skill_dir : path)
  | ErrCreatingDirectory (e : oserror)
  | OkCreatedSkillMd
  | ErrCreatingSkillMd (e : oserror)
  | ErrCreatingResources (e : oserror)
  | OkInitialized (skill_name : str) (skill_dir : path)
  | NextStepsHeading
  | NextStep (n : nat)
  | ValidatorCommand (skill_dir : path)
  | ErrNoLetterOrDigit
  | ErrTooLong (skill_name : str) (len : nat)
  | NoteNormalized (raw_skill_name skill_name : str)
  | ErrExamplesNeedResources
  | Initializing (skill_name : str)
  | Location (location : path)
  | ResourcesLine (resources : str)
  | ExamplesEnabled
  | ResourcesNone
  | BlankLine.

Record world : Type := World { files : filesystem; console : list line }.

Inductive exn : Type :=
  | OSError (e : oserror)
  | SystemExit (code : nat).

Inductive result (A : Type) : Type :=
  | Ok (a : A)
  | Raised (e : exn).
Arguments Ok {A} a.
Arguments Raised {A} e.

(** A command: it reads and changes the world, and returns or raises. *)
Definition io (A : Type) : Type := world -> result A * world.

Definition ret {A} (a : A) : io A := fun w => (Ok a, w).
Definition raise {A} (e : exn) : io A := fun w => (Raised e, w).
Definition bind {A B} (c : io A) (k : A -> io B) : io B :=
  fun w => match c w with
           | (Ok a, w') => k a w'
           | (Raised e, w') => (Raised e, w')
           end.
Notation "x <- c ;; k" := (bind c (fun x => k))
  (at level 100, c at next level, right associativity).
Notation "c ;;; k" := (bind c (fun _ => k))
  (at level 100, right associativity).

(** [try: body  except Exception as e: handler e]; SystemExit is no
    Exception and passes through. *)
Definition try_except {A} (body : io A) (handler : oserror -> io A) : io A :=
  fun w => match body w with
           | (Raised (OSError e), w') => handler e w'
           | r => r
           end.

Definition print (l : line) : io unit :=
  fun w => (Ok tt, World (files w) (console w ++ [l])).
Definition sys_exit {A} (code : nat) : io A := raise (SystemExit code).

(** The node at a path; the root is a directory. *)
Definition lookup_node (fs : filesystem) (p : path) : option node :=
  match p with
  | [] => Some Dir
  | _ => fs !! p
  end.
Definition parent (p : path) : path := removelast p.
(** [p.name]: the last component, empty for the root. *)
Definition name (p : path) : str := List.last p [].

Definition path_exists_in (fs : filesystem) (p : path) : bool :=
  match lookup_node fs p with Some _ => true | None => false end.
Definition is_dir_in (fs : filesystem) (p : path) : bool :=
  match lookup_node fs p with Some Dir => true | _ => false end.

(** [p.exists()] where every directory can be searched: it returns.  On a
    directory that cannot be searched, or a name too long, Path.exists()
    raises an OSError, and init_skill calls it outside its try blocks; that
    is outside the model. *)
Definition path_exists (p : path) : io bool :=
  fun w => (Ok (path_exists_in (files w) p), w).

(** [os.mkdir(p)]. *)
Definition os_mkdir (p : path) : io unit :=
  fun w =>
    if path_exists_in (files w) p then (Raised (OSError FileExistsError), w)
    else match lookup_node (files w) (parent p) with
         | Some Dir => (Ok tt, World (<[p := Dir]> (files w)) (console w))
         | Some (File _ _) => (Raised (OSError NotADirectoryError), w)
         | None => (Raised (OSError FileNotFoundError), w)
         end.

(** [p.mkdir(parents=.., exist_ok=..)], as pathlib writes it: os.mkdir; when
    the parent is missing and [parents] is set, make the parent (with its
    own parents, an existing one accepted) and call mkdir again without
    [parents]; any other OSError is raised again unless [exist_ok] is set
    and [p] is a directory.  [depth] bounds the ascent. *)
Fixpoint mkdir (depth : nat) (parents exist_ok : bool) (p : path) : io unit :=
  fun w =>
    match os_mkdir p w with
    | (Raised (OSError FileNotFoundError), _) =>
        match depth with
        | S depth' =>
            if negb parents || bool_decide (parent p = p)
            then (Raised (OSError FileNotFoundError), w)
            else (mkdir depth' true true (parent p) ;;;
                  mkdir depth' false exist_ok p) w
        | O => (Raised (OSError FileNotFoundError), w)
        end
    | (Raised (OSError e), _) =>
        if exist_ok && is_dir_in (files w) p then (Ok tt, w)
        else (Raised (OSError e), w)
    | r => r
    end.

(** The ascent from [p] ends at the root within [length p] steps. *)
Definition path_mkdir (parents exist_ok : bool) (p : path) : io unit :=
  mkdir (S (length p)) parents exist_ok p.

(** [p.write_text(content)]: a new file is not executable, an existing one
    keeps its mode. *)
Definition write_text (p : path) (content : str) : io unit :=
  fun w =>
    match lookup_node (files w) p with
    | Some Dir => (Raised (OSError IsADirectoryError), w)
    | Some (File _ x) => (Ok tt, World (<[p := File content x]> (files w)) (console w))
    | None =>
        match lookup_node (files w) (parent p) with
        | Some Dir => (Ok tt, World (<[p := File content false]> (files w)) (console w))
        | Some (File _ _) => (Raised (OSError NotADirectoryError), w)
        | None => (Raised (OSError FileNotFoundError), w)
        end
    end.

(** [p.chmod(0o755)]. *)
Definition chmod_755 (p : path) : io unit :=
  fun w =>
    match lookup_node (files w) p with
    | Some (File c _) => (Ok tt, World (<[p := File c true]> (files w)) (console w))
    | Some Dir => (Ok tt, w)
    | None => (Raised (OSError FileNotFoundError), w)
    end.

(** [p.read_text()]. *)
Definition read_text (fs : filesystem) (p : path) : oserror + str :=
  match lookup_node fs p with
  | Some (File c _) => inr c
  | Some Dir => inl IsADirectoryError
  | None => inl FileNotFoundError
  end.

(** *** parse_resources, create_resource_dirs, init_skill, main *)

(** The order of [sorted] on strs: lexicographic on code points. *)
Fixpoint str_leb (s t : str) : bool :=
  match s, t with
  | [], _ => true
  | _ :: _, [] => false
  | a :: s', b :: t' => (a <? b)%N || ((a =? b)%N && str_leb s' t')
  end.
Definition str_le (s t : str) : Prop := Is_true (str_leb s t).

(** [sorted(xs)] of a set of strs. *)
Definition sorted (xs : gset (list N)) : list str :=
  merge_sort str_le (elements xs).

Section GeneratorCommands.
Context {py : Python}.

Definition is_allowed (item : str) : bool :=
  bool_decide (item ∈ ALLOWED_RESOURCES).

(** The loop that fills [deduped] and [seen]. *)
Fixpoint dedupe (resources : list str) (deduped : list str)
    (seen : gset (list N)) : list str :=
  match resources with
  | [] => deduped
  | resource :: rest =>
      if bool_decide (resource ∉ seen)
      then dedupe rest (deduped ++ [resource]) (seen ∪ {[resource]})
      else dedupe rest deduped seen
  end.

Definition parse_resources (raw_resources : str) : io (list str) :=
  match raw_resources with
  | [] => ret []
  | _ =>
      let resources :=
        List.map strip
          (List.filter (fun item => negb (bool_decide (strip item = [])))
             (split (u ",") raw_resources)) in
      let invalid :=
        sorted (list_to_set
                  (List.filter (fun item => negb (is_allowed item)) resources)) in
      match invalid with
      | _ :: _ =>
          let allowed := join (u ", ") (sorted (list_to_set ALLOWED_RESOURCES)) in
          print (ErrUnknownResources (join (u ", ") invalid)) ;;;
          print (AllowedResources allowed) ;;;
          sys_exit 1
      | [] => ret (dedupe resources [] ∅)
      end
  end.

Fixpoint create_resource_dirs (skill_dir : path) (skill_name skill_title : str)
    (resources : list str) (include_examples : bool) : io unit :=
  match resources with
  | [] => ret tt
  | resource :: rest =>
      let resource_dir := skill_dir ++ [resource] in
      path_mkdir false true resource_dir ;;;
      (if bool_decide (resource = u "scripts") then
         if include_examples then
           let example_script := resource_dir ++ [u "example.py"] in
           write_text example_script (EXAMPLE_SCRIPT skill_name) ;;;
           chmod_755 example_script ;;;
           print (OkCreatedResource (u "scripts/example.py"))
         else print (OkCreatedResource (u "scripts/"))
       else if bool_decide (resource = u "references") then
         if include_examples then
           let example_ref := resource_dir ++ [u "guide.md"] in
           write_text example_ref (EXAMPLE_REFERENCE skill_title) ;;;
           print (OkCreatedResource (u "references/guide.md"))
         else print (OkCreatedResource (u "references/"))
       else if bool_decide (resource = u "assets") then
         if include_examples then
           let example_asset := resource_dir ++ [u "example.txt"] in
           write_text example_asset EXAMPLE_ASSET ;;;
           print (OkCreatedResource (u "assets/example.txt"))
         else print (OkCreatedResource (u "assets/"))
       else ret tt) ;;;
      create_resource_dirs skill_dir skill_name skill_title rest include_examples
  end.

(** [init_skill(skill_name, path, resources, include_examples)]; [now] is
    the reading of the clock, datetime.now(timezone.utc).  A [try] block
    returns whether it ran to its end, the function's early [return None]
    follows a [false]. *)
Definition init_skill (now : datetime) (skill_name : str) (path : path)
    (resources : list str) (include_examples : bool) : io (option (list (list N))) :=
  let skill_dir := path ++ [skill_name] in
  existing <- path_exists skill_dir ;;
  if existing : bool then
    print (ErrAlreadyExists skill_dir) ;;;
    ret None
  else
    created <- try_except
                 (path_mkdir true false skill_dir ;;;
                  print (OkCreatedDirectory skill_dir) ;;;
                  ret true)
                 (fun e => print (ErrCreatingDirectory e) ;;; ret false) ;;
    if negb created then ret None
    else
      let skill_title := title_case_skill_name skill_name in
      let timestamp := strftime_utc now in
      let skill_content := SKILL_TEMPLATE skill_name skill_title timestamp in
      let skill_md_path := skill_dir ++ [u "SKILL.md"] in
      written <- try_except
                   (write_text skill_md_path skill_content ;;;
                    print OkCreatedSkillMd ;;;
                    ret true)
                   (fun e => print (ErrCreatingSkillMd e) ;;; ret false) ;;
      if negb written then ret None
      else
        made <- match resources with
                | _ :: _ =>
                    try_except
                      (create_resource_dirs skill_dir skill_name skill_title
                         resources include_examples ;;;
                       ret true)
                      (fun e => print (ErrCreatingResources e) ;;; ret false)
                | [] => ret true
                end ;;
        if negb made then ret None
        else
          print (OkInitialized skill_name skill_dir) ;;;
          print NextStepsHeading ;;;
          print (NextStep 1) ;;;
          print (NextStep 2) ;;;
          print (NextStep 3) ;;;
          print (NextStep 4) ;;;
          print (ValidatorCommand skill_dir) ;;;
          ret (Some skill_dir).

(** [main()] from the line after parser.parse_args(), on the arguments
    argparse accepted.  What argparse does before (status 2 for an argument
    list it refuses, status 0 for -h) is not part of it. *)
Definition main (now : datetime) (raw_skill_name : str) (path : path)
    (raw_resources : str) (examples : bool) : io unit :=
  let skill_name := normalize_skill_name raw_skill_name in
  match skill_name return io unit with
  | [] => print ErrNoLetterOrDigit ;;; sys_exit 1
  | _ =>
      if (MAX_SKILL_NAME_LENGTH <? length skill_name)%nat then
        print (ErrTooLong skill_name (length skill_name)) ;;; sys_exit 1
      else
        (if bool_decide (skill_name ≠ raw_skill_name)
         then print (NoteNormalized raw_skill_name skill_name) else ret tt) ;;;
        resources <- parse_resources raw_resources ;;
        if examples && bool_decide (resources = []) then
          print ErrExamplesNeedResources ;;; sys_exit 1
        else
          print (Initializing skill_name) ;;;
          print (Location path) ;;;
          match resources with
          | _ :: _ =>
              print (ResourcesLine (join (u ", ") resources)) ;;;
              (if examples then print ExamplesEnabled else ret tt)
          | [] => print ResourcesNone
          end ;;;
          print BlankLine ;;;
          result <- init_skill now skill_name path resources examples ;;
          match result with
          | Some _ => sys_exit 0
          | None => sys_exit 1
          end
  end.

End GeneratorCommands.

(** ** The validator: validate_skill.py *)

#[local] Set Warnings "-register-all".

(** The values yaml.safe_load gives for a document without tags.  Of a float
    the validator can observe only whether it is zero; [YTime] is a
    datetime.date or datetime.datetime.  The entries of a [YDict] are in
    insertion order, their keys pairwise distinct. *)
Inductive yaml : Type :=
  | YNone
  | YBool (b : bool)
  | YInt (n : Z)
  | YFloat (is_zero : bool)
  | YTime
  | YStr (s : str)
  | YList (items : list yaml)
  | YDict (entries : list (yaml * yaml)).

(** The yaml module, when the import succeeds: yaml.safe_load returns a
    value or raises yaml.YAMLError ([None]).  An exception of another class
    (the ValueError of a date that does not exist) is not modelled. *)
Definition yaml_module : Type := str -> option yaml.

Definition REQUIRED_FIELDS : list str :=
  [u "id"; u "name"; u "description"; u "category"; u "tags"; u "tool_refs";
   u "workflow_refs"; u "visibility"; u "version"; u "created_at"; u "updated_at"].
Definition VALID_VISIBILITY : list str := [u "public"; u "private"].

(** The exceptions the checks can raise; nothing catches them. *)
Inductive pyerror : Type := TypeError | AttributeError | KeyError | IndexError.

Inductive tried (A : Type) : Type :=
  | Fine (a : A)
  | Thrown (e : pyerror).
Arguments Fine {A} a.
Arguments Thrown {A} e.

Definition tried_bind {A B} (c : tried A) (k : A -> tried B) : tried B :=
  match c with
  | Fine a => k a
  | Thrown e => Thrown e
  end.
Notation "x <~ c ;; k" := (tried_bind c (fun x => k))
  (at level 100, c at next level, right associativity).

(** [bool(v)]. *)
Definition truthy (v : yaml) : bool :=
  match v with
  | YNone => false
  | YBool b => b
  | YInt n => negb (n =? 0)%Z
  | YFloat is_zero => negb is_zero
  | YTime => true
  | YStr s => negb (bool_decide (s = []))
  | YList items => negb (bool_decide (length items = 0))
  | YDict entries => negb (bool_decide (length entries = 0))
  end.

(** [v == s] for a str [s]: only an equal str is equal to a str. *)
Definition eq_str (v : yaml) (s : str) : bool :=
  match v with
  | YStr t => str_eqb t s
  | _ => false
  end.

(** [k == 0] for a dict key: 0, False and 0.0 are one key. *)
Definition eq_zero (k : yaml) : bool :=
  match k with
  | YInt n => (n =? 0)%Z
  | YBool b => negb b
  | YFloat is_zero => is_zero
  | _ => false
  end.

(** [d[field]] and [field in d] for a str [field]. *)
Fixpoint dict_get (entries : list (yaml * yaml)) (field : str) : option yaml :=
  match entries with
  | [] => None
  | (k, v) :: rest => if eq_str k field then Some v else dict_get rest field
  end.
Definition dict_has (entries : list (yaml * yaml)) (field : str) : bool :=
  match dict_get entries field with Some _ => true | None => false end.
Definition getitem (entries : list (yaml * yaml)) (field : str) : tried yaml :=
  match dict_get entries field with
  | Some v => Fine v
  | None => Thrown KeyError
  end.

(** [v[0]]. *)
Definition getitem0 (v : yaml) : tried yaml :=
  match v with
  | YStr (c :: _) => Fine (YStr [c])
  | YList (x :: _) => Fine x
  | YStr [] | YList [] => Thrown IndexError
  | YDict entries =>
      match List.find (fun kv => eq_zero (fst kv)) entries with
      | Some (_, x) => Fine x
      | None => Thrown KeyError
      end
  | _ => Thrown TypeError
  end.

(** [iter(v)]. *)
Definition iterate (v : yaml) : tried (list yaml) :=
  match v with
  | YStr s => Fine (List.map (fun c => YStr [c]) s)
  | YList items => Fine items
  | YDict entries => Fine (List.map fst entries)
  | _ => Thrown TypeError
  end.

(** [isinstance(v, list)]. *)
Definition is_list (v : yaml) : bool :=
  match v with YList _ => true | _ => false end.

(** [needle in v]. *)
Definition py_in (needle : str) (v : yaml) : tried bool :=
  match v with
  | YStr s => Fine (contains needle s)
  | YList items => Fine (existsb (fun x => eq_str x needle) items)
  | YDict entries => Fine (existsb (fun kv => eq_str (fst kv) needle) entries)
  | _ => Thrown TypeError
  end.

(** [len(v)]. *)
Definition py_len (v : yaml) : tried nat :=
  match v with
  | YStr s => Fine (length s)
  | YList items => Fine (length items)
  | YDict entries => Fine (length entries)
  | _ => Thrown TypeError
  end.

(** [v not in VALID_VISIBILITY]: a list or a dict cannot be hashed. *)
Definition not_in_visibility (v : yaml) : tried bool :=
  match v with
  | YStr s => Fine (negb (bool_decide (s ∈ VALID_VISIBILITY)))
  | YList _ | YDict _ => Thrown TypeError
  | _ => Fine true
  end.

(** The entries of the errors and warnings lists, one constructor per
    message; a value shown in a message is kept as the value. *)
Inductive error : Type :=
  | MissingField (field : str)
  | IdMismatch (id : yaml) (skill_name : str)
  | InvalidIdFormat (id : yaml)
  | InvalidVisibility (visibility : yaml)
  | InvalidTimestamp (field : str) (value : yaml)
  | NotAnArray (field : str)
  | BodyEmpty.

Inductive warning : Type :=
  | BodyEmptyWarning
  | BodyVeryShort
  | TodoMarkers (todo_count : nat)
  | DescriptionTodo
  | DescriptionShort.

(** The conditions that end validation at once, with one [ERROR] line. *)
Inductive fatal : Type :=
  | DirectoryMissing
  | NotADirectory
  | SkillMdNotFound
  | CannotRead (e : oserror)
  | NoFrontmatter
  | InvalidFrontmatterFormat
  | InvalidYaml
  | NotAnObject.

(** A value in the summary of the fields. *)
Inductive display : Type :=
  | Items (n : nat)
  | Text (s : str)
  | Shown (v : yaml).

(** How a run of validate_skill ends:
    - [Fatal]: one [ERROR] line, returns False;
    - [BasicPassed]: prints [OK] Basic validation passed for: skill_name and
      [INFO] Install PyYAML for full validation, then its [WARN] lines;
      returns True;
    - [ValidationFailed]: prints [ERROR] Validation failed: and the errors;
      returns False;
    - [Valid]: prints [OK] Skill structure is valid: skill_name, the
      warnings and the fields; returns True;
    - [Uncaught]: an exception leaves validate_skill. *)
Inductive outcome : Type :=
  | Fatal (f : fatal)
  | BasicPassed (skill_name : str) (warnings : list warning)
  | ValidationFailed (errors : list error)
  | Valid (skill_name : str) (warnings : list warning) (fields : list (str * display))
  | Uncaught (e : pyerror).

(** The value validate_skill returns, if it returns. *)
Definition returned (o : outcome) : option bool :=
  match o with
  | Fatal _ | ValidationFailed _ => Some false
  | BasicPassed _ _ | Valid _ _ _ => Some true
  | Uncaught _ => None
  end.

(** The exit status of the validator's main: [sys.exit(0 if success else 1)],
    and 1 from the interpreter after an uncaught exception. *)
Definition exit_status (o : outcome) : nat :=
  match returned o with
  | Some true => 0
  | _ => 1
  end.

(** The errors list a run reports. *)
Definition reported_errors (o : outcome) : list error :=
  match o with
  | ValidationFailed errors => errors
  | _ => []
  end.

Section Validator.
Context {py : Python}.

Definition method_islower (v : yaml) : tried bool :=
  match v with
  | YStr s => Fine (islower s)
  | _ => Thrown AttributeError
  end.
Definition method_isdigit (v : yaml) : tried bool :=
  match v with
  | YStr s => Fine (isdigit s)
  | _ => Thrown AttributeError
  end.

(** [all(c.islower() or c.isdigit() or c == '-' for c in items)]: it stops
    at the first item that fails. *)
Fixpoint all_id_chars (items : list yaml) : tried bool :=
  match items with
  | [] => Fine true
  | c :: rest =>
      ok <~ (l <~ method_islower c ;;
             if l : bool then Fine true
             else d <~ method_isdigit c ;;
                  if d : bool then Fine true else Fine (eq_str c (u "-"))) ;;
      if ok : bool then all_id_chars rest else Fine false
  end.

Definition is_valid_skill_id (skill_id : yaml) : tried bool :=
  if negb (truthy skill_id) then Fine false
  else
    first <~ getitem0 skill_id ;;
    l <~ method_islower first ;;
    if negb l then Fine false
    else
      items <~ iterate skill_id ;;
      all_id_chars items.

Definition validate_timestamp (timestamp_str : yaml) : tried bool :=
  match timestamp_str with
  | YStr s => Fine (fromisoformat (replace_char 90 (u "+00:00") s))
  | YTime => Thrown TypeError
  | _ => Thrown AttributeError
  end.

(** The loop over created_at and updated_at. *)
Fixpoint check_timestamps (frontmatter : list (yaml * yaml)) (fields : list str)
    (errors : list error) : tried (list error) :=
  match fields with
  | [] => Fine errors
  | field :: rest =>
      v <~ getitem frontmatter field ;;
      ok <~ validate_timestamp v ;;
      check_timestamps frontmatter rest
        (if ok : bool then errors else errors ++ [InvalidTimestamp field v])
  end.

(** The loop over tags, tool_refs and workflow_refs. *)
Fixpoint check_arrays (frontmatter : list (yaml * yaml)) (fields : list str)
    (errors : list error) : tried (list error) :=
  match fields with
  | [] => Fine errors
  | field :: rest =>
      v <~ getitem frontmatter field ;;
      check_arrays frontmatter rest
        (if is_list v then errors else errors ++ [NotAnArray field])
  end.

(** [body.count("TODO") + body.count("[TODO")]. *)
Definition todo_count (body : str) : nat :=
  count (u "TODO") body + count (u "[TODO") body.

(** The warnings about the body, in the order the checks add them. *)
Definition body_warnings (body : str) : list warning :=
  match todo_count body with
  | O => []
  | S _ => [TodoMarkers (todo_count body)]
  end.

(** The summary of one field. *)
Definition display_of (v : yaml) : display :=
  match v with
  | YList items => Items (length items)
  | YStr s => if (50 <? length s)%nat then Text (take 50 s ++ u "...") else Text s
  | _ => Shown v
  end.
Fixpoint summary (frontmatter : list (yaml * yaml)) (fields : list str)
    : tried (list (str * display)) :=
  match fields with
  | [] => Fine []
  | field :: rest =>
      v <~ getitem frontmatter field ;;
      more <~ summary frontmatter rest ;;
      Fine ((field, display_of v) :: more)
  end.

(** The checks between the first report and the last (lines 131 to 169):
    they fill errors and warnings and decide nothing. *)
Definition collect (skill_name : str) (frontmatter : list (yaml * yaml))
    (body : str) : tried (list error * list warning) :=
  let errors : list error := [] in
  let warnings : list warning := [] in
  id <~ getitem frontmatter (u "id") ;;
  let errors := if negb (eq_str id skill_name)
                then errors ++ [IdMismatch id skill_name] else errors in
  valid_id <~ is_valid_skill_id id ;;
  let errors := if negb valid_id then errors ++ [InvalidIdFormat id] else errors in
  visibility <~ getitem frontmatter (u "visibility") ;;
  outside <~ not_in_visibility visibility ;;
  let errors := if outside : bool
                then errors ++ [InvalidVisibility visibility] else errors in
  errors <~ check_timestamps frontmatter [u "created_at"; u "updated_at"] errors ;;
  errors <~ check_arrays frontmatter [u "tags"; u "tool_refs"; u "workflow_refs"] errors ;;
  let errors := match body with [] => errors ++ [BodyEmpty] | _ => errors end in
  let warnings := match body with
                  | [] => warnings
                  | _ => if (length body <? 100)%nat
                         then warnings ++ [BodyVeryShort] else warnings
                  end in
  let warnings := warnings ++ body_warnings body in
  let description := default (YStr []) (dict_get frontmatter (u "description")) in
  todo <~ (t <~ py_in (u "TODO") description ;;
           if t : bool then Fine true else py_in (u "[TODO") description) ;;
  let warnings := if todo : bool then warnings ++ [DescriptionTodo] else warnings in
  len <~ py_len description ;;
  let warnings := if (len <? 50)%nat
                  then warnings ++ [DescriptionShort] else warnings in
  Fine (errors, warnings).

(** validate_skill from the required fields on (lines 120 to 194), for a
    frontmatter that is a dict. *)
Definition validate_frontmatter (skill_name : str)
    (frontmatter : list (yaml * yaml)) (body : str) : outcome :=
  let errors :=
    flat_map (fun field => if dict_has frontmatter field then []
                           else [MissingField field]) REQUIRED_FIELDS in
  match errors with
  | _ :: _ => ValidationFailed errors
  | [] =>
      match collect skill_name frontmatter body with
      | Thrown e => Uncaught e
      | Fine (errors, warnings) =>
          match errors with
          | _ :: _ => ValidationFailed errors
          | [] =>
              match summary frontmatter REQUIRED_FIELDS with
              | Thrown e => Uncaught e
              | Fine fields => Valid skill_name warnings fields
              end
          end
      end
  end.

(** The body checks of the run without yaml (lines 98 to 105). *)
Definition basic_warnings (body : str) : list warning :=
  match body with
  | [] => [BodyEmptyWarning]
  | _ => if (length body <? 100)%nat then [BodyVeryShort] else []
  end ++ body_warnings body.

(** [validate_skill(skill_dir)] in a filesystem; [yaml] is the imported
    module, [None] when the import failed (HAS_YAML is False). *)
Definition validate_skill (yaml : option yaml_module) (fs : filesystem)
    (skill_dir : path) : outcome :=
  let skill_path := skill_dir in
  if negb (path_exists_in fs skill_path) then Fatal DirectoryMissing
  else if negb (is_dir_in fs skill_path) then Fatal NotADirectory
  else
    let skill_name := name skill_path in
    let skill_md := skill_path ++ [u "SKILL.md"] in
    if negb (path_exists_in fs skill_md) then Fatal SkillMdNotFound
    else
      match read_text fs skill_md with
      | inl e => Fatal (CannotRead e)
      | inr content =>
          if negb (startswith (u "---") content) then Fatal NoFrontmatter
          else
            let parts := split_max (u "---") 2 content in
            if (length parts <? 3)%nat then Fatal InvalidFrontmatterFormat
            else
              let frontmatter_str := strip (nth 1 parts []) in
              let body := strip (nth 2 parts []) in
              match yaml with
              | None => BasicPassed skill_name (basic_warnings body)
              | Some safe_load =>
                  match safe_load frontmatter_str with
                  | None => Fatal InvalidYaml
                  | Some (YDict frontmatter) =>
                      validate_frontmatter skill_name frontmatter body
                  | Some _ => Fatal NotAnObject
                  end
              end
      end.

End Validator.

(** ** The Skill Identifier of the specification's data model

    Not empty, lowercase ASCII letters, digits and hyphens only, no leading,
    trailing or consecutive hyphens, at most 64 characters. *)

Definition allowed_char (c : N) : bool := is_az09 c || is_hyphen c.
Definition leading_hyphen (s : str) : bool := startswith [HYPHEN] s.
Definition trailing_hyphen (s : str) : bool := startswith [HYPHEN] (rev s).
Definition consecutive_hyphens (s : str) : bool := contains [HYPHEN; HYPHEN] s.

(** What the four steps of the normalizer leave: the grammar without its
    two bounds on the length. *)
Definition hyphen_case (s : str) : bool :=
  forallb allowed_char s && negb (leading_hyphen s) &&
  negb (trailing_hyphen s) && negb (consecutive_hyphens s).

Definition is_skill_identifier (s : str) : bool :=
  negb (bool_decide (s = [])) && hyphen_case s && (length s <=? 64)%nat.

(** ** The tokens of a resource selection, in the specification's words:
    split on commas, trim each token, drop the empty ones. *)

Definition tokens {py : Python} (raw : str) : list str :=
  List.filter (fun t => negb (bool_decide (t = [])))
    (List.map strip (split (u ",") raw)).

(** ** The grammar validate_skill checks an id against (is_valid_skill_id on
    a str): not empty, a lowercase first character, and lowercase
    characters, digits and hyphens only. *)

Definition id_char {py : Python} (c : N) : bool :=
  islower [c] || isdigit [c] || is_hyphen c.
Definition accepted_id {py : Python} (s : str) : bool :=
  match s with
  | [] => false
  | c :: _ => islower [c] && forallb id_char s
  end.

(** The same on ASCII text. *)
Definition ascii_accepted_id (s : str) : bool :=
  match s with
  | [] => false
  | c :: _ => is_az c && forallb allowed_char s
  end.

(** ** The errors of a frontmatter with all its fields: one for each check
    that fails, in the order of the checks. *)

Definition schema_errors (skill_name : str) (id : yaml) (valid_id : bool)
    (visibility : yaml) (outside : bool) (created_at : yaml) (created_ok : bool)
    (updated_at : yaml) (updated_ok : bool) (tags tool_refs workflow_refs : yaml)
    (body : str) : list error :=
  (if eq_str id skill_name then [] else [IdMismatch id skill_name]) ++
  (if valid_id then [] else [InvalidIdFormat id]) ++
  (if outside then [InvalidVisibility visibility] else []) ++
  (if created_ok then [] else [InvalidTimestamp (u "created_at") created_at]) ++
  (if updated_ok then [] else [InvalidTimestamp (u "updated_at") updated_at]) ++
  (if is_list tags then [] else [NotAnArray (u "tags")]) ++
  (if is_list tool_refs then [] else [NotAnArray (u "tool_refs")]) ++
  (if is_list workflow_refs then [] else [NotAnArray (u "workflow_refs")]) ++
  (match body with [] => [BodyEmpty] | _ => [] end).

(** The warnings of a run that reaches them, in the order of the checks;
    [todo] and [len] are what the checks of the description found. *)
Definition quality_warnings (body : str) (todo : bool) (len : nat) : list warning :=
  (match body with
   | [] => []
   | _ => if (length body <? 100)%nat then [BodyVeryShort] else []
   end) ++
  body_warnings body ++
  (if todo then [DescriptionTodo] else []) ++
  (if (len <? 50)%nat then [DescriptionShort] else []).

(** The mapping that the frontmatter of SKILL_TEMPLATE denotes in YAML: the
    entries in brackets are flow sequences, an entry with a colon in one of
    them is a mapping of one key. *)
Definition template_mapping (skill_name skill_title timestamp : str)
    : list (yaml * yaml) :=
  [ (YStr (u "id"), YStr skill_name);
    (YStr (u "name"), YStr skill_title);
    (YStr (u "description"),
     YList [YDict [(YStr (u "TODO"),
                    YStr (u "Describe what this skill does and WHEN to use it. This is critical for skill triggering. Include specific scenarios"))];
            YStr (u "file types");
            YStr (u "or tasks that should trigger this skill.")]);
    (YStr (u "category"),
     YList [YDict [(YStr (u "TODO"), YStr (u "e.g."))];
            YStr (u "development"); YStr (u "document"); YStr (u "system");
            YStr (u "etc.")]);
    (YStr (u "tags"),
     YList [YList [YDict [(YStr (u "TODO"), YStr (u "tag1"))]];
            YList [YDict [(YStr (u "TODO"), YStr (u "tag2"))]]]);
    (YStr (u "tool_refs"), YList []);
    (YStr (u "workflow_refs"), YList []);
    (YStr (u "visibility"), YStr (u "public"));
    (YStr (u "version"), YStr (u "1.0.0"));
    (YStr (u "created_at"), YStr timestamp);
    (YStr (u "updated_at"), YStr timestamp) ].

(** A frontmatter with a field removed. *)
Definition without (field : str) (fm : list (yaml * yaml)) : list (yaml * yaml) :=
  List.filter (fun kv => negb (eq_str (fst kv) field)) fm.

(** [errors] holds one entry for each check of the frontmatter that fails,
    every check having been made. *)
Definition checked {py : Python} (skill_name : str) (fm : list (yaml * yaml))
    (body : str) (errors : list error) : Prop :=
  exists id valid_id visibility outside created_at created_ok updated_at
         updated_ok tags tool_refs workflow_refs,
    dict_get fm (u "id") = Some id /\
    is_valid_skill_id id = Fine valid_id /\
    dict_get fm (u "visibility") = Some visibility /\
    not_in_visibility visibility = Fine outside /\
    dict_get fm (u "created_at") = Some created_at /\
    validate_timestamp created_at = Fine created_ok /\
    dict_get fm (u "updated_at") = Some updated_at /\
    validate_timestamp updated_at = Fine updated_ok /\
    dict_get fm (u "tags") = Some tags /\
    dict_get fm (u "tool_refs") = Some tool_refs /\
    dict_get fm (u "workflow_refs") = Some workflow_refs /\
    errors = schema_errors skill_name id valid_id visibility outside created_at
               created_ok updated_at updated_ok tags tool_refs workflow_refs body.

(** The summary of the fields of [template_mapping]. *)
Definition template_fields (skill_name skill_title timestamp : str)
    : list (str * display) :=
  [ (u "id", display_of (YStr skill_name));
    (u "name", display_of (YStr skill_title));
    (u "description", Items 3);
    (u "category", Items 5);
    (u "tags", Items 2);
    (u "tool_refs", Items 0);
    (u "workflow_refs", Items 0);
    (u "visibility", Text (u "public"));
    (u "version", Text (u "1.0.0"));
    (u "created_at", display_of (YStr timestamp));
    (u "updated_at", display_of (YStr timestamp)) ].

(** A body of more than 100 characters and no marker. *)
Definition sample_body : str :=
  unlines [u "# Sample"; []; u "## Overview"; [];
           u "This skill shows what the validator accepts as the body of a document.";
           []; u "## When to Use"; []; u "Use it when a passing package is needed."].

(** The values that have a length and a membership test. *)
Definition sized (v : yaml) : bool :=
  match v with
  | YStr _ | YList _ | YDict _ => true
  | _ => false
  end.
Definition is_str (v : yaml) : bool :=
  match v with YStr _ => true | _ => false end.

(** The fatal conditions of stages 1 to 4, which need no parser. *)
Definition structural (f : fatal) : bool :=
  match f with
  | DirectoryMissing | NotADirectory | SkillMdNotFound | CannotRead _
  | NoFrontmatter | InvalidFrontmatterFormat => true
  | InvalidYaml | NotAnObject => false
  end.

(** A package whose frontmatter has a name and nothing else. *)
Definition bare_document : str :=
  u "---" ++ unlines [[]; u "name: bare"] ++ u "---" ++ unlines [[]; u "A body."].
Definition bare_package : filesystem :=
  <[ [u "bare"; u "SKILL.md"] := File bare_document false ]>
    (<[ [u "bare"] := Dir ]> ∅).

(** ** The two parts of SKILL_TEMPLATE

    The lines between the two rules of three hyphens, and the lines after
    the second. *)
Definition frontmatter_lines (skill_name skill_title timestamp : str) : list str :=
  firstn 13 (skipn 1 (SKILL_TEMPLATE_lines skill_name skill_title timestamp)).
Definition body_lines (skill_title : str) : list str :=
  skipn 15 (SKILL_TEMPLATE_lines [] skill_title []).

(** The text validate_skill gives to yaml.safe_load for a document made from
    the template. *)
Definition template_frontmatter (skill_name skill_title timestamp : str) : str :=
  join [NEWLINE] (frontmatter_lines skill_name skill_title timestamp).

(** The text after the second rule. *)
Definition template_text (skill_title : str) : str :=
  NEWLINE :: unlines (body_lines skill_title).

Definition hyphen_free (s : str) : bool := forallb (fun c => negb (is_hyphen c)) s.

(** ** A reading of the frontmatter of the template

    What a YAML parser makes of the text is not in the scripts.  A mapping
    reads the frontmatter as written when it has every required field, the
    id, the visibility and the two timestamps are the strs written, tags,
    tool_refs and workflow_refs are sequences and the description is a str
    or a collection. *)
Definition field_is (fm : list (yaml * yaml)) (field : str) (p : yaml -> bool) : bool :=
  match dict_get fm field with
  | Some v => p v
  | None => false
  end.
Definition reads_as_written (fm : list (yaml * yaml)) (skill_name timestamp : str)
    : bool :=
  forallb (dict_has fm) REQUIRED_FIELDS &&
  field_is fm (u "id") (fun v => eq_str v skill_name) &&
  field_is fm (u "visibility") (fun v => eq_str v (u "public")) &&
  field_is fm (u "created_at") (fun v => eq_str v timestamp) &&
  field_is fm (u "updated_at") (fun v => eq_str v timestamp) &&
  field_is fm (u "tags") is_list &&
  field_is fm (u "tool_refs") is_list &&
  field_is fm (u "workflow_refs") is_list &&
  field_is fm (u "description") sized.

(** A package whose body has the three hyphens again, read without yaml. *)
Definition ruled_document : str :=
  u "---" ++ unlines [[]; u "id: ruled"] ++ u "---" ++
  unlines [[]; u "Above the rule."; u "---"; u "Below the rule."].
Definition ruled_package : filesystem :=
  <[ [u "ruled"; u "SKILL.md"] := File ruled_document false ]>
    (<[ [u "ruled"] := Dir ]> ∅).

(** The reading of the clock in the examples. *)
Definition noon : datetime := mk_datetime 2024 1 15 12 0 0.

(** ** What a command of the generator leaves of the filesystem *)

(** What exists stays, and a directory stays a directory. *)
Definition extends (w w' : world) : Prop :=
  forall q,
    (path_exists_in (files w) q = true -> path_exists_in (files w') q = true) /\
    (is_dir_in (files w) q = true -> is_dir_in (files w') q = true).

Definition steady {A} (c : io A) : Prop := forall w, extends w (snd (c w)).

(** The text of a file stays. *)
Definition keeps {A} (q : path) (c : io A) : Prop :=
  forall w content,
    read_text (files w) q = inr content ->
    read_text (files (snd (c w))) q = inr content.

(** A command leaves the node at a path as it is. *)
Definition untouched {A} (q : path) (c : io A) : Prop :=
  forall w, lookup_node (files (snd (c w))) q = lookup_node (files w) q.

(** A command leaves a node that is at a path as it is. *)
Definition stays {A} (q : path) (c : io A) : Prop :=
  forall w n, lookup_node (files w) q = Some n ->
              lookup_node (files (snd (c w))) q = Some n.

(** The example create_resource_dirs writes under a resource directory: the
    name of the file and its text. *)
Definition example_file (skill_name skill_title resource : str) : option (str * str) :=
  if bool_decide (resource = u "scripts")
  then Some (u "example.py", EXAMPLE_SCRIPT skill_name)
  else if bool_decide (resource = u "references")
  then Some (u "guide.md", EXAMPLE_REFERENCE skill_title)
  else if bool_decide (resource = u "assets")
  then Some (u "example.txt", EXAMPLE_ASSET)
  else None.

(** A command that raises raises an OSError: it does not leave through
    sys.exit. *)
Definition no_exit {A} (c : io A) : Prop :=
  forall w code, fst (c w) <> Raised (SystemExit code).

(** A command that raises nothing. *)
Definition returns {A} (c : io A) : Prop := forall w, exists a, fst (c w) = Ok a.

(** An ASCII letter or digit. *)
Definition letter_or_digit (c : N) : bool := is_az c || is_AZ c || is_09 c.

(** ** What the checks of validate_skill ask of a frontmatter

    Every required field, an id that is the name of the directory and that
    is_valid_skill_id accepts, a visibility of the two allowed, timestamps
    that are strs fromisoformat reads, and lists for tags, tool_refs and
    workflow_refs. *)
Definition conforms {py : Python} (skill_name : str) (fm : list (yaml * yaml)) : Prop :=
  forallb (dict_has fm) REQUIRED_FIELDS = true /\
  dict_get fm (u "id") = Some (YStr skill_name) /\
  accepted_id skill_name = true /\
  (exists v, dict_get fm (u "visibility") = Some (YStr v) /\ v ∈ VALID_VISIBILITY) /\
  (forall field, field ∈ [u "created_at"; u "updated_at"] ->
     exists t, dict_get fm field = Some (YStr t) /\
               fromisoformat (replace_char 90 (u "+00:00") t) = true) /\
  (forall field, field ∈ [u "tags"; u "tool_refs"; u "workflow_refs"] ->
     exists items, dict_get fm field = Some (YList items)).

(** A package that passes: a directory with a SKILL.md of a short
    frontmatter and [sample_body]. *)
Definition sample_document : str :=
  u "---" ++ unlines [[]; u "id: my-skill"] ++ u "---" ++ NEWLINE :: sample_body.
Definition sample_package : filesystem :=
  <[ [u "my-skill"; u "SKILL.md"] := File sample_document false ]>
    (<[ [u "my-skill"] := Dir ]> ∅).

(** The files a command leaves are those that were there, but for the paths
    in [P]. *)
Definition writes_only {A} (P : path -> Prop) (c : io A) : Prop :=
  forall w q content x,
    lookup_node (files (snd (c w))) q = Some (File content x) ->
    lookup_node (files w) q = Some (File content x) \/ P q.

(** ** The YAML of the frontmatter

    yaml.safe_load is PyYAML's, which is not among the scripts.
    [yaml_subset] is the reading that YAML 1.1, with the resolver of PyYAML,
    gives to the documents written the way the frontmatter of SKILL_TEMPLATE
    is; of every other document it says nothing ([None]).  Such a document
    is a block mapping with an entry a line: a key, a colon, a space and a
    value in plain style, in double quotes or a flow sequence; or a key and
    a colon, followed by the lines of a block sequence, each of them two
    spaces, a hyphen, a space and a value. *)

















(** * Properties *)

(** ** The ASCII runtime is a runtime *)

Ltac divmod_lia := zify; Z.to_euclidean_division_equations; lia.

Lemma is_09_digit n : is_09 (digit n) = true.
Proof.
  unfold is_09, digit. apply andb_true_iff; split; apply N.leb_le; divmod_lia.
Qed.

Lemma digit_value n : (digit n - 48 = n mod 10)%N.
Proof. unfold digit. divmod_lia. Qed.

Lemma parse2_pad2 n : (n < 100)%N -> parse2 (pad2 n) = Some n.
Proof.
  intros Hn. unfold parse2, pad2.
  rewrite !is_09_digit, !digit_value. simpl. f_equal. divmod_lia.
Qed.

Lemma parse4_pad4 n : (n < 10000)%N -> parse4 (pad4 n) = Some n.
Proof.
  intros Hn. unfold parse4, pad4, parse2.
  rewrite !is_09_digit, !digit_value. simpl. f_equal. divmod_lia.
Qed.

Lemma valid_datetime_bounds d :
  valid_datetime d = true ->
  (1000 <= year d <= 9999 /\ 1 <= month d <= 12 /\
   1 <= day d <= days_in_month (year d) (month d) /\
   hour d < 24 /\ minute d < 60 /\ second d < 60)%N.
Proof.
  unfold valid_datetime. rewrite !andb_true_iff, !N.leb_le, !N.ltb_lt. tauto.
Qed.

Lemma days_in_month_le y m : (days_in_month y m <= 31)%N.
Proof.
  unfold days_in_month. repeat case_match; lia.
Qed.

Lemma ascii_fromisoformat_utc d :
  valid_datetime d = true ->
  ascii_fromisoformat (iso_seconds d ++ u "+00:00") = true.
Proof.
  intros Hd. apply valid_datetime_bounds in Hd.
  destruct Hd as (Hy & Hm & Hday & Hh & Hmi & Hs).
  pose proof (days_in_month_le (year d) (month d)) as Hdim.
  pose proof (parse4_pad4 (year d)) as Py.
  pose proof (parse2_pad2 (month d)) as Pm.
  pose proof (parse2_pad2 (day d)) as Pd.
  pose proof (parse2_pad2 (hour d)) as Ph.
  pose proof (parse2_pad2 (minute d)) as Pi.
  pose proof (parse2_pad2 (second d)) as Ps.
  unfold pad2, pad4 in *.
  unfold iso_seconds, pad2, pad4. cbn [app u List.map list_ascii_of_string N_of_ascii N_of_digits].
  unfold ascii_fromisoformat.
  rewrite Py, Pm, Pd, Ph, Pi, Ps by lia.
  repeat (apply andb_true_iff; split);
    try (apply N.leb_le; lia); try (apply N.ltb_lt; lia).
  reflexivity.
Qed.

(** The runtime whose tables stop at ASCII: every other character is
    caseless, no space and no digit, and fromisoformat reads the one
    format the generator writes. *)
Definition ascii_only : Python := {|
  isspace := ascii_isspace;
  lower := List.map ascii_lower;
  capitalize := ascii_capitalize;
  islower := ascii_islower;
  isdigit := ascii_isdigit;
  fromisoformat := ascii_fromisoformat;
  isspace_ascii := fun _ _ => eq_refl;
  lower_ascii := fun _ _ => eq_refl;
  capitalize_ascii := fun _ _ => eq_refl;
  islower_ascii := fun _ _ => eq_refl;
  isdigit_ascii := fun _ _ => eq_refl;
  fromisoformat_utc := ascii_fromisoformat_utc
|}.

(** ** Strings *)

Lemma startswith_spec prefix s :
  startswith prefix s = true <-> exists rest, s = prefix ++ rest.
Proof.
  revert s. induction prefix as [|a prefix IH]; intros s; simpl.
  - split; [eauto|done].
  - destruct s as [|b s]; simpl.
    + split; [done|]. intros [rest Hrest]. discriminate.
    + rewrite andb_true_iff, N.eqb_eq, IH. split.
      * intros [-> [rest ->]]. eauto.
      * intros [rest Hrest]. injection Hrest as -> ->. eauto.
Qed.

Lemma startswith_app prefix rest : startswith prefix (prefix ++ rest) = true.
Proof. apply startswith_spec. eauto. Qed.

Lemma contains_spec sub s :
  contains sub s = true <-> exists before after, s = before ++ sub ++ after.
Proof.
  induction s as [|c s IH].
  - simpl. rewrite orb_false_r, startswith_spec. split.
    + intros [rest Hrest]. exists [], rest. done.
    + intros (before & after & H). symmetry in H.
      apply app_eq_nil in H as [-> H]. exists after. done.
  - cbn [contains]. rewrite orb_true_iff, IH, startswith_spec. split.
    + intros [[rest ->]|(before & after & ->)].
      * exists [], rest. done.
      * exists (c :: before), after. done.
    + intros (before & after & H). destruct before as [|b before].
      * left. exists after. done.
      * right. injection H as -> ->. eauto.
Qed.

Lemma contains_infix sub before s after :
  contains sub (before ++ s ++ after) = false -> contains sub s = false.
Proof.
  intros H. destruct (contains sub s) eqn:Hs; [|done].
  apply contains_spec in Hs as (b & a & ->).
  assert (contains sub (before ++ (b ++ sub ++ a) ++ after) = true) as H'.
  { apply contains_spec. exists (before ++ b), (a ++ after).
    by rewrite <- !app_assoc. }
  congruence.
Qed.

Lemma drop_while_suffix p s : exists before, s = before ++ drop_while p s.
Proof.
  induction s as [|c s [before IH]]; simpl.
  - by exists [].
  - destruct (p c).
    + exists (c :: before). simpl. by f_equal.
    + by exists [].
Qed.

Lemma drop_while_head p s c rest :
  drop_while p s = c :: rest -> p c = false.
Proof.
  induction s as [|a s IH]; simpl; [done|].
  destruct (p a) eqn:Ha; [done|]. intros H. by injection H as -> _.
Qed.

Lemma drop_while_id p s :
  (forall c rest, s = c :: rest -> p c = false) -> drop_while p s = s.
Proof.
  destruct s as [|c s]; [done|]. intros H. simpl. by rewrite (H c s).
Qed.

Lemma drop_while_ext p q s :
  (forall c, c ∈ s -> p c = q c) -> drop_while p s = drop_while q s.
Proof.
  induction s as [|c s IH]; intros H; simpl; [done|].
  rewrite <- (H c) by set_solver. destruct (p c); [|done].
  apply IH. intros. apply H. set_solver.
Qed.

(** A strip leaves an infix of the str. *)
Lemma strip_with_infix p s :
  exists before after, s = before ++ strip_with p s ++ after.
Proof.
  unfold strip_with.
  destruct (drop_while_suffix p s) as [before Hb].
  destruct (drop_while_suffix p (rev (drop_while p s))) as [after Ha].
  exists before, (rev after).
  rewrite <- rev_app_distr, <- Ha, rev_involutive. done.
Qed.

Lemma strip_with_ext p q s :
  (forall c, c ∈ s -> p c = q c) -> strip_with p s = strip_with q s.
Proof.
  intros H. unfold strip_with.
  rewrite (drop_while_ext p q s) by done.
  f_equal. apply drop_while_ext. intros c Hc. apply H.
  apply list_elem_of_In, in_rev, list_elem_of_In in Hc.
  destruct (drop_while_suffix q s) as [before Hb]. rewrite Hb. set_solver.
Qed.

Lemma strip_with_head p s c rest :
  strip_with p s = c :: rest -> p c = false.
Proof.
  unfold strip_with. intros H.
  destruct (drop_while p s) as [|a t] eqn:Ht.
  { simpl in H. done. }
  destruct (drop_while_suffix p (rev (a :: t))) as [before Hb].
  apply (f_equal (@rev N)) in Hb. rewrite rev_involutive, rev_app_distr, H in Hb.
  simpl in Hb. injection Hb as -> _. by apply drop_while_head in Ht.
Qed.

Lemma strip_with_last p s c rest :
  rev (strip_with p s) = c :: rest -> p c = false.
Proof.
  unfold strip_with. rewrite rev_involutive. apply drop_while_head.
Qed.

Lemma strip_with_id p s :
  (forall c rest, s = c :: rest -> p c = false) ->
  (forall c rest, rev s = c :: rest -> p c = false) ->
  strip_with p s = s.
Proof.
  intros Hhead Hlast. unfold strip_with.
  rewrite (drop_while_id p s), (drop_while_id p (rev s)) by done.
  apply rev_involutive.
Qed.

(** ** The normalizer *)

Lemma az09_not_hyphen c : is_az09 c = true -> is_hyphen c = false.
Proof.
  unfold is_az09, is_az, is_09, is_hyphen, HYPHEN.
  rewrite orb_true_iff, !andb_true_iff, !N.leb_le, N.eqb_neq. lia.
Qed.

Lemma az09_ascii c : is_az09 c = true -> is_ascii c = true.
Proof.
  unfold is_az09, is_az, is_09, is_ascii.
  rewrite orb_true_iff, !andb_true_iff, !N.leb_le, N.ltb_lt. lia.
Qed.

Lemma allowed_char_cases c :
  allowed_char c = true -> is_az09 c = true \/ c = HYPHEN.
Proof.
  unfold allowed_char, is_hyphen. rewrite orb_true_iff, N.eqb_eq. tauto.
Qed.

Lemma allowed_char_ascii c : allowed_char c = true -> is_ascii c = true.
Proof.
  intros [H| ->]%allowed_char_cases; [by apply az09_ascii|done].
Qed.

Lemma leading_hyphen_cons c t : leading_hyphen (c :: t) = is_hyphen c.
Proof.
  unfold leading_hyphen, is_hyphen. cbn [startswith].
  rewrite andb_true_r. apply N.eqb_sym.
Qed.

Lemma consecutive_hyphens_cons c t :
  consecutive_hyphens (c :: t) =
  is_hyphen c && leading_hyphen t || consecutive_hyphens t.
Proof.
  unfold consecutive_hyphens, leading_hyphen, is_hyphen.
  cbn [contains startswith]. by rewrite (N.eqb_sym HYPHEN c).
Qed.

Lemma sub_non_alnum_allowed b s :
  forallb allowed_char (sub_non_alnum_from b s) = true.
Proof.
  revert b. induction s as [|c s IH]; intros b; simpl; [done|].
  destruct (is_az09 c) eqn:Hc.
  - simpl. rewrite IH. unfold allowed_char. by rewrite Hc.
  - destruct b; [done|]. simpl. by rewrite IH.
Qed.

Lemma sub_non_alnum_hyphens b s :
  consecutive_hyphens (sub_non_alnum_from b s) = false /\
  (b = true -> leading_hyphen (sub_non_alnum_from b s) = false).
Proof.
  revert b. induction s as [|c s IH]; intros b; simpl; [done|].
  destruct (is_az09 c) eqn:Hc.
  - rewrite consecutive_hyphens_cons, leading_hyphen_cons.
    rewrite (az09_not_hyphen c Hc). simpl. split; [apply IH|done].
  - destruct b.
    + apply IH.
    + rewrite consecutive_hyphens_cons.
      destruct (IH true) as [Hcons Hlead]. rewrite Hcons, Hlead by done.
      split; [|done]. by rewrite andb_false_r.
Qed.

Lemma sub_hyphen_runs_id s :
  consecutive_hyphens s = false -> sub_hyphen_runs s = s.
Proof.
  induction s as [|c s IH]; [done|].
  rewrite consecutive_hyphens_cons, orb_false_iff. intros [Hc Hs].
  cbn [sub_hyphen_runs]. unfold leading_hyphen in Hc. rewrite Hc.
  f_equal. by apply IH.
Qed.

Lemma forallb_infix (p : N -> bool) before s after :
  forallb p (before ++ s ++ after) = true -> forallb p s = true.
Proof.
  rewrite !forallb_app, !andb_true_iff. tauto.
Qed.

Section Normalizer.
Context {py : Python}.

(** The str the normalizer has before its last step. *)
Lemma stripped_hyphen_case s :
  hyphen_case (strip_with is_hyphen (sub_non_alnum (lower (strip s)))) = true.
Proof.
  set (t := sub_non_alnum (lower (strip s))).
  destruct (strip_with_infix is_hyphen t) as (before & after & Ht).
  unfold hyphen_case. repeat (apply andb_true_iff; split).
  - apply (forallb_infix _ before _ after). rewrite <- Ht.
    apply sub_non_alnum_allowed.
  - apply negb_true_iff.
    destruct (strip_with is_hyphen t) as [|c rest] eqn:Hr; [done|].
    rewrite leading_hyphen_cons. by apply strip_with_head in Hr.
  - apply negb_true_iff. unfold trailing_hyphen.
    destruct (rev (strip_with is_hyphen t)) as [|c rest] eqn:Hr; [done|].
    fold (leading_hyphen (c :: rest)). rewrite leading_hyphen_cons.
    by apply strip_with_last in Hr.
  - apply negb_true_iff. apply (contains_infix _ before _ after).
    fold (consecutive_hyphens (before ++ strip_with is_hyphen t ++ after)).
    rewrite <- Ht. apply sub_non_alnum_hyphens.
Qed.

Lemma normalize_hyphen_case s : hyphen_case (normalize_skill_name s) = true.
Proof.
  unfold normalize_skill_name.
  pose proof (stripped_hyphen_case s) as H.
  rewrite sub_hyphen_runs_id; [done|].
  unfold hyphen_case in H. rewrite !andb_true_iff, !negb_true_iff in H. tauto.
Qed.

(** On ASCII text every runtime normalizes as the ASCII tables do. *)
Lemma normalize_ascii s :
  forallb is_ascii s = true ->
  normalize_skill_name s = @normalize_skill_name ascii_only s.
Proof.
  intros Hs. unfold normalize_skill_name, strip. simpl.
  assert (strip_with isspace s = strip_with ascii_isspace s) as ->.
  { apply strip_with_ext. intros c Hc. apply isspace_ascii.
    rewrite forallb_forall in Hs. apply Hs. by apply list_elem_of_In. }
  rewrite lower_ascii; [done|].
  destruct (strip_with_infix ascii_isspace s) as (before & after & Hinfix).
  apply (forallb_infix _ before _ after). by rewrite <- Hinfix.
Qed.

Lemma main_empty_name now raw_skill_name path raw_resources examples w :
  normalize_skill_name raw_skill_name = [] ->
  main now raw_skill_name path raw_resources examples w =
  (Raised (SystemExit 1), World (files w) (console w ++ [ErrNoLetterOrDigit])).
Proof. intros H. unfold main. rewrite H. reflexivity. Qed.

Lemma main_long_name now raw_skill_name path raw_resources examples w :
  MAX_SKILL_NAME_LENGTH < length (normalize_skill_name raw_skill_name) ->
  main now raw_skill_name path raw_resources examples w =
  (Raised (SystemExit 1),
   World (files w)
     (console w ++ [ErrTooLong (normalize_skill_name raw_skill_name)
                      (length (normalize_skill_name raw_skill_name))])).
Proof.
  intros H. unfold main.
  destruct (normalize_skill_name raw_skill_name) as [|c r] eqn:Hr.
  { simpl in H. lia. }
  apply Nat.ltb_lt in H. rewrite H. reflexivity.
Qed.

(** C7.  Whatever the input, the normalized name has only the characters
    a-z, 0-9 and the hyphen, and no leading, trailing or consecutive hyphen;
    the two names of the specification normalize as it says; and main ends
    in an input error (a message, exit status 1, the filesystem untouched)
    when the normalized name is empty or longer than 64 characters. *)
Theorem normalize_skill_name_shape (s : str) :
  let r := normalize_skill_name s in
  (forallb allowed_char r = true /\ leading_hyphen r = false /\
   trailing_hyphen r = false /\ consecutive_hyphens r = false) /\
  normalize_skill_name (u "My Cool Skill!!") = u "my-cool-skill" /\
  normalize_skill_name (u "  ---API---") = u "api" /\
  (forall now path raw_resources examples w,
     r = [] ->
     main now s path raw_resources examples w =
     (Raised (SystemExit 1), World (files w) (console w ++ [ErrNoLetterOrDigit]))) /\
  (forall now path raw_resources examples w,
     MAX_SKILL_NAME_LENGTH < length r ->
     main now s path raw_resources examples w =
     (Raised (SystemExit 1),
      World (files w) (console w ++ [ErrTooLong r (length r)]))).
Proof.
  intros r. split; [|split; [|split; [|split]]].
  - pose proof (normalize_hyphen_case s) as H. fold r in H.
    unfold hyphen_case in H. rewrite !andb_true_iff, !negb_true_iff in H. tauto.
  - rewrite normalize_ascii by reflexivity. reflexivity.
  - rewrite normalize_ascii by reflexivity. reflexivity.
  - intros. by apply main_empty_name.
  - intros. by apply main_long_name.
Qed.

End Normalizer.

Lemma allowed_char_not_upper c : allowed_char c = true -> ascii_lower c = c.
Proof.
  intros H. unfold ascii_lower.
  assert (is_AZ c = false) as ->; [|done].
  apply allowed_char_cases in H as [H| ->]; [|done].
  revert H. unfold is_az09, is_az, is_09, is_AZ.
  rewrite orb_true_iff, !andb_true_iff, andb_false_iff, !N.leb_le, !N.leb_gt. lia.
Qed.

Lemma allowed_char_not_space c : allowed_char c = true -> ascii_isspace c = false.
Proof.
  intros [H| ->]%allowed_char_cases; [|done].
  revert H. unfold is_az09, is_az, is_09, ascii_isspace.
  rewrite orb_true_iff, orb_false_iff, !andb_true_iff, !andb_false_iff,
    !N.leb_le, !N.leb_gt. lia.
Qed.

Lemma sub_non_alnum_id b s :
  forallb allowed_char s = true ->
  consecutive_hyphens s = false ->
  (b = true -> leading_hyphen s = false) ->
  sub_non_alnum_from b s = s.
Proof.
  revert b. induction s as [|c s IH]; intros b; [done|].
  cbn [forallb]. rewrite andb_true_iff, consecutive_hyphens_cons, orb_false_iff.
  rewrite leading_hyphen_cons. intros [Hc Hs] [Hcs Hcons] Hb.
  cbn [sub_non_alnum_from].
  destruct (is_az09 c) eqn:Haz.
  - f_equal. by apply IH.
  - apply allowed_char_cases in Hc as [Hc| ->]; [congruence|].
    destruct b; [by specialize (Hb eq_refl)|].
    f_equal. apply IH; [done..|]. intros _.
    by destruct (leading_hyphen s).
Qed.

Section NormalizerFixedPoints.
Context {py : Python}.

(** The normalizer leaves a str in hyphen case as it is. *)
Lemma normalize_hyphen_case_id s :
  hyphen_case s = true -> normalize_skill_name s = s.
Proof.
  unfold hyphen_case. rewrite !andb_true_iff, !negb_true_iff.
  intros [[[Hall Hlead] Htrail] Hcons].
  assert (forall c, c ∈ s -> allowed_char c = true) as Hin.
  { intros c Hc. rewrite forallb_forall in Hall. apply Hall.
    by apply list_elem_of_In. }
  unfold normalize_skill_name.
  assert (strip s = s) as ->.
  { unfold strip. apply strip_with_id.
    - intros c rest ->. rewrite isspace_ascii.
      + apply allowed_char_not_space, Hin. set_solver.
      + apply allowed_char_ascii, Hin. set_solver.
    - intros c rest Hrev.
      assert (c ∈ s) as Hc.
      { apply list_elem_of_In, in_rev, list_elem_of_In. rewrite Hrev. set_solver. }
      rewrite isspace_ascii.
      + by apply allowed_char_not_space, Hin.
      + by apply allowed_char_ascii, Hin. }
  assert (lower s = s) as ->.
  { rewrite lower_ascii.
    - rewrite <- (map_id s) at 2. apply map_ext_in. intros c Hc.
      apply allowed_char_not_upper, Hin. by apply list_elem_of_In.
    - apply forallb_forall. intros c Hc.
      apply allowed_char_ascii, Hin. by apply list_elem_of_In. }
  unfold sub_non_alnum. rewrite sub_non_alnum_id by done.
  rewrite strip_with_id.
  - by apply sub_hyphen_runs_id.
  - intros c rest ->. by rewrite leading_hyphen_cons in Hlead.
  - intros c rest Hrev. unfold trailing_hyphen in Htrail. rewrite Hrev in Htrail.
    fold (leading_hyphen (c :: rest)) in Htrail.
    by rewrite leading_hyphen_cons in Htrail.
Qed.

(** C8.  Normalizing twice is normalizing once, and a Skill Identifier is
    its own normal form. *)
Theorem normalize_skill_name_idempotent :
  (forall s : str,
     normalize_skill_name (normalize_skill_name s) = normalize_skill_name s) /\
  (forall s : str,
     is_skill_identifier s = true -> normalize_skill_name s = s).
Proof.
  split.
  - intros s. apply normalize_hyphen_case_id, normalize_hyphen_case.
  - intros s. unfold is_skill_identifier. rewrite !andb_true_iff.
    intros [[_ H] _]. by apply normalize_hyphen_case_id.
Qed.

End NormalizerFixedPoints.

(** ** Cutting a str at a separator *)

Lemma partition_unfold sep s :
  partition sep s =
  if startswith sep s then Some ([], drop (length sep) s)
  else match s with
       | [] => None
       | c :: s' =>
           match partition sep s' with
           | Some (before, after) => Some (c :: before, after)
           | None => None
           end
       end.
Proof. by destruct s. Qed.

Lemma partition_Some sep s before after :
  partition sep s = Some (before, after) -> s = before ++ sep ++ after.
Proof.
  revert before. induction s as [|c s IH]; intros before; rewrite partition_unfold.
  - destruct (startswith sep []) eqn:Hs; [|done].
    apply startswith_spec in Hs as [rest Hs]. intros [= <- <-].
    symmetry in Hs. apply app_eq_nil in Hs as [-> ->]. done.
  - destruct (startswith sep (c :: s)) eqn:Hs.
    + apply startswith_spec in Hs as [rest Hs]. intros [= <- <-].
      rewrite Hs. by rewrite drop_app_length.
    + destruct (partition sep s) as [[b a]|]; [|done].
      intros [= <- <-]. simpl. f_equal. by apply IH.
Qed.

Lemma partition_None sep s :
  partition sep s = None <-> contains sep s = false.
Proof.
  induction s as [|c s IH]; rewrite partition_unfold; cbn [contains].
  - destruct (startswith sep []); simpl; split; done.
  - destruct (startswith sep (c :: s)); simpl; [split; done|].
    rewrite <- IH. destruct (partition sep s) as [[b a]|]; split; done.
Qed.

(** The cut is at the leftmost occurrence: the separator starts at no
    position of [before]. *)
Lemma partition_leftmost sep before after :
  (forall k, k < length before ->
     startswith sep (drop k (before ++ sep ++ after)) = false) ->
  partition sep (before ++ sep ++ after) = Some (before, after).
Proof.
  induction before as [|c before IH]; intros H; rewrite partition_unfold.
  - simpl. rewrite startswith_app. by rewrite drop_app_length.
  - pose proof (H 0) as H0. rewrite drop_0 in H0.
    rewrite H0 by (simpl; lia). simpl. rewrite IH; [done|].
    intros k Hk. apply (H (S k)). simpl. lia.
Qed.

Lemma partition_at_start sep rest :
  partition sep (sep ++ rest) = Some ([], rest).
Proof.
  rewrite partition_unfold, startswith_app. by rewrite drop_app_length.
Qed.

Lemma split_max_chars sep n s item c :
  item ∈ split_max sep n s -> c ∈ item -> c ∈ s.
Proof.
  revert s. induction n as [|n IH]; intros s; simpl.
  - intros ->%list_elem_of_singleton. done.
  - destruct (partition sep s) as [[before after]|] eqn:Hp.
    + apply partition_Some in Hp as ->.
      intros [->|Hitem]%elem_of_cons Hc; [set_solver|].
      specialize (IH _ Hitem Hc). set_solver.
    + intros ->%list_elem_of_singleton. done.
Qed.

(** ** parse_resources *)


Lemma dedupe_subset (resources deduped : list str) (seen : gset (list N)) t :
  t ∈ dedupe resources deduped seen -> t ∈ deduped \/ t ∈ resources.
Proof.
  revert deduped seen. induction resources as [|x rest IH];
    intros deduped seen; simpl; [tauto|].
  case_bool_decide.
  - intros [Ht|Ht]%IH; [|set_solver].
    apply elem_of_app in Ht as [?|?]; set_solver.
  - intros [Ht|Ht]%IH; set_solver.
Qed.

Lemma sorted_elem_of (xs : gset (list N)) t : t ∈ sorted xs <-> t ∈ xs.
Proof.
  unfold sorted. rewrite merge_sort_Permutation. apply elem_of_elements.
Qed.



Section ParseResources.
Context {py : Python}.

Lemma strip_ascii s :
  forallb is_ascii s = true -> strip s = strip_with ascii_isspace s.
Proof.
  intros Hs. apply strip_with_ext. intros c Hc. apply isspace_ascii.
  rewrite forallb_forall in Hs. apply Hs. by apply list_elem_of_In.
Qed.


Lemma parse_resources_tokens raw :
  List.map strip
    (List.filter (fun item => negb (bool_decide (strip item = [])))
       (split (u ",") raw)) = tokens raw.
Proof. unfold tokens. by rewrite filter_map_swap. Qed.


End ParseResources.

(** ** The validator: frontmatter and body *)

Lemma is_dir_exists fs p : is_dir_in fs p = true -> path_exists_in fs p = true.
Proof.
  unfold is_dir_in, path_exists_in. by destruct (lookup_node fs p) as [[]|].
Qed.

Lemma read_text_exists fs p content :
  read_text fs p = inr content -> path_exists_in fs p = true.
Proof.
  unfold read_text, path_exists_in. by destruct (lookup_node fs p) as [[]|].
Qed.

Lemma split_max_two_cuts sep block text :
  (forall k, k < length block ->
     startswith sep (drop k (block ++ sep ++ text)) = false) ->
  split_max sep 2 (sep ++ block ++ sep ++ text) = [[]; block; text].
Proof.
  intros Hleft. cbn [split_max].
  rewrite partition_at_start. by rewrite (partition_leftmost sep block text).
Qed.

Lemma split_max_one_cut sep n rest :
  contains sep rest = false ->
  split_max sep (S n) (sep ++ rest) = [[]; rest].
Proof.
  intros Hrest. cbn [split_max]. rewrite partition_at_start.
  apply partition_None in Hrest. destruct n; simpl; by rewrite ?Hrest.
Qed.

Section FrontmatterSplit.
Context {py : Python}.

(** The stages of validate_skill on a document it can read. *)
Lemma validate_skill_stages (yaml : option yaml_module) (fs : filesystem)
    (skill_dir : path) (content : str) :
  is_dir_in fs skill_dir = true ->
  read_text fs (skill_dir ++ [u "SKILL.md"]) = inr content ->
  (startswith (u "---") content = false ->
   validate_skill yaml fs skill_dir = Fatal NoFrontmatter) /\
  (forall rest,
     content = u "---" ++ rest -> contains (u "---") rest = false ->
     validate_skill yaml fs skill_dir = Fatal InvalidFrontmatterFormat) /\
  (forall block text,
     content = u "---" ++ block ++ u "---" ++ text ->
     (forall k, k < length block ->
        startswith (u "---") (drop k (block ++ u "---" ++ text)) = false) ->
     validate_skill yaml fs skill_dir =
     match yaml with
     | None => BasicPassed (name skill_dir) (basic_warnings (strip text))
     | Some safe_load =>
         match safe_load (strip block) with
         | None => Fatal InvalidYaml
         | Some (YDict frontmatter) =>
             validate_frontmatter (name skill_dir) frontmatter (strip text)
         | Some _ => Fatal NotAnObject
         end
     end).
Proof.
  intros Hdir Hread. unfold validate_skill.
  rewrite (is_dir_exists _ _ Hdir), Hdir, (read_text_exists _ _ _ Hread), Hread.
  cbn [negb]. split; [|split].
  - by intros ->.
  - intros rest -> Hrest. rewrite startswith_app. cbn [negb].
    by rewrite split_max_one_cut.
  - intros block text -> Hleft. rewrite startswith_app. cbn [negb].
    by rewrite split_max_two_cuts.
Qed.

(** C10.  Of a document that validate_skill can read: one that does not
    start with the three hyphens, or has no second occurrence of them, is
    rejected at once; otherwise the text between the first and the second
    occurrence (trimmed) is the frontmatter that is parsed, and all the text
    after the second occurrence (trimmed) is the body, whether or not the
    three hyphens occur in it again. *)
Theorem frontmatter_body_split (yaml : option yaml_module) (fs : filesystem)
    (skill_dir : path) (content : str) :
  is_dir_in fs skill_dir = true ->
  read_text fs (skill_dir ++ [u "SKILL.md"]) = inr content ->
  (startswith (u "---") content = false ->
   validate_skill yaml fs skill_dir = Fatal NoFrontmatter) /\
  (forall rest,
     content = u "---" ++ rest -> contains (u "---") rest = false ->
     validate_skill yaml fs skill_dir = Fatal InvalidFrontmatterFormat) /\
  (forall block text,
     content = u "---" ++ block ++ u "---" ++ text ->
     (forall k, k < length block ->
        startswith (u "---") (drop k (block ++ u "---" ++ text)) = false) ->
     validate_skill yaml fs skill_dir =
     match yaml with
     | None => BasicPassed (name skill_dir) (basic_warnings (strip text))
     | Some safe_load =>
         match safe_load (strip block) with
         | None => Fatal InvalidYaml
         | Some (YDict frontmatter) =>
             validate_frontmatter (name skill_dir) frontmatter (strip text)
         | Some _ => Fatal NotAnObject
         end
     end).
Proof. apply validate_skill_stages. Qed.

End FrontmatterSplit.

Lemma frontmatter_body_split_witness :
  @validate_skill ascii_only None ruled_package [u "ruled"] =
  BasicPassed (u "ruled") [BodyVeryShort].
Proof.
  destruct (@frontmatter_body_split ascii_only None ruled_package [u "ruled"]
              ruled_document eq_refl eq_refl) as (_ & _ & Hsplit).
  rewrite (Hsplit (unlines [[]; u "id: ruled"])
             (unlines [[]; u "Above the rule."; u "---"; u "Below the rule."])
             eq_refl).
  - reflexivity.
  - intros k Hk.
    do 11 (destruct k as [|k]; [reflexivity|]).
    simpl in Hk. lia.
Defined.

(** ** The generator and the filesystem *)

Lemma extends_refl w : extends w w.
Proof. by intros q. Qed.

Lemma extends_trans w1 w2 w3 : extends w1 w2 -> extends w2 w3 -> extends w1 w3.
Proof.
  intros H12 H23 q. destruct (H12 q), (H23 q). split; auto.
Qed.

Lemma extends_insert_new w p n out :
  path_exists_in (files w) p = false ->
  extends w (World (<[p := n]> (files w)) out).
Proof.
  intros Hp q. unfold path_exists_in, is_dir_in, lookup_node in *. simpl.
  destruct q as [|a q]; [done|]. destruct p as [|b p]; [done|].
  destruct (decide (b :: p = a :: q)) as [Heq|Hne].
  - injection Heq as -> ->. by destruct (files w !! (a :: q)).
  - by rewrite lookup_insert_ne.
Qed.

Lemma extends_insert_file w p c x c' x' out :
  lookup_node (files w) p = Some (File c x) ->
  extends w (World (<[p := File c' x']> (files w)) out).
Proof.
  intros Hp q. unfold path_exists_in, is_dir_in, lookup_node in *. simpl.
  destruct q as [|a q]; [done|]. destruct p as [|b p]; [done|].
  destruct (decide (b :: p = a :: q)) as [Heq|Hne].
  - injection Heq as -> ->. rewrite lookup_insert_eq, Hp. done.
  - by rewrite lookup_insert_ne.
Qed.

Lemma steady_run {A} (c : io A) w r w' :
  steady c -> c w = (r, w') -> extends w w'.
Proof. intros Hc Hrun. specialize (Hc w). by rewrite Hrun in Hc. Qed.

Lemma steady_ret {A} (a : A) : steady (ret a).
Proof. intros w. apply extends_refl. Qed.

Lemma steady_raise {A} e : steady (@raise A e).
Proof. intros w. apply extends_refl. Qed.

Lemma steady_print l : steady (print l).
Proof. by intros w q. Qed.

Lemma steady_bind {A B} (c : io A) (k : A -> io B) :
  steady c -> (forall a, steady (k a)) -> steady (bind c k).
Proof.
  intros Hc Hk w. unfold bind. specialize (Hc w).
  destruct (c w) as [[a|e] w1]; simpl in *; [|done].
  eapply extends_trans; [done|apply Hk].
Qed.

Lemma steady_try_except {A} (body : io A) handler :
  steady body -> (forall e, steady (handler e)) -> steady (try_except body handler).
Proof.
  intros Hb Hh w. unfold try_except. specialize (Hb w).
  destruct (body w) as [[a|[e|code]] w1]; simpl in *; [done| |done].
  eapply extends_trans; [done|apply Hh].
Qed.

Lemma steady_os_mkdir p : steady (os_mkdir p).
Proof.
  intros w. unfold os_mkdir.
  destruct (path_exists_in (files w) p) eqn:Hp; [apply extends_refl|].
  destruct (lookup_node (files w) (parent p)) as [[]|];
    first [apply extends_refl | by apply extends_insert_new].
Qed.

Lemma steady_mkdir depth parents exist_ok p : steady (mkdir depth parents exist_ok p).
Proof.
  revert parents exist_ok p.
  induction depth as [|depth IH]; intros parents exist_ok p w;
    cbn [mkdir]; pose proof (steady_os_mkdir p w) as Hos;
    destruct (os_mkdir p w) as [[[]|[[]|code]] w1]; simpl in *;
    try done; try (case_match; simpl; apply extends_refl); try apply extends_refl.
  case_match; [apply extends_refl|].
  apply (steady_bind _ _ (IH _ _ _) (fun _ => IH _ _ _)).
Qed.

Lemma steady_write_text p content : steady (write_text p content).
Proof.
  intros w. unfold write_text.
  destruct (lookup_node (files w) p) as [[|c x]|] eqn:Hp; simpl.
  - apply extends_refl.
  - by eapply extends_insert_file.
  - destruct (lookup_node (files w) (parent p)) as [[]|];
      first [apply extends_refl | apply extends_insert_new].
    unfold path_exists_in. by rewrite Hp.
Qed.

Lemma steady_chmod_755 p : steady (chmod_755 p).
Proof.
  intros w. unfold chmod_755.
  destruct (lookup_node (files w) p) as [[|c x]|] eqn:Hp; simpl;
    first [apply extends_refl | by eapply extends_insert_file].
Qed.

Create HintDb steady discriminated.
#[local] Hint Resolve steady_ret steady_raise steady_print steady_os_mkdir
  steady_mkdir steady_write_text steady_chmod_755 : steady.
#[local] Hint Extern 2 (steady (bind _ _)) =>
  apply steady_bind; [|intros ?] : steady.
#[local] Hint Extern 2 (steady (try_except _ _)) =>
  apply steady_try_except; [|intros ?] : steady.
#[local] Hint Extern 3 (steady (if ?b then _ else _)) => destruct b : steady.
#[local] Hint Extern 3 (steady (match ?x with _ => _ end)) => destruct x : steady.

Lemma steady_path_mkdir parents exist_ok p : steady (path_mkdir parents exist_ok p).
Proof. apply steady_mkdir. Qed.
#[local] Hint Resolve steady_path_mkdir : steady.

Lemma steady_create_resource_dirs skill_dir skill_name skill_title resources ex :
  steady (create_resource_dirs skill_dir skill_name skill_title resources ex).
Proof.
  induction resources as [|resource rest IH]; cbn [create_resource_dirs];
    auto 20 with steady.
Qed.
#[local] Hint Resolve steady_create_resource_dirs : steady.

Lemma is_dir_insert (fs : filesystem) p : is_dir_in (<[p := Dir]> fs) p = true.
Proof.
  unfold is_dir_in, lookup_node. destruct p; [done|]. by rewrite lookup_insert_eq.
Qed.

Lemma os_mkdir_made p w w' :
  os_mkdir p w = (Ok tt, w') -> is_dir_in (files w') p = true.
Proof.
  unfold os_mkdir. destruct (path_exists_in (files w) p); [done|].
  destruct (lookup_node (files w) (parent p)) as [[]|]; try done.
  intros [= <-]. apply is_dir_insert.
Qed.

Lemma mkdir_made depth parents exist_ok p w w' :
  mkdir depth parents exist_ok p w = (Ok tt, w') ->
  is_dir_in (files w') p = true.
Proof.
  revert parents exist_ok p w w'.
  induction depth as [|depth IH]; intros parents exist_ok p w w'; cbn [mkdir];
    destruct (os_mkdir p w) as [[[]|[[]|code]] w1] eqn:Hos;
    try (intros [= <-]; by apply os_mkdir_made in Hos);
    try done;
    try (destruct (exist_ok && is_dir_in (files w) p) eqn:He;
         [apply andb_true_iff in He as [_ He]; by intros [= <-] | done]).
  case_match; [done|]. unfold bind.
  destruct (mkdir depth true true (parent p) w) as [[[]|e] w2]; [|done].
  apply IH.
Qed.

Section InitSkill.
Context {py : Python}.

(** A run of init_skill that returns a path went through every step. *)
Lemma init_skill_success now skill_name path resources ex w d w' :
  init_skill now skill_name path resources ex w = (Ok (Some d), w') ->
  d = path ++ [skill_name] /\
  path_exists_in (files w) d = false /\
  exists w1 w2 w3,
    path_mkdir true false d w = (Ok tt, w1) /\
    write_text (d ++ [u "SKILL.md"])
      (SKILL_TEMPLATE skill_name (title_case_skill_name skill_name)
         (strftime_utc now))
      (World (files w1) (console w1 ++ [OkCreatedDirectory d])) = (Ok tt, w2) /\
    match resources with
    | [] => w3 = World (files w2) (console w2 ++ [OkCreatedSkillMd])
    | _ :: _ =>
        create_resource_dirs d skill_name (title_case_skill_name skill_name)
          resources ex (World (files w2) (console w2 ++ [OkCreatedSkillMd])) =
        (Ok tt, w3)
    end /\
    files w' = files w3.
Proof.
  unfold init_skill, path_exists. unfold bind at 1.
  set (d0 := path ++ [skill_name]).
  destruct (path_exists_in (files w) d0) eqn:Hex; [done|].
  unfold bind at 1. unfold try_except at 1. unfold bind at 1.
  destruct (path_mkdir true false d0 w) as [[[]|[e|code]] w1] eqn:Hmk;
    [|done..].
  cbn [negb print bind ret files console].
  unfold bind at 1. unfold try_except at 1. unfold bind at 1.
  destruct (write_text _ _ _) as [[[]|[e|code]] w2] eqn:Hwr; [|done..].
  cbn [negb print bind ret files console].
  unfold bind at 1.
  destruct resources as [|r rest].
  - cbn. intros [= <- <-]. repeat split; [done|].
    exists w1, w2. eexists. repeat split; done.
  - unfold try_except at 1. unfold bind at 1.
    destruct (create_resource_dirs _ _ _ _ _ _) as [[[]|[e|code]] w3] eqn:Hcr;
      [|done..].
    cbn. intros [= <- <-]. repeat split; [done|].
    exists w1, w2, w3. repeat split; done.
Qed.

(** C6.  When the target path exists already, init_skill prints that it
    does, returns None and leaves the filesystem as it is; so a second
    creation of an identifier in the same parent, after a first one that
    succeeded, fails in this way, whatever its resources. *)
Theorem init_skill_refuses_existing :
  (forall now skill_name path resources ex w,
     path_exists_in (files w) (path ++ [skill_name]) = true ->
     init_skill now skill_name path resources ex w =
     (Ok None,
      World (files w) (console w ++ [ErrAlreadyExists (path ++ [skill_name])]))) /\
  (forall now skill_name path resources ex w d w',
     init_skill now skill_name path resources ex w = (Ok (Some d), w') ->
     forall now' resources' ex',
       init_skill now' skill_name path resources' ex' w' =
       (Ok None, World (files w') (console w' ++ [ErrAlreadyExists d]))).
Proof.
  assert (forall now skill_name path resources ex w,
            path_exists_in (files w) (path ++ [skill_name]) = true ->
            init_skill now skill_name path resources ex w =
            (Ok None,
             World (files w)
               (console w ++ [ErrAlreadyExists (path ++ [skill_name])])))
    as Hrefuse.
  { intros now skill_name path resources ex w Hex.
    unfold init_skill, path_exists. unfold bind at 1. by rewrite Hex. }
  split; [done|].
  intros now skill_name path resources ex w d w' Hrun now' resources' ex'.
  apply init_skill_success in Hrun
    as (-> & _ & w1 & w2 & w3 & Hmk & Hwr & Hres & Hfiles).
  apply Hrefuse.
  apply mkdir_made, is_dir_exists in Hmk.
  pose proof (steady_run _ _ _ _ (steady_write_text _ _) Hwr) as H12.
  assert (extends (World (files w2) (console w2 ++ [OkCreatedSkillMd])) w3) as H23.
  { destruct resources; [subst; apply extends_refl|].
    apply (steady_run _ _ _ _ (steady_create_resource_dirs _ _ _ _ _) Hres). }
  rewrite Hfiles. apply H23. simpl. apply H12. simpl. done.
Qed.

End InitSkill.

Lemma init_skill_refuses_existing_witness :
  let first := @init_skill ascii_only noon (u "my-skill") [u "skills"]
                 [u "scripts"] true (World ∅ []) in
  fst first = Ok (Some [u "skills"; u "my-skill"]) /\
  fst (@init_skill ascii_only noon (u "my-skill") [u "skills"] [] false
         (snd first)) = Ok None.
Proof.
  intros first. split; [vm_compute; reflexivity|].
  destruct (@init_skill_refuses_existing ascii_only) as [_ Hsecond].
  rewrite (Hsecond noon (u "my-skill") [u "skills"] [u "scripts"] true
             (World ∅ []) [u "skills"; u "my-skill"] (snd first)).
  - reflexivity.
  - vm_compute. reflexivity.
Defined.

(** ** The validator: the checks of a frontmatter *)

Section Checks.
Context {py : Python}.

(** The checks one after the other, each result kept: [collect] stops only
    where a check raises. *)
Lemma collect_unfold skill_name fm body :
  collect skill_name fm body =
  (id <~ getitem fm (u "id") ;;
   valid_id <~ is_valid_skill_id id ;;
   visibility <~ getitem fm (u "visibility") ;;
   outside <~ not_in_visibility visibility ;;
   created_at <~ getitem fm (u "created_at") ;;
   created_ok <~ validate_timestamp created_at ;;
   updated_at <~ getitem fm (u "updated_at") ;;
   updated_ok <~ validate_timestamp updated_at ;;
   tags <~ getitem fm (u "tags") ;;
   tool_refs <~ getitem fm (u "tool_refs") ;;
   workflow_refs <~ getitem fm (u "workflow_refs") ;;
   let description := default (YStr []) (dict_get fm (u "description")) in
   todo <~ (t <~ py_in (u "TODO") description ;;
            if t : bool then Fine true else py_in (u "[TODO") description) ;;
   len <~ py_len description ;;
   Fine (schema_errors skill_name id valid_id visibility outside created_at
           created_ok updated_at updated_ok tags tool_refs workflow_refs body,
         quality_warnings body todo len)).
Proof.
  unfold collect. cbn [check_timestamps check_arrays].
  destruct (getitem fm (u "id")) as [id|]; [|done]. cbn [tried_bind].
  destruct (is_valid_skill_id id) as [valid_id|]; [|done]. cbn [tried_bind].
  destruct (getitem fm (u "visibility")) as [visibility|]; [|done]. cbn [tried_bind].
  destruct (not_in_visibility visibility) as [outside|]; [|done]. cbn [tried_bind].
  destruct (getitem fm (u "created_at")) as [created_at|]; [|done]. cbn [tried_bind].
  destruct (validate_timestamp created_at) as [created_ok|]; [|done]. cbn [tried_bind].
  destruct (getitem fm (u "updated_at")) as [updated_at|]; [|done]. cbn [tried_bind].
  destruct (validate_timestamp updated_at) as [updated_ok|]; [|done]. cbn [tried_bind].
  destruct (getitem fm (u "tags")) as [tags|]; [|done]. cbn [tried_bind].
  destruct (getitem fm (u "tool_refs")) as [tool_refs|]; [|done]. cbn [tried_bind].
  destruct (getitem fm (u "workflow_refs")) as [workflow_refs|]; [|done].
  cbn [tried_bind].
  destruct (tried_bind (py_in (u "TODO") _) _) as [todo|]; [|done]. cbn [tried_bind].
  destruct (py_len _) as [len|]; [|done]. cbn [tried_bind].
  unfold schema_errors, quality_warnings. f_equal. f_equal.
  - destruct (eq_str id skill_name), valid_id, outside, created_ok, updated_ok,
      (is_list tags), (is_list tool_refs), (is_list workflow_refs), body;
      reflexivity.
  - destruct body; [|destruct (length _ <? 100)%nat];
      destruct todo, (len <? 50)%nat;
      cbn [app]; rewrite <- ?app_assoc, ?app_nil_r; reflexivity.
Qed.

End Checks.

Lemma eq_str_char c : eq_str (YStr [c]) (u "-") = is_hyphen c.
Proof.
  unfold eq_str, str_eqb, is_hyphen, HYPHEN.
  destruct (N.eqb_spec c 45) as [->|Hne].
  - by apply bool_decide_eq_true.
  - apply bool_decide_eq_false. intros [= ->]. done.
Qed.

Lemma is_az_not_AZ c : is_az c && negb (is_AZ c) = is_az c.
Proof.
  unfold is_az, is_AZ.
  destruct (97 <=? c)%N eqn:H1, (c <=? 122)%N eqn:H2; simpl; try done.
  apply negb_true_iff, andb_false_iff. right.
  apply N.leb_le in H1. apply N.leb_gt. lia.
Qed.

Section IdGrammar.
Context {py : Python}.

Lemma all_id_chars_str s :
  all_id_chars (List.map (fun c => YStr [c]) s) = Fine (forallb id_char s).
Proof.
  induction s as [|c s IH]; [done|].
  cbn [List.map all_id_chars method_islower method_isdigit tried_bind forallb].
  unfold id_char at 1. rewrite <- eq_str_char.
  destruct (islower [c]); cbn [tried_bind orb andb]; [apply IH|].
  destruct (isdigit [c]); cbn [tried_bind orb andb]; [apply IH|].
  destruct (eq_str (YStr [c]) (u "-")); cbn [andb]; [apply IH|done].
Qed.

(** is_valid_skill_id on a str is the grammar [accepted_id]. *)
Lemma is_valid_skill_id_str s : is_valid_skill_id (YStr s) = Fine (accepted_id s).
Proof.
  destruct s as [|c s]; [done|].
  unfold is_valid_skill_id, accepted_id.
  cbn [truthy negb getitem0 tried_bind method_islower iterate].
  rewrite bool_decide_eq_false_2 by done. cbn [negb tried_bind].
  destruct (islower [c]); cbn [negb andb]; [|done].
  apply all_id_chars_str.
Qed.

Lemma id_char_ascii c : is_ascii c = true -> id_char c = allowed_char c.
Proof.
  intros Hc. unfold id_char, allowed_char, is_az09.
  rewrite islower_ascii, isdigit_ascii by (simpl; by rewrite Hc).
  unfold ascii_islower, ascii_isdigit. simpl.
  rewrite !orb_false_r, andb_true_r. by rewrite is_az_not_AZ.
Qed.

Lemma accepted_id_ascii s :
  forallb is_ascii s = true -> accepted_id s = ascii_accepted_id s.
Proof.
  intros Hs. unfold accepted_id, ascii_accepted_id.
  destruct s as [|c s]; [done|].
  assert (forallb id_char (c :: s) = forallb allowed_char (c :: s)) as ->.
  { rewrite forallb_forall in Hs.
    induction (c :: s) as [|a l IH]; [done|]. simpl.
    rewrite id_char_ascii by (apply Hs; by left).
    rewrite IH; [done|]. intros x Hx. apply Hs. by right. }
  f_equal. simpl in Hs. apply andb_true_iff in Hs as [Hc _].
  rewrite islower_ascii by (simpl; by rewrite Hc).
  unfold ascii_islower. simpl. rewrite !orb_false_r. apply is_az_not_AZ.
Qed.

(** A Skill Identifier that begins with a letter is accepted. *)
Lemma accepted_skill_identifier s :
  is_skill_identifier s = true -> is_az (hd 0%N s) = true ->
  accepted_id s = true.
Proof.
  unfold is_skill_identifier, hyphen_case. rewrite !andb_true_iff.
  intros [[_ [[[Hall _] _] _]] _] Hhd.
  rewrite accepted_id_ascii.
  - unfold ascii_accepted_id. destruct s as [|c s]; [done|].
    simpl in Hhd. by rewrite Hhd, Hall.
  - apply forallb_forall. intros c Hc. rewrite forallb_forall in Hall.
    by apply allowed_char_ascii, Hall.
Qed.

End IdGrammar.

(** ** The error list *)

Lemma elem_of_unless {A} (b : bool) (x y : A) :
  x ∈ (if b then [] else [y]) <-> b = false /\ x = y.
Proof. destruct b; set_solver. Qed.

Lemma elem_of_when {A} (b : bool) (x y : A) :
  x ∈ (if b then [y] else []) <-> b = true /\ x = y.
Proof. destruct b; set_solver. Qed.

(** The entries of [schema_errors]. *)
Lemma elem_of_schema_errors e skill_name id valid_id visibility outside
    created_at created_ok updated_at updated_ok tags tool_refs workflow_refs body :
  e ∈ schema_errors skill_name id valid_id visibility outside created_at
        created_ok updated_at updated_ok tags tool_refs workflow_refs body <->
  (eq_str id skill_name = false /\ e = IdMismatch id skill_name) \/
  (valid_id = false /\ e = InvalidIdFormat id) \/
  (outside = true /\ e = InvalidVisibility visibility) \/
  (created_ok = false /\ e = InvalidTimestamp (u "created_at") created_at) \/
  (updated_ok = false /\ e = InvalidTimestamp (u "updated_at") updated_at) \/
  (is_list tags = false /\ e = NotAnArray (u "tags")) \/
  (is_list tool_refs = false /\ e = NotAnArray (u "tool_refs")) \/
  (is_list workflow_refs = false /\ e = NotAnArray (u "workflow_refs")) \/
  (body = [] /\ e = BodyEmpty).
Proof.
  unfold schema_errors.
  rewrite !elem_of_app, !elem_of_unless, !elem_of_when.
  assert (e ∈ match body with [] => [BodyEmpty] | _ => [] end <->
          body = [] /\ e = BodyEmpty) as ->; [|tauto].
  destruct body; set_solver.
Qed.

Lemma missing_fields fm fields :
  flat_map (fun field => if dict_has fm field then [] else [MissingField field])
    fields =
  List.map MissingField (List.filter (fun field => negb (dict_has fm field)) fields).
Proof.
  induction fields as [|f fields IH]; [done|]. simpl.
  destruct (dict_has fm f); simpl; by rewrite IH.
Qed.

Lemma getitem_Fine fm field v : getitem fm field = Fine v <-> dict_get fm field = Some v.
Proof. unfold getitem. destruct (dict_get fm field); split; congruence. Qed.

Section Frontmatter.
Context {py : Python}.

(** A frontmatter with all its fields: the run raises, or it has made every
    check and reports the errors of all of them. *)
Lemma validate_frontmatter_checked skill_name fm body :
  List.filter (fun field => negb (dict_has fm field)) REQUIRED_FIELDS = [] ->
  match validate_frontmatter skill_name fm body with
  | ValidationFailed errors => errors <> [] /\ checked skill_name fm body errors
  | Valid n _ _ => n = skill_name /\ checked skill_name fm body []
  | Uncaught _ => True
  | _ => False
  end.
Proof.
  intros Hall. unfold validate_frontmatter.
  rewrite missing_fields, Hall. cbn [List.map].
  rewrite collect_unfold.
  destruct (getitem fm (u "id")) as [id|] eqn:H1; [|done]. cbn [tried_bind].
  destruct (is_valid_skill_id id) as [valid_id|] eqn:H2; [|done]. cbn [tried_bind].
  destruct (getitem fm (u "visibility")) as [visibility|] eqn:H3; [|done].
  cbn [tried_bind].
  destruct (not_in_visibility visibility) as [outside|] eqn:H4; [|done].
  cbn [tried_bind].
  destruct (getitem fm (u "created_at")) as [created_at|] eqn:H5; [|done].
  cbn [tried_bind].
  destruct (validate_timestamp created_at) as [created_ok|] eqn:H6; [|done].
  cbn [tried_bind].
  destruct (getitem fm (u "updated_at")) as [updated_at|] eqn:H7; [|done].
  cbn [tried_bind].
  destruct (validate_timestamp updated_at) as [updated_ok|] eqn:H8; [|done].
  cbn [tried_bind].
  destruct (getitem fm (u "tags")) as [tags|] eqn:H9; [|done]. cbn [tried_bind].
  destruct (getitem fm (u "tool_refs")) as [tool_refs|] eqn:H10; [|done].
  cbn [tried_bind].
  destruct (getitem fm (u "workflow_refs")) as [workflow_refs|] eqn:H11; [|done].
  cbn [tried_bind].
  destruct (tried_bind (py_in (u "TODO") _) _) as [todo|]; [|done]. cbn [tried_bind].
  destruct (py_len _) as [len|]; [|done]. cbn [tried_bind].
  apply getitem_Fine in H1, H3, H5, H7, H9, H10, H11.
  remember (schema_errors skill_name id valid_id visibility outside created_at
              created_ok updated_at updated_ok tags tool_refs workflow_refs body)
    as errors eqn:He.
  assert (checked skill_name fm body errors) as Hchecked.
  { unfold checked.
    exists id, valid_id, visibility, outside, created_at, created_ok,
      updated_at, updated_ok, tags, tool_refs, workflow_refs.
    repeat split; done. }
  destruct errors as [|e errors'].
  - destruct (summary fm REQUIRED_FIELDS); [|done]. split; done.
  - split; done.
Qed.

End Frontmatter.

(** ** The frontmatter of the template *)

Lemma digit_bounds n : (48 <= digit n <= 57)%N.
Proof. unfold digit. divmod_lia. Qed.

Lemma replace_char_id old new s :
  Forall (fun c => c <> old) s -> replace_char old new s = s.
Proof.
  unfold replace_char. induction 1 as [|c s Hc _ IH]; [done|]. simpl.
  apply N.eqb_neq in Hc. rewrite Hc. simpl. by rewrite IH.
Qed.

Lemma iso_seconds_no_Z d : Forall (fun c => c <> 90%N) (iso_seconds d).
Proof.
  unfold iso_seconds, pad4, pad2.
  cbn [app u List.map list_ascii_of_string N_of_ascii N_of_digits].
  repeat constructor;
    try (intros H; pose proof (digit_bounds (year d / 1000));
         pose proof (digit_bounds (year d / 100));
         pose proof (digit_bounds (year d / 10));
         pose proof (digit_bounds (year d));
         pose proof (digit_bounds (month d / 10));
         pose proof (digit_bounds (month d));
         pose proof (digit_bounds (day d / 10));
         pose proof (digit_bounds (day d));
         pose proof (digit_bounds (hour d / 10));
         pose proof (digit_bounds (hour d));
         pose proof (digit_bounds (minute d / 10));
         pose proof (digit_bounds (minute d));
         pose proof (digit_bounds (second d / 10));
         pose proof (digit_bounds (second d)); lia).
Qed.

Lemma replace_Z_strftime d :
  replace_char 90 (u "+00:00") (strftime_utc d) = iso_seconds d ++ u "+00:00".
Proof.
  unfold strftime_utc.
  transitivity (replace_char 90 (u "+00:00") (iso_seconds d) ++ u "+00:00").
  - unfold replace_char. by rewrite flat_map_app.
  - by rewrite replace_char_id by apply iso_seconds_no_Z.
Qed.

Section TemplateFrontmatter.
Context {py : Python}.

Lemma validate_timestamp_strftime d :
  valid_datetime d = true -> validate_timestamp (YStr (strftime_utc d)) = Fine true.
Proof.
  intros Hd. unfold validate_timestamp.
  by rewrite replace_Z_strftime, fromisoformat_utc.
Qed.

(** What validate_skill finds in the frontmatter of the template: the id can
    differ from the directory or be refused, the body can be empty. *)
Lemma validate_template_mapping dirname skill_name skill_title d body :
  valid_datetime d = true ->
  validate_frontmatter dirname
    (template_mapping skill_name skill_title (strftime_utc d)) body =
  match (if str_eqb skill_name dirname then []
         else [IdMismatch (YStr skill_name) dirname]) ++
        (if accepted_id skill_name then [] else [InvalidIdFormat (YStr skill_name)]) ++
        (match body with [] => [BodyEmpty] | _ => [] end) with
  | [] => Valid dirname (quality_warnings body false 3)
            (template_fields skill_name skill_title (strftime_utc d))
  | errors => ValidationFailed errors
  end.
Proof.
  intros Hd. unfold validate_frontmatter.
  change (flat_map _ REQUIRED_FIELDS) with (@nil error).
  rewrite collect_unfold.
  change (getitem _ (u "id")) with (Fine (YStr skill_name)).
  change (getitem _ (u "visibility")) with (Fine (YStr (u "public"))).
  change (getitem _ (u "created_at")) with (Fine (YStr (strftime_utc d))).
  change (getitem _ (u "updated_at")) with (Fine (YStr (strftime_utc d))).
  cbn [tried_bind].
  rewrite is_valid_skill_id_str, validate_timestamp_strftime by done.
  cbn [tried_bind].
  change (not_in_visibility (YStr (u "public"))) with (Fine false).
  cbn [tried_bind].
  unfold schema_errors. cbn [eq_str].
  destruct (str_eqb skill_name dirname), (accepted_id skill_name), body;
    reflexivity.
Qed.

End TemplateFrontmatter.

Section IdFormat.
Context {py : Python}.

(** C5 (amended).  For a frontmatter with all required fields whose id is a
    str, a run that does not raise reports the id-format error exactly when
    the id is refused by the validator's own grammar: empty, or its first
    character not lowercase, or a character that is neither lowercase, a
    digit nor a hyphen.  On ASCII text that grammar is: a first character in
    a-z and all characters in a-z, 0-9 and the hyphen; a Skill Identifier
    that begins with a letter is accepted. *)
Theorem id_format_error (skill_name : str) (fm : list (yaml * yaml))
    (body s : str) :
  List.filter (fun field => negb (dict_has fm field)) REQUIRED_FIELDS = [] ->
  dict_get fm (u "id") = Some (YStr s) ->
  match validate_frontmatter skill_name fm body with
  | ValidationFailed errors =>
      InvalidIdFormat (YStr s) ∈ errors <-> accepted_id s = false
  | Valid _ _ _ => accepted_id s = true
  | Uncaught _ => True
  | _ => False
  end /\
  (forallb is_ascii s = true -> accepted_id s = ascii_accepted_id s) /\
  (is_skill_identifier s = true -> is_az (hd 0%N s) = true ->
   accepted_id s = true).
Proof.
  intros Hall Hid. split; [|split].
  - pose proof (validate_frontmatter_checked skill_name fm body Hall) as H.
    assert (forall errors,
              checked skill_name fm body errors ->
              InvalidIdFormat (YStr s) ∈ errors <-> accepted_id s = false)
      as Hiff.
    { intros errors (id & valid_id & vis & outside & c & cok & up & uok & tags
                     & tools & flows & H1 & H2 & _ & _ & _ & _ & _ & _ & _ & _
                     & _ & ->).
      rewrite Hid in H1. injection H1 as <-.
      rewrite is_valid_skill_id_str in H2. injection H2 as <-.
      rewrite elem_of_schema_errors. split; [|tauto].
      intros [[_ [=]]|[[? _]|[[_ [=]]|[[_ [=]]|[[_ [=]]|[[_ [=]]|[[_ [=]]
                |[[_ [=]]|[_ [=]]]]]]]]]]. done. }
    destruct (validate_frontmatter skill_name fm body); try done.
    + destruct H as [_ H]. by apply Hiff.
    + destruct H as [_ H]. apply Hiff in H.
      destruct (accepted_id s); [done|]. exfalso.
      assert (InvalidIdFormat (YStr s) ∈ @nil error) as Hnil by by apply H.
      by apply elem_of_nil in Hnil.
  - apply accepted_id_ascii.
  - apply accepted_skill_identifier.
Qed.

End IdFormat.

Lemma id_format_error_witness :
  InvalidIdFormat (YStr (u "1abc")) ∈
  reported_errors
    (@validate_frontmatter ascii_only (u "1abc")
       (template_mapping (u "1abc") (u "1abc") (strftime_utc noon)) sample_body).
Proof.
  destruct (@id_format_error ascii_only (u "1abc")
              (template_mapping (u "1abc") (u "1abc") (strftime_utc noon))
              sample_body (u "1abc") eq_refl eq_refl) as [H _].
  vm_compute in H. vm_compute. apply H. reflexivity.
Defined.

(** C5 as stated fails both ways: an id with consecutive hyphens is no Skill
    Identifier and yet draws no error, and a Skill Identifier that begins
    with a digit draws the id-format error. *)
Lemma id_format_error_counterexample :
  (is_skill_identifier (u "a--b") = false /\
   forall py : Python,
     @validate_frontmatter py (u "a--b")
       (template_mapping (u "a--b") (u "A  B") (strftime_utc noon)) sample_body =
     Valid (u "a--b") [DescriptionShort]
       (template_fields (u "a--b") (u "A  B") (strftime_utc noon))) /\
  (is_skill_identifier (u "1abc") = true /\
   forall py : Python,
     @validate_frontmatter py (u "1abc")
       (template_mapping (u "1abc") (u "1abc") (strftime_utc noon)) sample_body =
     ValidationFailed [InvalidIdFormat (YStr (u "1abc"))]).
Proof.
  split; (split; [reflexivity|]); intros py;
    rewrite validate_template_mapping by reflexivity;
    rewrite accepted_id_ascii by reflexivity; reflexivity.
Qed.

(** ** Collecting the errors *)

Lemma required_present fm field :
  List.filter (fun field => negb (dict_has fm field)) REQUIRED_FIELDS = [] ->
  field ∈ REQUIRED_FIELDS -> exists v, dict_get fm field = Some v.
Proof.
  intros Hall Hin. destruct (dict_get fm field) as [v|] eqn:Hget; [eauto|].
  exfalso. assert (field ∈ @nil str) as Hnil; [|by apply elem_of_nil in Hnil].
  rewrite <- Hall. apply list_elem_of_In, filter_In. split.
  - by apply list_elem_of_In.
  - unfold dict_has. by rewrite Hget.
Qed.

Lemma schema_errors_nonempty skill_name id valid_id visibility outside created_at
    created_ok updated_at updated_ok tags tool_refs workflow_refs body body' :
  body <> [] -> body' <> [] ->
  schema_errors skill_name id valid_id visibility outside created_at created_ok
    updated_at updated_ok tags tool_refs workflow_refs body =
  schema_errors skill_name id valid_id visibility outside created_at created_ok
    updated_at updated_ok tags tool_refs workflow_refs body'.
Proof. unfold schema_errors. by destruct body, body'. Qed.

Section CollectAll.
Context {py : Python}.

(** Whether the checks raise does not depend on the body, and the body
    enters their result at two places only. *)
Lemma collect_body skill_name fm :
  (exists e, forall body, collect skill_name fm body = Thrown e) \/
  (exists id valid_id visibility outside created_at created_ok updated_at
          updated_ok tags tool_refs workflow_refs todo len,
     forall body,
       collect skill_name fm body =
       Fine (schema_errors skill_name id valid_id visibility outside created_at
               created_ok updated_at updated_ok tags tool_refs workflow_refs body,
             quality_warnings body todo len)).
Proof.
  destruct (getitem fm (u "id")) as [id|e] eqn:H1;
    [|left; exists e; intros; rewrite collect_unfold, H1; done].
  destruct (is_valid_skill_id id) as [valid_id|e] eqn:H2;
    [|left; exists e; intros; rewrite collect_unfold, H1; cbn [tried_bind];
      rewrite H2; done].
  destruct (getitem fm (u "visibility")) as [visibility|e] eqn:H3;
    [|left; exists e; intros; rewrite collect_unfold, H1; cbn [tried_bind];
      rewrite H2; cbn [tried_bind]; rewrite H3; done].
  destruct (not_in_visibility visibility) as [outside|e] eqn:H4;
    [|left; exists e; intros; rewrite collect_unfold, H1; cbn [tried_bind];
      rewrite H2; cbn [tried_bind]; rewrite H3; cbn [tried_bind]; rewrite H4; done].
  destruct (getitem fm (u "created_at")) as [created_at|e] eqn:H5;
    [|left; exists e; intros; rewrite collect_unfold, H1; cbn [tried_bind];
      rewrite H2; cbn [tried_bind]; rewrite H3; cbn [tried_bind]; rewrite H4;
      cbn [tried_bind]; rewrite H5; done].
  destruct (validate_timestamp created_at) as [created_ok|e] eqn:H6;
    [|left; exists e; intros; rewrite collect_unfold, H1; cbn [tried_bind];
      rewrite H2; cbn [tried_bind]; rewrite H3; cbn [tried_bind]; rewrite H4;
      cbn [tried_bind]; rewrite H5; cbn [tried_bind]; rewrite H6; done].
  destruct (getitem fm (u "updated_at")) as [updated_at|e] eqn:H7;
    [|left; exists e; intros; rewrite collect_unfold, H1; cbn [tried_bind];
      rewrite H2; cbn [tried_bind]; rewrite H3; cbn [tried_bind]; rewrite H4;
      cbn [tried_bind]; rewrite H5; cbn [tried_bind]; rewrite H6;
      cbn [tried_bind]; rewrite H7; done].
  destruct (validate_timestamp updated_at) as [updated_ok|e] eqn:H8;
    [|left; exists e; intros; rewrite collect_unfold, H1; cbn [tried_bind];
      rewrite H2; cbn [tried_bind]; rewrite H3; cbn [tried_bind]; rewrite H4;
      cbn [tried_bind]; rewrite H5; cbn [tried_bind]; rewrite H6;
      cbn [tried_bind]; rewrite H7; cbn [tried_bind]; rewrite H8; done].
  destruct (tags <~ getitem fm (u "tags") ;;
            tool_refs <~ getitem fm (u "tool_refs") ;;
            workflow_refs <~ getitem fm (u "workflow_refs") ;;
            let description := default (YStr []) (dict_get fm (u "description")) in
            todo <~ (t <~ py_in (u "TODO") description ;;
                     if t : bool then Fine true else py_in (u "[TODO") description) ;;
            len <~ py_len description ;;
            Fine (tags, tool_refs, workflow_refs, todo, len))
    as [[[[[tags tool_refs] workflow_refs] todo] len]|e] eqn:Hrest.
  - right. exists id, valid_id, visibility, outside, created_at, created_ok,
      updated_at, updated_ok, tags, tool_refs, workflow_refs, todo, len.
    intros body. rewrite collect_unfold, H1. cbn [tried_bind].
    rewrite H2. cbn [tried_bind]. rewrite H3. cbn [tried_bind]. rewrite H4.
    cbn [tried_bind]. rewrite H5. cbn [tried_bind]. rewrite H6.
    cbn [tried_bind]. rewrite H7. cbn [tried_bind]. rewrite H8.
    cbn [tried_bind]. revert Hrest.
    destruct (getitem fm (u "tags")); [|done]. cbn [tried_bind].
    destruct (getitem fm (u "tool_refs")); [|done]. cbn [tried_bind].
    destruct (getitem fm (u "workflow_refs")); [|done]. cbn [tried_bind].
    destruct (tried_bind (py_in (u "TODO") _) _); [|done]. cbn [tried_bind].
    destruct (py_len _); [|done]. cbn [tried_bind]. by intros [= -> -> -> -> ->].
  - left. exists e. intros body. rewrite collect_unfold, H1. cbn [tried_bind].
    rewrite H2. cbn [tried_bind]. rewrite H3. cbn [tried_bind]. rewrite H4.
    cbn [tried_bind]. rewrite H5. cbn [tried_bind]. rewrite H6.
    cbn [tried_bind]. rewrite H7. cbn [tried_bind]. rewrite H8.
    cbn [tried_bind]. revert Hrest.
    destruct (getitem fm (u "tags")); [|by intros [= ->]]. cbn [tried_bind].
    destruct (getitem fm (u "tool_refs")); [|by intros [= ->]]. cbn [tried_bind].
    destruct (getitem fm (u "workflow_refs")); [|by intros [= ->]].
    cbn [tried_bind].
    destruct (tried_bind (py_in (u "TODO") _) _); [|by intros [= ->]].
    cbn [tried_bind].
    destruct (py_len _); [|by intros [= ->]]. done.
Qed.

End CollectAll.

Section CollectAllClaims.
Context {py : Python}.

(** A frontmatter whose scalar fields are strs raises nothing. *)
Lemma strings_do_not_raise skill_name fm body i v c up d :
  List.filter (fun field => negb (dict_has fm field)) REQUIRED_FIELDS = [] ->
  dict_get fm (u "id") = Some (YStr i) ->
  dict_get fm (u "visibility") = Some (YStr v) ->
  dict_get fm (u "created_at") = Some (YStr c) ->
  dict_get fm (u "updated_at") = Some (YStr up) ->
  dict_get fm (u "description") = Some d -> sized d = true ->
  exists passed, returned (validate_frontmatter skill_name fm body) = Some passed.
Proof.
  intros Hall Hi Hv Hc Hu Hd Hsized.
  destruct (required_present fm (u "tags") Hall) as [tags Htags].
  { rewrite list_elem_of_In. simpl. tauto. }
  destruct (required_present fm (u "tool_refs") Hall) as [tools Htools].
  { rewrite list_elem_of_In. simpl. tauto. }
  destruct (required_present fm (u "workflow_refs") Hall) as [flows Hflows].
  { rewrite list_elem_of_In. simpl. tauto. }
  assert (exists fields, summary fm REQUIRED_FIELDS = Fine fields) as [fields Hsum].
  { assert (forall fields,
              (forall f, f ∈ fields -> f ∈ REQUIRED_FIELDS) ->
              exists shown, summary fm fields = Fine shown) as Hsum;
      [|by apply Hsum].
    induction fields as [|f fields IH]; intros Hin; [by exists []|].
    destruct (required_present fm f Hall) as [x Hx]; [apply Hin; by left|].
    destruct IH as [shown Hshown]; [intros; apply Hin; by right|].
    cbn [summary]. unfold getitem. rewrite Hx. cbn [tried_bind]. rewrite Hshown.
    by exists ((f, display_of x) :: shown). }
  unfold validate_frontmatter. rewrite missing_fields, Hall, Hsum. cbn [List.map].
  rewrite collect_unfold. unfold getitem.
  rewrite Hi, Hv, Hc, Hu, Htags, Htools, Hflows, Hd.
  cbn [tried_bind from_option]. unfold id. rewrite is_valid_skill_id_str.
  cbn [tried_bind not_in_visibility validate_timestamp].
  destruct d; try done; cbn [py_in py_len tried_bind];
    repeat (case_match; cbn [tried_bind]);
    first [by exists true | by exists false].
Qed.

(** C2 (amended).  The required fields that are missing are reported
    together, and the report ends there.  When none is missing and no check
    raises, every check is made and the errors hold one entry for each that
    fails (id and directory, id grammar, visibility, both timestamps, the
    three lists, the empty body); the checks raise nothing when id,
    visibility and the timestamps are strs and the description has a
    length. *)
Theorem collect_all (skill_name : str) (fm : list (yaml * yaml)) (body : str) :
  let missing := List.filter (fun field => negb (dict_has fm field)) REQUIRED_FIELDS in
  match missing with
  | _ :: _ =>
      validate_frontmatter skill_name fm body =
      ValidationFailed (List.map MissingField missing)
  | [] =>
      match validate_frontmatter skill_name fm body with
      | ValidationFailed errors => errors <> [] /\ checked skill_name fm body errors
      | Valid _ _ _ => checked skill_name fm body []
      | Uncaught _ => True
      | _ => False
      end /\
      (is_str (default YNone (dict_get fm (u "id"))) = true ->
       is_str (default YNone (dict_get fm (u "visibility"))) = true ->
       is_str (default YNone (dict_get fm (u "created_at"))) = true ->
       is_str (default YNone (dict_get fm (u "updated_at"))) = true ->
       sized (default YNone (dict_get fm (u "description"))) = true ->
       exists passed, returned (validate_frontmatter skill_name fm body) = Some passed)
  end.
Proof.
  intros missing.
  destruct missing as [|f rest] eqn:Hmissing; subst missing.
  - split.
    + pose proof (validate_frontmatter_checked skill_name fm body Hmissing) as H.
      destruct (validate_frontmatter skill_name fm body); try done. tauto.
    + intros Hi Hv Hc Hu Hd.
      destruct (dict_get fm (u "id")) as [[]|] eqn:Ei; try done.
      destruct (dict_get fm (u "visibility")) as [[]|] eqn:Ev; try done.
      destruct (dict_get fm (u "created_at")) as [[]|] eqn:Ec; try done.
      destruct (dict_get fm (u "updated_at")) as [[]|] eqn:Eu; try done.
      destruct (dict_get fm (u "description")) as [d|] eqn:Ed; [|done].
      by eapply strings_do_not_raise.
  - unfold validate_frontmatter. rewrite missing_fields, Hmissing. done.
Qed.

(** C4 (amended).  A body that is not empty and shorter than 100 characters
    is a warning and nothing more: the errors and the result of the run are
    those of any other body that is not empty, and a passing run lists the
    warning.  An empty body is an error: the run with it never passes, and
    it reports the empty body whenever it reaches the checks. *)
Theorem short_body_warns (skill_name : str) (fm : list (yaml * yaml))
    (body : str) :
  body <> [] -> length body < 100 ->
  (forall body', body' <> [] ->
     reported_errors (validate_frontmatter skill_name fm body) =
     reported_errors (validate_frontmatter skill_name fm body') /\
     returned (validate_frontmatter skill_name fm body) =
     returned (validate_frontmatter skill_name fm body')) /\
  (forall n warnings fields,
     validate_frontmatter skill_name fm body = Valid n warnings fields ->
     BodyVeryShort ∈ warnings) /\
  (returned (validate_frontmatter skill_name fm []) = Some false \/
   returned (validate_frontmatter skill_name fm []) = None) /\
  (forall errors,
     List.filter (fun field => negb (dict_has fm field)) REQUIRED_FIELDS = [] ->
     validate_frontmatter skill_name fm [] = ValidationFailed errors ->
     BodyEmpty ∈ errors).
Proof.
  intros Hbody Hshort. unfold validate_frontmatter.
  destruct (flat_map _ REQUIRED_FIELDS) as [|m missing] eqn:Hmissing.
  2:{ split; [|split; [|split]]; [done|done|by left|].
      intros errors Hall. by rewrite missing_fields, Hall in Hmissing. }
  destruct (collect_body skill_name fm)
    as [[e He]|(id & valid_id & vis & outside & c & cok & up & uok & tags &
                tools & flows & todo & len & Hc)].
  { rewrite !He. split; [|split; [|split]]; [|done|by right|done].
    intros body' _. by rewrite He. }
  rewrite !Hc. split; [|split; [|split]].
  - intros body' Hbody'. rewrite Hc.
    rewrite (schema_errors_nonempty _ _ _ _ _ _ _ _ _ _ _ _ body body') by done.
    destruct (schema_errors _ _ _ _ _ _ _ _ _ _ _ _ body'); [|done].
    by destruct (summary fm REQUIRED_FIELDS).
  - intros n warnings fields.
    destruct (schema_errors _ _ _ _ _ _ _ _ _ _ _ _ body); [|done].
    destruct (summary fm REQUIRED_FIELDS); [|done]. intros [= _ <- _].
    unfold quality_warnings. destruct body as [|b body]; [done|].
    apply Nat.ltb_lt in Hshort. rewrite Hshort. set_solver.
  - assert (BodyEmpty ∈ schema_errors skill_name id valid_id vis outside c cok
                          up uok tags tools flows []) as Hin.
    { apply elem_of_schema_errors. tauto. }
    destruct (schema_errors _ _ _ _ _ _ _ _ _ _ _ _ []); [|by left].
    by apply elem_of_nil in Hin.
  - intros errors _.
    assert (BodyEmpty ∈ schema_errors skill_name id valid_id vis outside c cok
                          up uok tags tools flows []) as Hin.
    { apply elem_of_schema_errors. tauto. }
    destruct (schema_errors _ _ _ _ _ _ _ _ _ _ _ _ []) eqn:He.
    + by apply elem_of_nil in Hin.
    + by intros [= <-].
Qed.

End CollectAllClaims.

(** C2 as stated fails: with a field missing, the id that differs from the
    directory is not reported. *)
Lemma collect_all_counterexample :
  let fm := without (u "visibility")
              (template_mapping (u "foo") (u "Foo") (strftime_utc noon)) in
  dict_get fm (u "id") = Some (YStr (u "foo")) /\
  eq_str (YStr (u "foo")) (u "bar") = false /\
  (forall py : Python,
     @validate_frontmatter py (u "bar") fm sample_body =
     ValidationFailed [MissingField (u "visibility")]).
Proof. repeat split. Qed.

Lemma short_body_warns_witness :
  returned
    (@validate_frontmatter ascii_only (u "my-skill")
       (template_mapping (u "my-skill") (u "My Skill") (strftime_utc noon))
       (u "A short body.")) =
  returned
    (@validate_frontmatter ascii_only (u "my-skill")
       (template_mapping (u "my-skill") (u "My Skill") (strftime_utc noon))
       sample_body).
Proof.
  destruct (@short_body_warns ascii_only (u "my-skill")
              (template_mapping (u "my-skill") (u "My Skill") (strftime_utc noon))
              (u "A short body.")) as [H _].
  - done.
  - simpl. lia.
  - apply (H sample_body). done.
Defined.

(** C4 as stated fails: the empty body is an error, and the run fails. *)
Lemma short_body_warns_counterexample :
  (forall py : Python,
     @validate_frontmatter py (u "my-skill")
       (template_mapping (u "my-skill") (u "My Skill") (strftime_utc noon)) [] =
     ValidationFailed [BodyEmpty]) /\
  returned (ValidationFailed [BodyEmpty]) = Some false /\
  exit_status (ValidationFailed [BodyEmpty]) = 1.
Proof.
  split; [|done]. intros py.
  rewrite validate_template_mapping by reflexivity.
  rewrite accepted_id_ascii by reflexivity. reflexivity.
Qed.

(** ** The validator without yaml *)

Section DegradedMode.
Context {py : Python}.

Lemma validate_frontmatter_not_fatal skill_name fm body f :
  validate_frontmatter skill_name fm body <> Fatal f.
Proof.
  unfold validate_frontmatter. repeat case_match; done.
Qed.

(** C3 (amended).  Without yaml the validator makes the checks of stages 1
    to 4 and the body checks, and nothing else: it fails exactly where the
    validator with yaml fails at these stages, and every other document
    passes, with the notice of a basic validation and never that of a valid
    structure, whatever its frontmatter holds. *)
Theorem degraded_mode (fs : filesystem) (skill_dir : path) :
  match validate_skill None fs skill_dir with
  | Fatal f =>
      structural f = true /\
      forall safe_load, validate_skill (Some safe_load) fs skill_dir = Fatal f
  | BasicPassed n _ =>
      n = name skill_dir /\
      forall safe_load f,
        validate_skill (Some safe_load) fs skill_dir = Fatal f ->
        structural f = false
  | _ => False
  end /\
  (forall content block text,
     is_dir_in fs skill_dir = true ->
     read_text fs (skill_dir ++ [u "SKILL.md"]) = inr content ->
     content = u "---" ++ block ++ u "---" ++ text ->
     (forall k, k < length block ->
        startswith (u "---") (drop k (block ++ u "---" ++ text)) = false) ->
     validate_skill None fs skill_dir =
     BasicPassed (name skill_dir) (basic_warnings (strip text))).
Proof.
  split.
  - unfold validate_skill.
    destruct (path_exists_in fs skill_dir); [|done]. cbn [negb].
    destruct (is_dir_in fs skill_dir); [|done]. cbn [negb].
    destruct (path_exists_in fs (skill_dir ++ [u "SKILL.md"])); [|done].
    cbn [negb].
    destruct (read_text fs (skill_dir ++ [u "SKILL.md"])) as [e|content]; [done|].
    destruct (startswith (u "---") content); [|done]. cbn [negb].
    destruct (length (split_max (u "---") 2 content) <? 3)%nat; [done|].
    split; [done|]. intros safe_load f.
    destruct (safe_load _) as [[]|]; try by intros [= <-].
    intros H. by apply validate_frontmatter_not_fatal in H.
  - intros content block text Hdir Hread Hcontent Hleft.
    destruct (validate_skill_stages None fs skill_dir content Hdir Hread)
      as (_ & _ & H).
    by apply (H block text).
Qed.

End DegradedMode.

Lemma bare_document_leftmost k :
  k < length (unlines [[]; u "name: bare"]) ->
  startswith (u "---")
    (drop k (unlines [[]; u "name: bare"] ++ u "---" ++ unlines [[]; u "A body."])) =
  false.
Proof.
  intros Hk. do 12 (destruct k as [|k]; [reflexivity|]). simpl in Hk. lia.
Qed.

(** C3 as stated fails: a document without the required fields passes when
    there is no yaml, while the validator with yaml reports the ten fields
    that are missing. *)
Lemma degraded_mode_counterexample :
  (forall py : Python,
     @validate_skill py None bare_package [u "bare"] =
     BasicPassed (u "bare") [BodyVeryShort]) /\
  returned (BasicPassed (u "bare") [BodyVeryShort]) = Some true /\
  (forall (py : Python) (safe_load : yaml_module),
     safe_load (u "name: bare") = Some (YDict [(YStr (u "name"), YStr (u "bare"))]) ->
     @validate_skill py (Some safe_load) bare_package [u "bare"] =
     ValidationFailed
       (List.map MissingField
          [u "id"; u "description"; u "category"; u "tags"; u "tool_refs";
           u "workflow_refs"; u "visibility"; u "version"; u "created_at";
           u "updated_at"])).
Proof.
  split; [|split; [done|]].
  - intros py.
    destruct (@validate_skill_stages py None bare_package [u "bare"]
                bare_document eq_refl eq_refl) as (_ & _ & H).
    rewrite (H _ _ eq_refl bare_document_leftmost).
    rewrite strip_ascii by reflexivity. reflexivity.
  - intros py safe_load Hload.
    destruct (@validate_skill_stages py (Some safe_load) bare_package [u "bare"]
                bare_document eq_refl eq_refl) as (_ & _ & H).
    rewrite (H _ _ eq_refl bare_document_leftmost).
    rewrite !strip_ascii by reflexivity.
    change (strip_with ascii_isspace (unlines [[]; u "name: bare"]))
      with (u "name: bare").
    rewrite Hload. reflexivity.
Qed.

(** ** What the generator leaves on the disk *)

Lemma keeps_run {A} q (c : io A) w r w' content :
  keeps q c -> c w = (r, w') ->
  read_text (files w) q = inr content -> read_text (files w') q = inr content.
Proof. intros Hc Hrun Hread. apply Hc in Hread. by rewrite Hrun in Hread. Qed.

Lemma keeps_ret {A} q (a : A) : keeps q (ret a).
Proof. by intros w content. Qed.

Lemma keeps_raise {A} q e : keeps q (@raise A e).
Proof. by intros w content. Qed.

Lemma keeps_print q l : keeps q (print l).
Proof. by intros w content. Qed.

Lemma keeps_bind {A B} q (c : io A) (k : A -> io B) :
  keeps q c -> (forall a, keeps q (k a)) -> keeps q (bind c k).
Proof.
  intros Hc Hk w content Hread. unfold bind. apply Hc in Hread.
  destruct (c w) as [[a|e] w1]; simpl in *; [|done]. by apply Hk.
Qed.

Lemma keeps_try_except {A} q (body : io A) handler :
  keeps q body -> (forall e, keeps q (handler e)) -> keeps q (try_except body handler).
Proof.
  intros Hb Hh w content Hread. unfold try_except. apply Hb in Hread.
  destruct (body w) as [[a|[e|code]] w1]; simpl in *; [done| |done]. by apply Hh.
Qed.

Lemma read_text_insert_ne (fs : filesystem) p q n :
  p <> q -> read_text (<[p := n]> fs) q = read_text fs q.
Proof.
  intros Hne. unfold read_text, lookup_node. destruct q; [done|].
  by rewrite lookup_insert_ne.
Qed.

Lemma keeps_os_mkdir q p : keeps q (os_mkdir p).
Proof.
  intros w content Hread. unfold os_mkdir.
  destruct (path_exists_in (files w) p) eqn:Hp; [done|].
  destruct (lookup_node (files w) (parent p)) as [[]|]; try done. simpl.
  rewrite read_text_insert_ne; [done|]. intros ->.
  apply read_text_exists in Hread. congruence.
Qed.

Lemma keeps_mkdir q depth parents exist_ok p : keeps q (mkdir depth parents exist_ok p).
Proof.
  revert parents exist_ok p.
  induction depth as [|depth IH]; intros parents exist_ok p w content Hread;
    cbn [mkdir]; pose proof (keeps_os_mkdir q p w content Hread) as Hos;
    destruct (os_mkdir p w) as [[[]|[[]|code]] w1]; simpl in *;
    try done; try (by case_match).
  case_match; [done|].
  by apply (keeps_bind q _ _ (IH _ _ _) (fun _ => IH _ _ _)).
Qed.

Lemma keeps_write_text q p content : p <> q -> keeps q (write_text p content).
Proof.
  intros Hne w c Hread. unfold write_text.
  destruct (lookup_node (files w) p) as [[|c0 x]|]; simpl; [done| |].
  - by rewrite read_text_insert_ne.
  - destruct (lookup_node (files w) (parent p)) as [[]|]; simpl; try done.
    by rewrite read_text_insert_ne.
Qed.

Lemma keeps_chmod_755 q p : keeps q (chmod_755 p).
Proof.
  intros w content Hread. unfold chmod_755.
  destruct (lookup_node (files w) p) as [[|c x]|] eqn:Hp; simpl; [done| |done].
  destruct (decide (p = q)) as [->|Hne].
  - unfold read_text in *. rewrite Hp in Hread. injection Hread as ->.
    unfold lookup_node in *. destruct q; [done|]. by rewrite lookup_insert_eq.
  - by rewrite read_text_insert_ne.
Qed.

Lemma write_text_read p content w w' :
  write_text p content w = (Ok tt, w') -> read_text (files w') p = inr content.
Proof.
  unfold write_text, read_text.
  destruct (lookup_node (files w) p) as [[|c x]|] eqn:Hp; [done| |].
  - intros [= <-]. simpl. unfold lookup_node in *. destruct p; [done|].
    by rewrite lookup_insert_eq.
  - destruct (lookup_node (files w) (parent p)) as [[]|]; try done.
    intros [= <-]. simpl. unfold lookup_node in *. destruct p; [done|].
    by rewrite lookup_insert_eq.
Qed.

Section Produced.
Context {py : Python}.

Lemma keeps_create_resource_dirs skill_dir skill_name skill_title resources ex :
  keeps (skill_dir ++ [u "SKILL.md"])
    (create_resource_dirs skill_dir skill_name skill_title resources ex).
Proof.
  assert (forall r f, (skill_dir ++ [r]) ++ [f] <> skill_dir ++ [u "SKILL.md"])
    as Hne.
  { intros r f H. apply (f_equal length) in H. rewrite !length_app in H.
    simpl in H. lia. }
  induction resources as [|resource rest IH]; cbn [create_resource_dirs].
  { apply keeps_ret. }
  apply keeps_bind; [apply keeps_mkdir|intros _].
  apply keeps_bind; [|intros _; apply IH].
  repeat case_match;
    repeat first [ apply keeps_bind; [|intros _]
                 | apply keeps_write_text, Hne
                 | apply keeps_chmod_755 | apply keeps_print | apply keeps_ret ].
Qed.

(** After a run of init_skill that returns a path, the path is a directory
    and its SKILL.md holds the template, filled in. *)
Lemma init_skill_produces now skill_name path resources ex w d w' :
  init_skill now skill_name path resources ex w = (Ok (Some d), w') ->
  d = path ++ [skill_name] /\
  is_dir_in (files w') d = true /\
  read_text (files w') (d ++ [u "SKILL.md"]) =
  inr (SKILL_TEMPLATE skill_name (title_case_skill_name skill_name)
         (strftime_utc now)).
Proof.
  intros Hrun.
  apply init_skill_success in Hrun
    as (-> & _ & w1 & w2 & w3 & Hmk & Hwr & Hres & Hfiles).
  split; [done|]. rewrite Hfiles.
  apply mkdir_made in Hmk.
  pose proof (steady_run _ _ _ _ (steady_write_text _ _) Hwr) as H12.
  apply write_text_read in Hwr.
  destruct resources as [|r rest].
  - subst w3. simpl. split; [|done]. by apply H12.
  - pose proof (steady_run _ _ _ _ (steady_create_resource_dirs _ _ _ _ _) Hres)
      as H23.
    split.
    + apply H23. simpl. by apply H12.
    + by apply (keeps_run _ _ _ _ _ _ (keeps_create_resource_dirs _ _ _ _ _) Hres).
Qed.

End Produced.

(** ** Hyphens in a text *)

Lemma leading_hyphen_app a c b :
  leading_hyphen (a ++ c :: b) = match a with [] => is_hyphen c | _ => leading_hyphen a end.
Proof. destruct a; simpl; by rewrite ?leading_hyphen_cons. Qed.

(** At a character that is no hyphen a text falls in two parts. *)
Lemma consecutive_hyphens_split a c b :
  is_hyphen c = false ->
  consecutive_hyphens (a ++ c :: b) = consecutive_hyphens a || consecutive_hyphens b.
Proof.
  intros Hc. induction a as [|x a IH].
  - simpl. rewrite consecutive_hyphens_cons, Hc. done.
  - cbn [app]. rewrite !consecutive_hyphens_cons, IH, leading_hyphen_app.
    destruct a as [|y a].
    + rewrite Hc. cbn. by rewrite andb_false_r.
    + by rewrite orb_assoc.
Qed.

Lemma hyphen_free_consecutive s : hyphen_free s = true -> consecutive_hyphens s = false.
Proof.
  induction s as [|c s IH]; [done|]. cbn [hyphen_free forallb].
  rewrite andb_true_iff, negb_true_iff. intros [Hc Hs].
  rewrite consecutive_hyphens_cons, Hc. by apply IH.
Qed.

Lemma hyphen_free_app a b : hyphen_free (a ++ b) = hyphen_free a && hyphen_free b.
Proof. apply forallb_app. Qed.

(** Where no two hyphens are side by side and the last character is no
    hyphen, three hyphens start nowhere. *)
Lemma no_rule_inside b c rest k :
  consecutive_hyphens (b ++ [c]) = false -> is_hyphen c = false ->
  k < length (b ++ [c]) ->
  startswith (u "---") (drop k ((b ++ [c]) ++ rest)) = false.
Proof.
  intros Hcons Hc. revert k. induction b as [|x b IH]; intros k Hk.
  - destruct k; [|simpl in Hk; lia]. rewrite drop_0. cbn [app].
    change (u "---") with [HYPHEN; HYPHEN; HYPHEN]. cbn [startswith].
    unfold is_hyphen in Hc. by rewrite (N.eqb_sym HYPHEN c), Hc.
  - cbn [app] in Hcons. rewrite consecutive_hyphens_cons in Hcons.
    apply orb_false_iff in Hcons as [Hx Hb].
    destruct k as [|k].
    + rewrite drop_0. cbn [app]. change (u "---") with [HYPHEN; HYPHEN; HYPHEN].
      cbn [startswith].
      destruct (HYPHEN =? x)%N eqn:Ex; [|done]. cbn [andb].
      apply N.eqb_eq in Ex. subst x.
      change (is_hyphen HYPHEN) with true in Hx. cbn [andb] in Hx.
      unfold is_hyphen in Hc. rewrite N.eqb_sym in Hc.
      destruct b as [|y b]; cbn [app] in *.
      * by rewrite Hc.
      * rewrite leading_hyphen_cons in Hx. unfold is_hyphen in Hx.
        rewrite N.eqb_sym in Hx. by rewrite Hx.
    + cbn [app drop]. apply IH; [done|]. simpl in Hk. lia.
Qed.

(** ** Lines *)

Lemma unlines_app a b : unlines (a ++ b) = unlines a ++ unlines b.
Proof. apply flat_map_app. Qed.

Lemma unlines_join lines :
  lines <> [] -> unlines lines = join [NEWLINE] lines ++ [NEWLINE].
Proof.
  induction lines as [|l lines IH]; [done|]. intros _.
  destruct lines as [|l' lines].
  - simpl. by rewrite app_nil_r.
  - change (unlines (l :: l' :: lines)) with ((l ++ [NEWLINE]) ++ unlines (l' :: lines)).
    rewrite IH by done. cbn [join]. by rewrite <- !app_assoc.
Qed.

(** The template is a rule, the frontmatter, a rule and the body. *)
Lemma SKILL_TEMPLATE_parts skill_name skill_title timestamp :
  SKILL_TEMPLATE skill_name skill_title timestamp =
  u "---" ++
  ((NEWLINE :: template_frontmatter skill_name skill_title timestamp) ++ [NEWLINE]) ++
  u "---" ++ template_text skill_title.
Proof.
  unfold SKILL_TEMPLATE, template_frontmatter, template_text.
  change (SKILL_TEMPLATE_lines skill_name skill_title timestamp)
    with ([u "---"] ++ frontmatter_lines skill_name skill_title timestamp ++
          [u "---"] ++ body_lines skill_title).
  rewrite !unlines_app, (unlines_join (frontmatter_lines _ _ _)) by done.
  change (unlines [u "---"]) with (u "---" ++ [NEWLINE]).
  by rewrite <- !app_assoc.
Qed.

Lemma consecutive_hyphens_after a s :
  hyphen_free a = true -> consecutive_hyphens (a ++ s) = consecutive_hyphens s.
Proof.
  induction a as [|c a IH]; [done|]. cbn [hyphen_free forallb app].
  rewrite andb_true_iff, negb_true_iff. intros [Hc Ha].
  rewrite consecutive_hyphens_cons, Hc. by apply IH.
Qed.

Lemma consecutive_hyphens_before s c :
  is_hyphen c = false -> consecutive_hyphens (s ++ [c]) = consecutive_hyphens s.
Proof.
  intros Hc. rewrite consecutive_hyphens_split by done. apply orb_false_r.
Qed.

Lemma consecutive_hyphens_join lines :
  consecutive_hyphens (join [NEWLINE] lines) = existsb consecutive_hyphens lines.
Proof.
  induction lines as [|l lines IH]; [done|].
  destruct lines as [|l' lines].
  - cbn [join existsb]. by rewrite orb_false_r.
  - change (join [NEWLINE] (l :: l' :: lines))
      with (l ++ NEWLINE :: join [NEWLINE] (l' :: lines)).
    rewrite consecutive_hyphens_split, IH by done. done.
Qed.

(** In the frontmatter of the template two hyphens can be side by side in
    the three placeholders only. *)
Lemma template_frontmatter_hyphens skill_name skill_title timestamp :
  consecutive_hyphens skill_name = false ->
  consecutive_hyphens skill_title = false ->
  consecutive_hyphens timestamp = false ->
  consecutive_hyphens (template_frontmatter skill_name skill_title timestamp) = false.
Proof.
  intros Hname Htitle Hstamp. unfold template_frontmatter.
  rewrite consecutive_hyphens_join.
  unfold frontmatter_lines, SKILL_TEMPLATE_lines. cbn [firstn skipn existsb].
  rewrite !(consecutive_hyphens_after (u _)) by done.
  rewrite !(consecutive_hyphens_after [DQUOTE]) by done.
  rewrite !consecutive_hyphens_before by done.
  by rewrite Hname, Htitle, Hstamp.
Qed.

(** *** The title *)

Lemma partition_char_before h s before after :
  partition [h] s = Some (before, after) -> Forall (fun c => c <> h) before.
Proof.
  revert before. induction s as [|c s IH]; intros before; rewrite partition_unfold.
  - cbn. done.
  - cbn [startswith]. rewrite andb_true_r.
    destruct (N.eqb_spec h c) as [->|Hne].
    + intros [= <- _]. constructor.
    + destruct (partition [h] s) as [[b a]|]; [|done].
      intros [= <- <-]. constructor; [done|]. by apply IH.
Qed.

Lemma contains_char h s : contains [h] s = false -> Forall (fun c => c <> h) s.
Proof.
  intros Hs. apply Forall_forall. intros c Hc ->.
  apply list_elem_of_split in Hc as (before & after & ->).
  assert (contains [h] (before ++ h :: after) = true) as H; [|congruence].
  apply contains_spec. by exists before, after.
Qed.

(** The items of a split at a character do not hold it, when the splits
    allowed are as many as the characters. *)
Lemma split_max_char h n s item :
  length s <= n -> item ∈ split_max [h] n s -> Forall (fun c => c <> h) item.
Proof.
  revert s. induction n as [|n IH]; intros s Hlen; cbn [split_max].
  - destruct s; [|simpl in Hlen; lia]. intros ->%list_elem_of_singleton. constructor.
  - destruct (partition [h] s) as [[before after]|] eqn:Hp.
    + pose proof (partition_char_before _ _ _ _ Hp) as Hbefore.
      apply partition_Some in Hp. subst s.
      intros [->|Hin]%elem_of_cons; [done|].
      apply (IH after); [|done]. rewrite !length_app in Hlen. simpl in Hlen. lia.
    + apply partition_None, contains_char in Hp.
      by intros ->%list_elem_of_singleton.
Qed.

Lemma ascii_upper_hyphen c : c <> HYPHEN -> ascii_upper c <> HYPHEN.
Proof.
  unfold ascii_upper, is_az, HYPHEN. intros Hc.
  destruct (97 <=? c)%N eqn:H1, (c <=? 122)%N eqn:H2; cbn [andb]; try done.
  apply N.leb_le in H1. lia.
Qed.

Lemma ascii_lower_hyphen c : c <> HYPHEN -> ascii_lower c <> HYPHEN.
Proof.
  unfold ascii_lower, is_AZ, HYPHEN. intros Hc.
  destruct (65 <=? c)%N eqn:H1, (c <=? 90)%N eqn:H2; cbn [andb]; try done.
  apply N.leb_le in H1. lia.
Qed.

Lemma ascii_capitalize_hyphen s :
  Forall (fun c => c <> HYPHEN) s -> Forall (fun c => c <> HYPHEN) (ascii_capitalize s).
Proof.
  intros [|c s' Hc Hs']; [done|]. cbn [ascii_capitalize]. constructor.
  - by apply ascii_upper_hyphen.
  - apply Forall_forall. intros x Hx. apply list_elem_of_In, in_map_iff in Hx.
    destruct Hx as (y & <- & Hy). apply ascii_lower_hyphen.
    rewrite Forall_forall in Hs'. by apply Hs', list_elem_of_In.
Qed.

Lemma join_space_hyphen words :
  Forall (Forall (fun c => c <> HYPHEN)) words ->
  Forall (fun c => c <> HYPHEN) (join (u " ") words).
Proof.
  induction 1 as [|w words Hw Hwords IH]; [done|].
  destruct words as [|w' words]; [done|].
  change (join (u " ") (w :: w' :: words))
    with (w ++ u " " ++ join (u " ") (w' :: words)).
  apply Forall_app. split; [done|]. apply Forall_app. split; [|done].
  by repeat constructor.
Qed.

Lemma hyphen_free_Forall s : hyphen_free s = true <-> Forall (fun c => c <> HYPHEN) s.
Proof.
  unfold hyphen_free. rewrite forallb_forall, Forall_forall. unfold is_hyphen.
  split; intros H c Hc.
  - apply list_elem_of_In, H, negb_true_iff, N.eqb_neq in Hc. done.
  - apply negb_true_iff, N.eqb_neq, H, list_elem_of_In, Hc.
Qed.

Lemma digit_hyphen n : is_hyphen (digit n) = false.
Proof.
  unfold is_hyphen, HYPHEN. apply N.eqb_neq. pose proof (digit_bounds n). lia.
Qed.

(** The hyphens of a timestamp stand between digits. *)
Lemma strftime_utc_hyphens d : consecutive_hyphens (strftime_utc d) = false.
Proof.
  unfold strftime_utc, iso_seconds, pad4, pad2.
  cbn [app u List.map list_ascii_of_string N_of_ascii N_of_digits].
  rewrite !consecutive_hyphens_cons, !leading_hyphen_cons, !digit_hyphen.
  reflexivity.
Qed.

(** *** What strip leaves *)

Lemma drop_while_nil p s : drop_while p s = [] -> forallb p s = true.
Proof.
  induction s as [|c s IH]; [done|]. cbn [drop_while forallb].
  destruct (p c); [|done]. exact IH.
Qed.

Lemma strip_with_nonempty p s c :
  c ∈ s -> p c = false -> strip_with p s <> [].
Proof.
  intros Hc Hp Hnil. unfold strip_with in Hnil.
  apply (f_equal (@rev N)) in Hnil. rewrite rev_involutive in Hnil. cbn [rev] in Hnil.
  apply drop_while_nil in Hnil.
  destruct (drop_while p s) as [|x rest] eqn:Hdrop.
  - apply drop_while_nil in Hdrop. rewrite forallb_forall in Hdrop.
    apply list_elem_of_In, Hdrop in Hc. congruence.
  - pose proof (drop_while_head _ _ _ _ Hdrop) as Hx.
    rewrite forallb_forall in Hnil.
    rewrite (Hnil x) in Hx; [done|]. apply in_rev. rewrite rev_involutive. by left.
Qed.

Lemma strip_with_between p a s b :
  p a = true -> p b = true ->
  (forall c rest, s = c :: rest -> p c = false) ->
  (forall c rest, rev s = c :: rest -> p c = false) ->
  strip_with p ((a :: s) ++ [b]) = s.
Proof.
  intros Ha Hb Hhead Hlast. unfold strip_with. cbn [app drop_while]. rewrite Ha.
  destruct s as [|c rest].
  - cbn. by rewrite Hb.
  - cbn [app drop_while]. rewrite (Hhead c rest) by done.
    change (c :: rest ++ [b]) with ((c :: rest) ++ [b]).
    rewrite rev_unit. cbn [drop_while]. rewrite Hb.
    rewrite drop_while_id by done. apply rev_involutive.
Qed.

Lemma rev_join_last sep lines l c tl :
  rev l = c :: tl -> exists tl', rev (join sep (lines ++ [l])) = c :: tl'.
Proof.
  intros Hl. induction lines as [|x lines [tl' IH]]; [by exists tl|].
  cbn [app join]. destruct (lines ++ [l]) as [|y rest] eqn:E.
  - by destruct lines.
  - rewrite !rev_app_distr, IH. by eexists.
Qed.

Section TemplateDocument.
Context {py : Python}.

(** The words of the title hold no hyphen. *)
Lemma title_hyphen_free skill_name :
  forallb allowed_char skill_name = true ->
  hyphen_free (title_case_skill_name skill_name) = true.
Proof.
  intros Hname. apply hyphen_free_Forall, join_space_hyphen, Forall_forall.
  intros word Hword. apply list_elem_of_In, in_map_iff in Hword.
  destruct Hword as (item & <- & Hitem). apply list_elem_of_In in Hitem.
  rewrite capitalize_ascii.
  - apply ascii_capitalize_hyphen. by apply (split_max_char HYPHEN (length skill_name) skill_name).
  - apply forallb_forall. intros c Hc. apply allowed_char_ascii.
    rewrite forallb_forall in Hname. apply Hname, list_elem_of_In.
    eapply split_max_chars; [exact Hitem|]. by apply list_elem_of_In.
Qed.

(** strip takes from the block between the rules its two line breaks. *)
Lemma strip_template_block skill_name skill_title timestamp :
  strip ((NEWLINE :: template_frontmatter skill_name skill_title timestamp) ++ [NEWLINE]) =
  template_frontmatter skill_name skill_title timestamp.
Proof.
  assert (isspace NEWLINE = true) as Hbreak by by rewrite isspace_ascii.
  unfold strip. apply strip_with_between; [done|done|..].
  - assert (exists tl, template_frontmatter skill_name skill_title timestamp = 105%N :: tl)
      as [tl ->] by (eexists; reflexivity).
    intros c rest [= <- _]. by rewrite isspace_ascii.
  - pose proof (rev_join_last [NEWLINE]
      (firstn 12 (frontmatter_lines skill_name skill_title timestamp))
      (u "updated_at: " ++ [DQUOTE] ++ timestamp ++ [DQUOTE]) DQUOTE
      (rev (u "updated_at: " ++ [DQUOTE] ++ timestamp))) as [tl Htl].
    { rewrite !app_assoc. by rewrite rev_unit, <- !app_assoc. }
    unfold template_frontmatter.
    change (frontmatter_lines skill_name skill_title timestamp)
      with (firstn 12 (frontmatter_lines skill_name skill_title timestamp) ++
            [u "updated_at: " ++ [DQUOTE] ++ timestamp ++ [DQUOTE]]).
    rewrite Htl. intros c rest [= <- _]. by rewrite isspace_ascii.
Qed.

(** The body of the template is not empty. *)
Lemma strip_template_text skill_title : strip (template_text skill_title) <> [].
Proof.
  unfold strip. apply (strip_with_nonempty _ _ 35%N).
  - unfold template_text, body_lines, SKILL_TEMPLATE_lines. cbn [skipn unlines flat_map app].
    do 2 (apply elem_of_cons; right). do 2 (apply elem_of_app; left).
    apply elem_of_cons. by left.
  - by rewrite isspace_ascii.
Qed.

End TemplateDocument.

(** ** The generator's package before the validator *)

Lemma name_app (p : path) (n : str) : name (p ++ [n]) = n.
Proof. apply last_last. Qed.

Lemma eq_str_true v s : eq_str v s = true -> v = YStr s.
Proof.
  destruct v; try done. cbn [eq_str]. unfold str_eqb.
  by intros ->%bool_decide_eq_true.
Qed.

Lemma field_is_Some fm field p :
  field_is fm field p = true -> exists v, dict_get fm field = Some v /\ p v = true.
Proof. unfold field_is. destruct (dict_get fm field); [eauto|done]. Qed.

Lemma all_present fm :
  forallb (dict_has fm) REQUIRED_FIELDS = true ->
  List.filter (fun field => negb (dict_has fm field)) REQUIRED_FIELDS = [].
Proof.
  induction REQUIRED_FIELDS as [|f fields IH]; [done|]. cbn [forallb List.filter].
  intros [-> Hrest]%andb_true_iff. by apply IH.
Qed.

Section RoundTrip.
Context {py : Python}.

(** A document made from the template passes the stages of the validator
    that cut it: the frontmatter goes to the parser and the rest is the
    body. *)
Lemma validate_template (yaml : option yaml_module) (fs : filesystem)
    (skill_dir : path) (skill_name skill_title timestamp : str) :
  is_dir_in fs skill_dir = true ->
  read_text fs (skill_dir ++ [u "SKILL.md"]) =
    inr (SKILL_TEMPLATE skill_name skill_title timestamp) ->
  consecutive_hyphens skill_name = false ->
  consecutive_hyphens skill_title = false ->
  consecutive_hyphens timestamp = false ->
  validate_skill yaml fs skill_dir =
  match yaml with
  | None => BasicPassed (name skill_dir) (basic_warnings (strip (template_text skill_title)))
  | Some safe_load =>
      match safe_load (template_frontmatter skill_name skill_title timestamp) with
      | None => Fatal InvalidYaml
      | Some (YDict frontmatter) =>
          validate_frontmatter (name skill_dir) frontmatter
            (strip (template_text skill_title))
      | Some _ => Fatal NotAnObject
      end
  end.
Proof.
  intros Hdir Hread Hname Htitle Hstamp.
  destruct (validate_skill_stages yaml fs skill_dir _ Hdir Hread) as (_ & _ & Hcut).
  rewrite (Hcut _ _ (SKILL_TEMPLATE_parts skill_name skill_title timestamp)).
  - by rewrite strip_template_block.
  - intros k Hk. apply no_rule_inside; [|done|done].
    rewrite consecutive_hyphens_before, consecutive_hyphens_cons by done.
    by apply template_frontmatter_hyphens.
Qed.

(** A frontmatter read as written, with an id the validator accepts and a
    timestamp it can read, draws no error. *)
Lemma written_frontmatter_valid skill_name timestamp fm body :
  reads_as_written fm skill_name timestamp = true ->
  accepted_id skill_name = true ->
  validate_timestamp (YStr timestamp) = Fine true ->
  body <> [] ->
  exists warnings fields,
    validate_frontmatter skill_name fm body = Valid skill_name warnings fields.
Proof.
  unfold reads_as_written. rewrite !andb_true_iff.
  intros ((((((((Hall & Hid) & Hvis) & Hc) & Hu) & Htags) & Htools) & Hflows) & Hd).
  intros Haccepted Hstamp Hbody. apply all_present in Hall.
  apply field_is_Some in Hid as (? & Hid & ->%eq_str_true).
  apply field_is_Some in Hvis as (? & Hvis & ->%eq_str_true).
  apply field_is_Some in Hc as (? & Hc & ->%eq_str_true).
  apply field_is_Some in Hu as (? & Hu & ->%eq_str_true).
  apply field_is_Some in Htags as (tags & Htags & Htags').
  apply field_is_Some in Htools as (tools & Htools & Htools').
  apply field_is_Some in Hflows as (flows & Hflows & Hflows').
  apply field_is_Some in Hd as (d & Hd & Hsized).
  destruct (strings_do_not_raise skill_name fm body _ _ _ _ _ Hall Hid Hvis Hc Hu
              Hd Hsized) as [passed Hpassed].
  pose proof (validate_frontmatter_checked skill_name fm body Hall) as Hchecked.
  destruct (validate_frontmatter skill_name fm body)
    as [f|n warnings|errors|n warnings fields|e]; try done.
  - exfalso. destruct Hchecked as [Hne Hchecked]. apply Hne.
    destruct Hchecked as (id & valid_id & visibility & outside & created_at &
      created_ok & updated_at & updated_ok & tags' & tools' & flows' &
      Hid' & Hvalid & Hvis' & Houtside & Hc' & Hcreated & Hu' & Hupdated &
      Htags'' & Htools'' & Hflows'' & ->).
    rewrite Hid in Hid'. rewrite Hvis in Hvis'. rewrite Hc in Hc'. rewrite Hu in Hu'.
    rewrite Htags in Htags''. rewrite Htools in Htools''. rewrite Hflows in Hflows''.
    injection Hid' as <-. injection Hvis' as <-. injection Hc' as <-.
    injection Hu' as <-. injection Htags'' as <-. injection Htools'' as <-.
    injection Hflows'' as <-.
    rewrite is_valid_skill_id_str, Haccepted in Hvalid. injection Hvalid as <-.
    rewrite Hstamp in Hcreated, Hupdated.
    injection Hcreated as <-. injection Hupdated as <-.
    injection Houtside as <-.
    unfold schema_errors. rewrite Htags', Htools', Hflows'.
    cbn [eq_str]. unfold str_eqb. rewrite bool_decide_eq_true_2 by done.
    destruct body; done.
  - destruct Hchecked as [-> _]. eauto.
Qed.

End RoundTrip.

Section GeneratedPackage.
Context {py : Python}.

(** On an identifier the title is what it is on ASCII text. *)
Lemma title_case_ascii skill_name :
  forallb allowed_char skill_name = true ->
  title_case_skill_name skill_name = @title_case_skill_name ascii_only skill_name.
Proof.
  intros Hname. unfold title_case_skill_name. f_equal. apply map_ext_in.
  intros item Hitem. apply capitalize_ascii, forallb_forall. intros c Hc.
  apply allowed_char_ascii. rewrite forallb_forall in Hname.
  apply Hname, list_elem_of_In. eapply split_max_chars.
  - apply list_elem_of_In, Hitem.
  - by apply list_elem_of_In.
Qed.

(** Under a directory whose name the id grammar refuses no frontmatter
    passes: the id differs from the name or is refused with it. *)
Lemma refused_name_fails skill_name fm body :
  accepted_id skill_name = false ->
  exit_status (validate_frontmatter skill_name fm body) = 1.
Proof.
  intros Hrefused.
  destruct (List.filter (fun field => negb (dict_has fm field)) REQUIRED_FIELDS)
    as [|field missing] eqn:Hmissing.
  - pose proof (validate_frontmatter_checked skill_name fm body Hmissing) as Hchecked.
    destruct (validate_frontmatter skill_name fm body)
      as [f|n warnings|errors|n warnings fields|e]; try done.
    exfalso. destruct Hchecked as [_ Hchecked].
    destruct Hchecked as (id & valid_id & visibility & outside & created_at &
      created_ok & updated_at & updated_ok & tags & tools & flows &
      _ & Hvalid & _ & _ & _ & _ & _ & _ & _ & _ & _ & Herrors).
    unfold schema_errors in Herrors.
    destruct (eq_str id skill_name) eqn:Hname; [|done].
    apply eq_str_true in Hname. subst id.
    rewrite is_valid_skill_id_str, Hrefused in Hvalid. injection Hvalid as <-.
    done.
  - unfold validate_frontmatter. by rewrite missing_fields, Hmissing.
Qed.

End GeneratedPackage.

(** * More of the generator *)

(** A run is its result and the world it leaves. *)
Lemma run_pair {A B} (p : A * B) (a : A) : fst p = a -> p = (a, snd p).
Proof. destruct p. simpl. by intros ->. Qed.

(** ** What init_skill leaves alone *)

Lemma untouched_run {A} q (c : io A) w r w' :
  untouched q c -> c w = (r, w') -> lookup_node (files w') q = lookup_node (files w) q.
Proof. intros Hc Hrun. specialize (Hc w). by rewrite Hrun in Hc. Qed.

Lemma untouched_ret {A} q (a : A) : untouched q (ret a).
Proof. by intros w. Qed.

Lemma untouched_raise {A} q e : untouched q (@raise A e).
Proof. by intros w. Qed.

Lemma untouched_print q l : untouched q (print l).
Proof. by intros w. Qed.

Lemma untouched_path_exists q p : untouched q (path_exists p).
Proof. by intros w. Qed.

Lemma untouched_bind {A B} q (c : io A) (k : A -> io B) :
  untouched q c -> (forall a, untouched q (k a)) -> untouched q (bind c k).
Proof.
  intros Hc Hk w. unfold bind. specialize (Hc w).
  destruct (c w) as [[a|e] w1]; simpl in *; [|done].
  by rewrite (Hk a w1).
Qed.

Lemma untouched_try_except {A} q (body : io A) handler :
  untouched q body -> (forall e, untouched q (handler e)) ->
  untouched q (try_except body handler).
Proof.
  intros Hbody Hhandler w. unfold try_except. specialize (Hbody w).
  destruct (body w) as [[a|[e|code]] w1]; simpl in *; try done.
  by rewrite (Hhandler e w1).
Qed.

Lemma lookup_node_insert_ne (fs : filesystem) p q n :
  p <> q -> lookup_node (<[p := n]> fs) q = lookup_node fs q.
Proof.
  intros Hne. unfold lookup_node. destruct q; [done|]. by rewrite lookup_insert_ne.
Qed.

Lemma untouched_os_mkdir q p : p <> q -> untouched q (os_mkdir p).
Proof.
  intros Hne w. unfold os_mkdir. destruct (path_exists_in (files w) p); [done|].
  destruct (lookup_node (files w) (parent p)) as [[]|]; simpl; try done.
  by apply lookup_node_insert_ne.
Qed.

Lemma parent_prefix (p : path) : parent p `prefix_of` p.
Proof.
  unfold parent. destruct (decide (p = [])) as [->|Hne]; [done|].
  exists [List.last p []]. by apply app_removelast_last.
Qed.

(** mkdir makes the path and, with [parents], the missing ones above it,
    and nothing else. *)
Lemma untouched_mkdir q depth parents exist_ok p :
  ~ q `prefix_of` p -> untouched q (mkdir depth parents exist_ok p).
Proof.
  revert parents exist_ok p.
  induction depth as [|depth IH]; intros parents exist_ok p Hq w;
    assert (p <> q) as Hne by (by intros ->);
    cbn [mkdir]; pose proof (untouched_os_mkdir q p Hne w) as Hos;
    destruct (os_mkdir p w) as [[[]|[[]|code]] w1]; simpl in *;
    try done; try (by case_match).
  case_match; [done|].
  apply (untouched_bind q); [|intros _; by apply IH].
  apply IH. intros Hprefix. apply Hq. etrans; [exact Hprefix|apply parent_prefix].
Qed.

Lemma untouched_write_text q p content : p <> q -> untouched q (write_text p content).
Proof.
  intros Hne w. unfold write_text.
  destruct (lookup_node (files w) p) as [[|c0 x]|]; simpl; [done| |].
  - by apply lookup_node_insert_ne.
  - destruct (lookup_node (files w) (parent p)) as [[]|]; simpl; try done.
    by apply lookup_node_insert_ne.
Qed.

Lemma untouched_chmod_755 q p : p <> q -> untouched q (chmod_755 p).
Proof.
  intros Hne w. unfold chmod_755.
  destruct (lookup_node (files w) p) as [[|c x]|]; simpl; try done.
  by apply lookup_node_insert_ne.
Qed.

Section Frame.
Context {py : Python}.

(** A resource and its example touch two paths. *)
Lemma untouched_create_resource_dirs q skill_dir skill_name skill_title resources ex :
  (forall r, r ∈ resources -> q <> skill_dir ++ [r]) ->
  (forall r f, r ∈ resources -> q <> (skill_dir ++ [r]) ++ [f]) ->
  untouched q (create_resource_dirs skill_dir skill_name skill_title resources ex).
Proof.
  induction resources as [|resource rest IH]; intros Hdir Hfile;
    cbn [create_resource_dirs].
  { apply untouched_ret. }
  assert (forall f, (skill_dir ++ [resource]) ++ [f] <> q) as Hne.
  { intros f Heq. eapply Hfile; [by left|done]. }
  apply untouched_bind; [|intros _].
  { intros w. unfold path_mkdir. cbn [mkdir length].
    assert (skill_dir ++ [resource] <> q) as Hne'.
    { intros Heq. eapply Hdir; [by left|done]. }
    pose proof (untouched_os_mkdir q _ Hne' w) as Hos.
    destruct (os_mkdir (skill_dir ++ [resource]) w) as [[[]|[[]|code]] w1];
      simpl in *; try done; by case_match. }
  apply untouched_bind; [|intros _; apply IH].
  - repeat case_match;
      repeat first [ apply untouched_bind; [|intros _]
                   | apply untouched_write_text, Hne
                   | apply untouched_chmod_755, Hne
                   | apply untouched_print | apply untouched_ret ].
  - intros r Hr. apply Hdir. by right.
  - intros r f Hr. apply Hfile. by right.
Qed.

Lemma steady_init_skill now skill_name path resources ex :
  steady (init_skill now skill_name path resources ex).
Proof.
  unfold init_skill. apply steady_bind; [by intros w q|intros existing].
  auto 30 with steady.
Qed.

Lemma untouched_init_skill q now skill_name path resources ex :
  ~ q `prefix_of` path ++ [skill_name] ->
  ~ path ++ [skill_name] `prefix_of` q ->
  untouched q (init_skill now skill_name path resources ex).
Proof.
  intros Habove Hbelow. unfold init_skill.
  assert (forall r, q <> (path ++ [skill_name]) ++ [r]) as Hchild.
  { intros r ->. apply Hbelow. by exists [r]. }
  assert (forall r f, q <> ((path ++ [skill_name]) ++ [r]) ++ [f]) as Hfile.
  { intros r f ->. apply Hbelow. exists [r; f]. by rewrite <- app_assoc. }
  apply untouched_bind; [apply untouched_path_exists|intros existing].
  destruct existing.
  { apply untouched_bind; [apply untouched_print|intros _; apply untouched_ret]. }
  apply untouched_bind; [|intros created].
  { apply untouched_try_except.
    - apply untouched_bind; [by apply untouched_mkdir|intros _].
      apply untouched_bind; [apply untouched_print|intros _; apply untouched_ret].
    - intros e.
      apply untouched_bind; [apply untouched_print|intros _; apply untouched_ret]. }
  destruct (negb created); [apply untouched_ret|].
  apply untouched_bind; [|intros written].
  { apply untouched_try_except.
    - apply untouched_bind; [apply untouched_write_text; by apply not_eq_sym|intros _].
      apply untouched_bind; [apply untouched_print|intros _; apply untouched_ret].
    - intros e.
      apply untouched_bind; [apply untouched_print|intros _; apply untouched_ret]. }
  destruct (negb written); [apply untouched_ret|].
  apply untouched_bind; [|intros made].
  { destruct resources as [|r rest]; [apply untouched_ret|].
    apply untouched_try_except.
    - apply untouched_bind; [|intros _; apply untouched_ret].
      by apply untouched_create_resource_dirs.
    - intros e.
      apply untouched_bind; [apply untouched_print|intros _; apply untouched_ret]. }
  destruct (negb made); [apply untouched_ret|].
  repeat (apply untouched_bind; [apply untouched_print|intros _]).
  apply untouched_ret.
Qed.

End Frame.

(** ** What init_skill does not change *)

Lemma stays_ret {A} q (a : A) : stays q (ret a).
Proof. by intros w n. Qed.

Lemma stays_print q l : stays q (print l).
Proof. by intros w n. Qed.

Lemma stays_bind {A B} q (c : io A) (k : A -> io B) :
  stays q c -> (forall a, stays q (k a)) -> stays q (bind c k).
Proof.
  intros Hc Hk w n Hq. unfold bind. specialize (Hc w n Hq).
  destruct (c w) as [[a|e] w1]; simpl in *; [|done].
  by apply Hk.
Qed.

Lemma stays_try_except {A} q (body : io A) handler :
  stays q body -> (forall e, stays q (handler e)) -> stays q (try_except body handler).
Proof.
  intros Hbody Hhandler w n Hq. unfold try_except. specialize (Hbody w n Hq).
  destruct (body w) as [[a|[e|code]] w1]; simpl in *; try done.
  by apply Hhandler.
Qed.

Lemma untouched_stays {A} q (c : io A) : untouched q c -> stays q c.
Proof. intros Hc w n Hq. by rewrite Hc. Qed.

(** os.mkdir makes a node only where none is. *)
Lemma stays_os_mkdir q p : stays q (os_mkdir p).
Proof.
  destruct (decide (p = q)) as [->|Hne]; [|by apply untouched_stays, untouched_os_mkdir].
  intros w n Hq. unfold os_mkdir, path_exists_in. by rewrite Hq.
Qed.

Lemma stays_mkdir q depth parents exist_ok p : stays q (mkdir depth parents exist_ok p).
Proof.
  revert parents exist_ok p.
  induction depth as [|depth IH]; intros parents exist_ok p w n Hq;
    cbn [mkdir]; pose proof (stays_os_mkdir q p w n Hq) as Hos;
    destruct (os_mkdir p w) as [[[]|[[]|code]] w1]; simpl in *;
    try done; try (by case_match).
  case_match; [done|].
  by apply (stays_bind q _ _ (IH _ _ _) (fun _ => IH _ _ _)).
Qed.

Section Preserved.
Context {py : Python}.

Lemma stays_create_resource_dirs q skill_dir skill_name skill_title resources ex :
  (forall r f, q <> (skill_dir ++ [r]) ++ [f]) ->
  stays q (create_resource_dirs skill_dir skill_name skill_title resources ex).
Proof.
  intros Hfile.
  assert (forall r f, (skill_dir ++ [r]) ++ [f] <> q) as Hne
    by (intros r f Heq; by eapply Hfile).
  induction resources as [|resource rest IH]; cbn [create_resource_dirs].
  { apply stays_ret. }
  apply stays_bind; [apply stays_mkdir|intros _].
  apply stays_bind; [|intros _; apply IH].
  repeat case_match;
    repeat first [ apply stays_bind; [|intros _]
                 | apply untouched_stays, untouched_write_text, Hne
                 | apply untouched_stays, untouched_chmod_755, Hne
                 | apply stays_print | apply stays_ret ].
Qed.

Lemma stays_init_skill q now skill_name path resources ex :
  ~ path ++ [skill_name] `prefix_of` q ->
  stays q (init_skill now skill_name path resources ex).
Proof.
  intros Hbelow. unfold init_skill.
  assert (forall r f, q <> ((path ++ [skill_name]) ++ [r]) ++ [f]) as Hfile.
  { intros r f ->. apply Hbelow. exists [r; f]. by rewrite <- app_assoc. }
  assert ((path ++ [skill_name]) ++ [u "SKILL.md"] <> q) as Hmd.
  { intros <-. apply Hbelow. by eexists. }
  apply stays_bind; [by intros w n|intros existing].
  destruct existing.
  { apply stays_bind; [apply stays_print|intros _; apply stays_ret]. }
  apply stays_bind; [|intros created].
  { apply stays_try_except.
    - apply stays_bind; [apply stays_mkdir|intros _].
      apply stays_bind; [apply stays_print|intros _; apply stays_ret].
    - intros e. apply stays_bind; [apply stays_print|intros _; apply stays_ret]. }
  destruct (negb created); [apply stays_ret|].
  apply stays_bind; [|intros written].
  { apply stays_try_except.
    - apply stays_bind; [by apply untouched_stays, untouched_write_text|intros _].
      apply stays_bind; [apply stays_print|intros _; apply stays_ret].
    - intros e. apply stays_bind; [apply stays_print|intros _; apply stays_ret]. }
  destruct (negb written); [apply stays_ret|].
  apply stays_bind; [|intros made].
  { destruct resources as [|r rest]; [apply stays_ret|].
    apply stays_try_except.
    - apply stays_bind; [|intros _; apply stays_ret].
      by apply stays_create_resource_dirs.
    - intros e. apply stays_bind; [apply stays_print|intros _; apply stays_ret]. }
  destruct (negb made); [apply stays_ret|].
  repeat (apply stays_bind; [apply stays_print|intros _]).
  apply stays_ret.
Qed.

(** Whatever its outcome, init_skill removes nothing: a path that exists
    still exists after the run, a directory is still a directory, and a
    node that is not below the target path is the node it was. *)
Theorem init_skill_preserves (now : datetime) (skill_name : str) (path : path)
    (resources : list str) (include_examples : bool) (w : world) (q : list (list N)) :
  let w' := snd (init_skill now skill_name path resources include_examples w) in
  (path_exists_in (files w) q = true -> path_exists_in (files w') q = true) /\
  (is_dir_in (files w) q = true -> is_dir_in (files w') q = true) /\
  (~ path ++ [skill_name] `prefix_of` q ->
   forall n, lookup_node (files w) q = Some n -> lookup_node (files w') q = Some n).
Proof.
  intros w'. split; [|split].
  - apply (steady_init_skill now skill_name path resources include_examples w q).
  - apply (steady_init_skill now skill_name path resources include_examples w q).
  - intros Hbelow n. by apply stays_init_skill.
Qed.

(** init_skill makes nodes at the target path, below it and, where they
    are missing, above it, and nowhere else. *)
Theorem init_skill_frame (now : datetime) (skill_name : str) (path : path)
    (resources : list str) (include_examples : bool) (w : world) (q : list (list N)) :
  ~ q `prefix_of` path ++ [skill_name] ->
  ~ path ++ [skill_name] `prefix_of` q ->
  lookup_node (files (snd (init_skill now skill_name path resources include_examples w))) q =
  lookup_node (files w) q.
Proof. intros Habove Hbelow. by apply untouched_init_skill. Qed.

End Preserved.

Lemma init_skill_frame_witness :
  lookup_node
    (files (snd (@init_skill ascii_only noon (u "my-skill") [] [u "scripts"] true
                   (World bare_package []))))
    [u "bare"; u "SKILL.md"] = Some (File bare_document false).
Proof.
  rewrite (@init_skill_frame ascii_only).
  - reflexivity.
  - intros [k Hk]. discriminate.
  - intros [k Hk]. discriminate.
Defined.

(** ** What a successful run leaves *)

Lemma bind_Ok {A B} (c : io A) (k : A -> io B) w b w' :
  bind c k w = (Ok b, w') -> exists a w1, c w = (Ok a, w1) /\ k a w1 = (Ok b, w').
Proof. unfold bind. destruct (c w) as [[a|e] w1]; [eauto|done]. Qed.

Lemma parent_app (p : path) (n : str) : parent (p ++ [n]) = p.
Proof. apply removelast_last. Qed.

Lemma os_mkdir_parent p w w' :
  os_mkdir p w = (Ok tt, w') -> is_dir_in (files w') (parent p) = true.
Proof.
  unfold os_mkdir. destruct (path_exists_in (files w) p) eqn:Hp; [done|].
  destruct (lookup_node (files w) (parent p)) as [[]|] eqn:Hparent; try done.
  intros [= <-]. cbn [files]. unfold is_dir_in.
  rewrite lookup_node_insert_ne; [by rewrite Hparent|].
  intros Heq. unfold path_exists_in in Hp. rewrite Heq, Hparent in Hp. done.
Qed.

(** A mkdir that accepts no existing directory leaves the parent a
    directory. *)
Lemma mkdir_parent_made depth parents p w w' :
  mkdir depth parents false p w = (Ok tt, w') ->
  is_dir_in (files w') (parent p) = true.
Proof.
  revert parents w w'. induction depth as [|depth IH]; intros parents w w';
    cbn [mkdir]; destruct (os_mkdir p w) as [[[]|[[]|code]] w1] eqn:Hos;
    cbn [andb]; try done;
    try (intros [= <-]; by apply (os_mkdir_parent _ _ _ Hos)).
  case_match; [done|].
  intros (_ & w2 & _ & Hsecond)%bind_Ok. by apply IH in Hsecond.
Qed.

Lemma write_text_node p content w w' :
  write_text p content w = (Ok tt, w') ->
  exists x, lookup_node (files w') p = Some (File content x).
Proof.
  unfold write_text.
  assert (forall fs n, p <> [] -> lookup_node (<[p := n]> fs) p = Some n) as Hins.
  { intros fs n Hp. unfold lookup_node. destruct p; [done|]. by rewrite lookup_insert_eq. }
  destruct (lookup_node (files w) p) as [[|c0 x]|] eqn:Hp; [done| |].
  - intros [= <-]. exists x. apply Hins. by intros ->.
  - destruct (lookup_node (files w) (parent p)) as [[]|]; try done.
    intros [= <-]. exists false. apply Hins. by intros ->.
Qed.

Lemma chmod_755_node p content x w w' :
  lookup_node (files w) p = Some (File content x) ->
  chmod_755 p w = (Ok tt, w') ->
  lookup_node (files w') p = Some (File content true).
Proof.
  unfold chmod_755. intros Hp. rewrite Hp. intros [= <-]. cbn [files].
  unfold lookup_node in *. destruct p; [done|]. by rewrite lookup_insert_eq.
Qed.

Section Resources.
Context {py : Python}.

(** The step of create_resource_dirs for one resource. *)
Lemma create_resource_dirs_cons skill_dir skill_name skill_title resource rest ex w w' :
  create_resource_dirs skill_dir skill_name skill_title (resource :: rest) ex w =
    (Ok tt, w') ->
  exists w1,
    is_dir_in (files w1) (skill_dir ++ [resource]) = true /\
    (ex = true ->
     forall f content,
       example_file skill_name skill_title resource = Some (f, content) ->
       exists x, lookup_node (files w1) ((skill_dir ++ [resource]) ++ [f]) =
                   Some (File content x) /\
                 (resource = u "scripts" -> x = true)) /\
    create_resource_dirs skill_dir skill_name skill_title rest ex w1 = (Ok tt, w').
Proof.
  cbn [create_resource_dirs].
  intros ([] & w1 & Hmk & ([] & w2 & Hstep & Hrest)%bind_Ok)%bind_Ok.
  exists w2. split; [|split; [|done]].
  - apply mkdir_made in Hmk. revert Hstep.
    match goal with |- ?c w1 = _ -> _ =>
      assert (steady c) as Hsteady by auto 20 with steady end.
    intros Hstep. by apply (steady_run _ _ _ _ Hsteady Hstep).
  - intros -> f content. unfold example_file. revert Hstep.
    repeat case_bool_decide; try done; intros Hstep [= <- <-].
    + apply bind_Ok in Hstep as ([] & w3 & Hwrite & Hstep).
      apply bind_Ok in Hstep as ([] & w4 & Hmod & [= <-]).
      apply write_text_node in Hwrite as [x Hx].
      exists true. split; [|done]. cbn [files].
      by apply (chmod_755_node _ _ _ _ _ Hx Hmod).
    + apply bind_Ok in Hstep as ([] & w3 & Hwrite & [= <-]).
      apply write_text_node in Hwrite as [x Hx]. exists x. by split.
    + apply bind_Ok in Hstep as ([] & w3 & Hwrite & [= <-]).
      apply write_text_node in Hwrite as [x Hx]. exists x. by split.
Qed.

(** After the loop every resource is a directory, and with examples each
    resource that has one holds its example. *)
Lemma create_resource_dirs_made skill_dir skill_name skill_title resources ex w w' :
  create_resource_dirs skill_dir skill_name skill_title resources ex w = (Ok tt, w') ->
  forall resource, resource ∈ resources ->
    is_dir_in (files w') (skill_dir ++ [resource]) = true /\
    (ex = true ->
     forall f content,
       example_file skill_name skill_title resource = Some (f, content) ->
       exists x, lookup_node (files w') ((skill_dir ++ [resource]) ++ [f]) =
                   Some (File content x) /\
                 (resource = u "scripts" -> x = true)).
Proof.
  revert w. induction resources as [|r rest IH]; intros w Hrun resource Hin.
  { by apply elem_of_nil in Hin. }
  apply create_resource_dirs_cons in Hrun as (w1 & Hdir & Hexample & Hrest).
  destruct (decide (resource ∈ rest)) as [Hlater|Hlast]; [by apply (IH w1)|].
  apply elem_of_cons in Hin as [->|Hin]; [|done]. split.
  - by apply (steady_run _ _ _ _
               (steady_create_resource_dirs skill_dir skill_name skill_title rest ex)
               Hrest).
  - intros Hex f content Hfile.
    destruct (Hexample Hex f content Hfile) as (x & Hx & Hscripts).
    exists x. split; [|done]. rewrite <- Hx.
    refine (untouched_run _ _ _ _ _
              (untouched_create_resource_dirs _ skill_dir skill_name skill_title
                 rest ex _ _) Hrest).
    + intros r0 _ Heq. apply (f_equal length) in Heq.
      rewrite !length_app in Heq. simpl in Heq. lia.
    + intros r0 f0 Hr0 Heq. apply app_inj_tail in Heq as [Heq _].
      apply app_inj_tail in Heq as [_ ->]. done.
Qed.

End Resources.

Section SuccessfulRun.
Context {py : Python}.

(** A run of init_skill that returns a path returns the target path, which
    was not there; after it the parent and the target are directories and
    SKILL.md in the target holds the template with the name, its title and
    the reading of the clock filled in. *)
Theorem init_skill_success_state (now : datetime) (skill_name : str) (path : path)
    (resources : list str) (include_examples : bool) (w w' : world)
    (skill_dir : list (list N)) :
  init_skill now skill_name path resources include_examples w =
    (Ok (Some skill_dir), w') ->
  skill_dir = path ++ [skill_name] /\
  path_exists_in (files w) skill_dir = false /\
  is_dir_in (files w') path = true /\
  is_dir_in (files w') skill_dir = true /\
  read_text (files w') (skill_dir ++ [u "SKILL.md"]) =
    inr (SKILL_TEMPLATE skill_name (title_case_skill_name skill_name)
           (strftime_utc now)).
Proof.
  intros Hrun. pose proof (init_skill_produces _ _ _ _ _ _ _ _ Hrun) as (_ & Hdir & Hread).
  apply init_skill_success in Hrun
    as (-> & Hnew & w1 & w2 & w3 & Hmk & Hwrite & Hres & Hfiles).
  repeat split; try done.
  apply mkdir_parent_made in Hmk. rewrite parent_app in Hmk.
  apply (steady_run _ _ _ _ (steady_write_text _ _) Hwrite) in Hmk.
  rewrite Hfiles. destruct resources as [|r rest]; [by subst w3|].
  by apply (steady_run _ _ _ _ (steady_create_resource_dirs _ _ _ _ _) Hres).
Qed.

(** After a run of init_skill that returns a path every resource asked for
    is a directory in it.  With examples, scripts holds example.py with the
    text of EXAMPLE_SCRIPT, executable, references holds guide.md with that
    of EXAMPLE_REFERENCE and assets holds example.txt with EXAMPLE_ASSET. *)
Theorem init_skill_resources (now : datetime) (skill_name : str) (path : path)
    (resources : list str) (include_examples : bool) (w w' : world)
    (skill_dir : list (list N)) :
  init_skill now skill_name path resources include_examples w =
    (Ok (Some skill_dir), w') ->
  forall resource, resource ∈ resources ->
    is_dir_in (files w') (skill_dir ++ [resource]) = true /\
    (include_examples = true ->
     forall f content,
       example_file skill_name (title_case_skill_name skill_name) resource =
         Some (f, content) ->
       exists x, lookup_node (files w') ((skill_dir ++ [resource]) ++ [f]) =
                   Some (File content x) /\
                 (resource = u "scripts" -> x = true)).
Proof.
  intros Hrun resource Hin.
  apply init_skill_success in Hrun
    as (-> & Hnew & w1 & w2 & w3 & Hmk & Hwrite & Hres & Hfiles).
  rewrite Hfiles. destruct resources as [|r rest]; [by apply elem_of_nil in Hin|].
  by apply (create_resource_dirs_made _ _ _ _ _ _ _ Hres).
Qed.

(** When the parent is a file, init_skill prints the error of mkdir,
    returns None and leaves the filesystem as it is. *)
Theorem init_skill_parent_is_file (now : datetime) (skill_name : str) (path : path)
    (resources : list str) (include_examples : bool) (w : world)
    (content : str) (x : bool) :
  lookup_node (files w) path = Some (File content x) ->
  path_exists_in (files w) (path ++ [skill_name]) = false ->
  init_skill now skill_name path resources include_examples w =
  (Ok None,
   World (files w) (console w ++ [ErrCreatingDirectory NotADirectoryError])).
Proof.
  intros Hparent Hnew. unfold init_skill, path_exists. unfold bind at 1.
  rewrite Hnew. unfold bind at 1. unfold try_except at 1. unfold bind at 1.
  unfold path_mkdir. cbn [mkdir]. unfold os_mkdir.
  rewrite Hnew, parent_app, Hparent. reflexivity.
Qed.

End SuccessfulRun.

Lemma init_skill_success_state_witness :
  let run := @init_skill ascii_only noon (u "my-skill") [u "skills"; u "mine"]
               [] false (World ∅ []) in
  fst run = Ok (Some [u "skills"; u "mine"; u "my-skill"]) /\
  is_dir_in (files (snd run)) [u "skills"; u "mine"] = true /\
  read_text (files (snd run)) [u "skills"; u "mine"; u "my-skill"; u "SKILL.md"] =
    inr (SKILL_TEMPLATE (u "my-skill") (u "My Skill") (u "2024-01-15T12:00:00Z")).
Proof.
  intros run. split; [vm_compute; reflexivity|].
  destruct (@init_skill_success_state ascii_only noon (u "my-skill")
              [u "skills"; u "mine"] [] false (World ∅ []) (snd run)
              [u "skills"; u "mine"; u "my-skill"])
    as (_ & _ & Hparent & _ & Hread).
  - apply (run_pair run). vm_compute. reflexivity.
  - split; [exact Hparent|exact Hread].
Defined.

Lemma init_skill_resources_witness :
  let run := @init_skill ascii_only noon (u "my-skill") [u "skills"]
               [u "scripts"; u "assets"] true (World ∅ []) in
  fst run = Ok (Some [u "skills"; u "my-skill"]) /\
  is_dir_in (files (snd run)) [u "skills"; u "my-skill"; u "scripts"] = true /\
  exists x,
    lookup_node (files (snd run))
      [u "skills"; u "my-skill"; u "scripts"; u "example.py"] =
    Some (File (EXAMPLE_SCRIPT (u "my-skill")) x) /\
    (u "scripts" = u "scripts" -> x = true).
Proof.
  intros run. split; [vm_compute; reflexivity|].
  destruct (@init_skill_resources ascii_only noon (u "my-skill") [u "skills"]
              [u "scripts"; u "assets"] true (World ∅ []) (snd run)
              [u "skills"; u "my-skill"]) with (resource := u "scripts")
    as [Hdir Hexample].
  - apply (run_pair run). vm_compute. reflexivity.
  - by left.
  - split; [exact Hdir|].
    apply (Hexample eq_refl (u "example.py") (EXAMPLE_SCRIPT (u "my-skill"))).
    reflexivity.
Defined.

Lemma init_skill_parent_is_file_witness :
  @init_skill ascii_only noon (u "my-skill") [u "bare"; u "SKILL.md"] [] false
    (World bare_package []) =
  (Ok None, World bare_package [ErrCreatingDirectory NotADirectoryError]).
Proof.
  apply (@init_skill_parent_is_file ascii_only noon (u "my-skill")
           [u "bare"; u "SKILL.md"] [] false (World bare_package [])
           bare_document false); reflexivity.
Defined.

(** ** What init_skill and main raise *)

Lemma returns_no_exit {A} (c : io A) : returns c -> no_exit c.
Proof. intros Hc w code. destruct (Hc w) as [a ->]. done. Qed.

Lemma returns_ret {A} (a : A) : returns (ret a).
Proof. intros w. by exists a. Qed.

Lemma returns_print l : returns (print l).
Proof. intros w. by exists tt. Qed.

Lemma returns_bind {A B} (c : io A) (k : A -> io B) :
  returns c -> (forall a, returns (k a)) -> returns (bind c k).
Proof.
  intros Hc Hk w. unfold bind. destruct (Hc w) as [a Ha].
  destruct (c w) as [[a'|e] w1]; simpl in *; [|done]. apply Hk.
Qed.

Lemma no_exit_bind {A B} (c : io A) (k : A -> io B) :
  no_exit c -> (forall a, no_exit (k a)) -> no_exit (bind c k).
Proof.
  intros Hc Hk w code. unfold bind. specialize (Hc w code).
  destruct (c w) as [[a|e] w1]; simpl in *; [apply Hk|].
  intros [= ->]. by apply Hc.
Qed.

(** A try whose body does not exit and whose handler returns returns. *)
Lemma returns_try_except {A} (body : io A) handler :
  no_exit body -> (forall e, returns (handler e)) -> returns (try_except body handler).
Proof.
  intros Hbody Hhandler w. unfold try_except. specialize (Hbody w).
  destruct (body w) as [[a|[e|code]] w1]; simpl in *.
  - by exists a.
  - apply Hhandler.
  - by destruct (Hbody code).
Qed.

Lemma no_exit_os_mkdir p : no_exit (os_mkdir p).
Proof.
  intros w code. unfold os_mkdir. destruct (path_exists_in (files w) p); [done|].
  by destruct (lookup_node (files w) (parent p)) as [[]|].
Qed.

Lemma no_exit_mkdir depth parents exist_ok p : no_exit (mkdir depth parents exist_ok p).
Proof.
  revert parents exist_ok p.
  induction depth as [|depth IH]; intros parents exist_ok p w code;
    cbn [mkdir]; pose proof (no_exit_os_mkdir p w) as Hos;
    destruct (os_mkdir p w) as [[[]|[[]|code']] w1]; simpl in *;
    try done; try (by case_match); try (by destruct (Hos code')).
  case_match; [done|].
  by apply (no_exit_bind _ _ (IH _ _ _) (fun _ => IH _ _ _)).
Qed.

Lemma no_exit_write_text p content : no_exit (write_text p content).
Proof.
  intros w code. unfold write_text.
  destruct (lookup_node (files w) p) as [[|c0 x]|]; try done.
  by destruct (lookup_node (files w) (parent p)) as [[]|].
Qed.

Lemma no_exit_chmod_755 p : no_exit (chmod_755 p).
Proof.
  intros w code. unfold chmod_755.
  by destruct (lookup_node (files w) p) as [[|c x]|].
Qed.

Section Raised.
Context {py : Python}.

Lemma no_exit_create_resource_dirs skill_dir skill_name skill_title resources ex :
  no_exit (create_resource_dirs skill_dir skill_name skill_title resources ex).
Proof.
  induction resources as [|resource rest IH]; cbn [create_resource_dirs].
  { apply returns_no_exit, returns_ret. }
  apply no_exit_bind; [apply no_exit_mkdir|intros _].
  apply no_exit_bind; [|intros _; apply IH].
  repeat case_match;
    repeat first [ apply no_exit_bind; [|intros _]
                 | apply no_exit_write_text | apply no_exit_chmod_755
                 | apply returns_no_exit, returns_print
                 | apply returns_no_exit, returns_ret ].
Qed.

Lemma returns_init_skill now skill_name path resources ex :
  returns (init_skill now skill_name path resources ex).
Proof.
  assert (forall l, returns (print l ;;; ret false)) as Hhandler.
  { intros l. apply returns_bind; [apply returns_print|intros _; apply returns_ret]. }
  unfold init_skill.
  apply returns_bind; [by intros w; eexists|intros existing].
  destruct existing.
  { apply returns_bind; [apply returns_print|intros _; apply returns_ret]. }
  apply returns_bind; [|intros created].
  { apply returns_try_except; [|intros e; apply Hhandler].
    apply no_exit_bind; [apply no_exit_mkdir|intros _].
    apply returns_no_exit, returns_bind; [apply returns_print|intros _; apply returns_ret]. }
  destruct (negb created); [apply returns_ret|].
  apply returns_bind; [|intros written].
  { apply returns_try_except; [|intros e; apply Hhandler].
    apply no_exit_bind; [apply no_exit_write_text|intros _].
    apply returns_no_exit, returns_bind; [apply returns_print|intros _; apply returns_ret]. }
  destruct (negb written); [apply returns_ret|].
  apply returns_bind; [|intros made].
  { destruct resources as [|r rest]; [apply returns_ret|].
    apply returns_try_except; [|intros e; apply Hhandler].
    apply no_exit_bind; [apply no_exit_create_resource_dirs|intros _].
    apply returns_no_exit, returns_ret. }
  destruct (negb made); [apply returns_ret|].
  repeat (apply returns_bind; [apply returns_print|intros _]).
  apply returns_ret.
Qed.

End Raised.

Lemma bind_run_Ok {A B} (c : io A) (k : A -> io B) w a w1 :
  c w = (Ok a, w1) -> bind c k w = k a w1.
Proof. unfold bind. by intros ->. Qed.

Lemma bind_run_Raised {A B} (c : io A) (k : A -> io B) w e w1 :
  c w = (Raised e, w1) -> bind c k w = (Raised e, w1).
Proof. unfold bind. by intros ->. Qed.

Section Main.
Context {py : Python}.

(** parse_resources returns resources among the three allowed, or prints
    and exits with status 1; it leaves the filesystem as it is. *)
Lemma parse_resources_outcome raw w :
  (exists resources,
     parse_resources raw w = (Ok resources, w) /\
     Forall (fun r => r ∈ ALLOWED_RESOURCES) resources /\
     (tokens raw = [] -> resources = [])) \/
  (exists out,
     parse_resources raw w = (Raised (SystemExit 1), World (files w) out) /\
     tokens raw <> []).
Proof.
  unfold parse_resources. destruct raw as [|c raw]; [left; by exists []|].
  rewrite parse_resources_tokens.
  destruct (sorted (list_to_set (List.filter (fun item => negb (is_allowed item))
                                   (tokens (c :: raw))))) as [|bad invalid] eqn:Hinvalid.
  - left. eexists. split; [done|]. split.
    + apply Forall_forall. intros r Hr.
      apply dedupe_subset in Hr as [Hr|Hr]; [by apply elem_of_nil in Hr|].
      destruct (decide (r ∈ ALLOWED_RESOURCES)) as [|Hbad]; [done|]. exfalso.
      assert (r ∈ @nil str) as Hnil; [|by apply elem_of_nil in Hnil].
      rewrite <- Hinvalid. apply sorted_elem_of, elem_of_list_to_set.
      apply list_elem_of_In, filter_In. split; [by apply list_elem_of_In|].
      unfold is_allowed. by rewrite bool_decide_eq_false_2.
    + by intros ->.
  - right. eexists. split; [done|]. intros Hnone.
    assert (bad ∈ sorted (list_to_set (List.filter (fun item => negb (is_allowed item))
                                         (tokens (c :: raw))))) as Hbad
      by (rewrite Hinvalid; by left).
    apply sorted_elem_of, elem_of_list_to_set, list_elem_of_In, filter_In in Hbad.
    rewrite Hnone in Hbad. by destruct Hbad.
Qed.

(** main ends before init_skill with status 1 and the filesystem as it
    was, or runs init_skill on the normalized name, a Skill Identifier, and
    the parsed resources, and ends with status 0 when init_skill returned a
    path and 1 when it did not. *)
Lemma main_cases now raw path raw_resources examples w :
  (exists out,
     main now raw path raw_resources examples w =
     (Raised (SystemExit 1), World (files w) out)) \/
  (is_skill_identifier (normalize_skill_name raw) = true /\
   exists resources w0,
     files w0 = files w /\
     Forall (fun r => r ∈ ALLOWED_RESOURCES) resources /\
     (examples = true -> resources <> []) /\
     main now raw path raw_resources examples w =
     (Raised (SystemExit
                match fst (init_skill now (normalize_skill_name raw) path resources
                             examples w0) with
                | Ok (Some _) => 0
                | _ => 1
                end),
      snd (init_skill now (normalize_skill_name raw) path resources examples w0))).
Proof.
  pose proof (normalize_hyphen_case raw) as Hcase. unfold main.
  destruct (normalize_skill_name raw) as [|c r] eqn:Hname; [left; by eexists|].
  destruct (MAX_SKILL_NAME_LENGTH <? length (c :: r))%nat eqn:Hlen; [left; by eexists|].
  assert (exists out,
            (if bool_decide (c :: r ≠ raw)
             then print (NoteNormalized raw (c :: r)) else ret tt) w =
            (Ok tt, World (files w) out)) as [out Hnoted].
  { case_bool_decide; [by eexists|]. exists (console w). by destruct w. }
  rewrite (bind_run_Ok _ _ _ _ _ Hnoted).
  destruct (parse_resources_outcome raw_resources (World (files w) out))
    as [(resources & Hparse & Hallowed & _)|(out' & Hparse & _)].
  2: { rewrite (bind_run_Raised _ _ _ _ _ Hparse). left. by eexists. }
  rewrite (bind_run_Ok _ _ _ _ _ Hparse).
  destruct (examples && bool_decide (resources = [])) eqn:Hex; [left; by eexists|].
  right. split.
  { unfold is_skill_identifier. rewrite Hcase. cbn [negb andb].
    apply Nat.ltb_ge in Hlen. by apply Nat.leb_le. }
  exists resources.
  rewrite (bind_run_Ok _ _ _ _ _ eq_refl : (print (Initializing (c :: r)) ;;; _) _ = _).
  rewrite (bind_run_Ok _ _ _ _ _ eq_refl : (print (Location path) ;;; _) _ = _).
  cbn [files console].
  assert (exists out1,
            match resources with
            | [] => print ResourcesNone
            | _ :: _ =>
                print (ResourcesLine (join (u ", ") resources)) ;;;
                (if examples then print ExamplesEnabled else ret tt)
            end (World (files w) ((out ++ [Initializing (c :: r)]) ++ [Location path])) =
            (Ok tt, World (files w) out1)) as [out1 Hprinted].
  { destruct resources as [|r0 rest]; [by eexists|].
    destruct examples; by eexists. }
  rewrite (bind_run_Ok _ _ _ _ _ Hprinted).
  rewrite (bind_run_Ok _ _ _ _ _ eq_refl : (print BlankLine ;;; _) _ = _).
  cbn [files console].
  exists (World (files w) (out1 ++ [BlankLine])).
  split; [done|]. split; [done|]. split.
  { intros ->. cbn [andb] in Hex. by apply bool_decide_eq_false in Hex. }
  unfold bind.
  destruct (returns_init_skill now (c :: r) path resources examples
              (World (files w) (out1 ++ [BlankLine]))) as [result Hresult].
  destruct (init_skill now (c :: r) path resources examples _) as [[[d|]|e] w1] eqn:Hrun;
    done.
Qed.

(** An existing path exists after main, a directory is a directory after
    it, and a node that is not below the directory of the normalized name
    is the node it was; main makes no node except at that directory, below
    it and above it. *)
Theorem main_preserves (now : datetime) (raw_skill_name : str) (path : path)
    (raw_resources : str) (examples : bool) (w : world) (q : list (list N)) :
  let w' := snd (main now raw_skill_name path raw_resources examples w) in
  let skill_dir := path ++ [normalize_skill_name raw_skill_name] in
  (path_exists_in (files w) q = true -> path_exists_in (files w') q = true) /\
  (is_dir_in (files w) q = true -> is_dir_in (files w') q = true) /\
  (~ skill_dir `prefix_of` q ->
   forall n, lookup_node (files w) q = Some n -> lookup_node (files w') q = Some n) /\
  (~ skill_dir `prefix_of` q -> ~ q `prefix_of` skill_dir ->
   lookup_node (files w') q = lookup_node (files w) q).
Proof.
  intros w' skill_dir. subst w' skill_dir.
  destruct (main_cases now raw_skill_name path raw_resources examples w)
    as [[out ->]|(_ & resources & w0 & Hfiles & _ & _ & ->)]; [done|].
  cbn [snd]. rewrite <- Hfiles.
  pose proof (steady_init_skill now (normalize_skill_name raw_skill_name) path
                resources examples w0 q) as [Hexists Hdir].
  split; [done|]. split; [done|]. split.
  - intros Hbelow n. by apply stays_init_skill.
  - intros Hbelow Habove. by apply untouched_init_skill.
Qed.

(** With --examples and no resource main prints that examples need
    resources and exits with status 1 before it touches the filesystem. *)
Theorem main_examples_need_resources (now : datetime) (raw_skill_name : str)
    (path : path) (raw_resources : str) (w : world) :
  normalize_skill_name raw_skill_name <> [] ->
  length (normalize_skill_name raw_skill_name) <= MAX_SKILL_NAME_LENGTH ->
  tokens raw_resources = [] ->
  exists out,
    main now raw_skill_name path raw_resources true w =
    (Raised (SystemExit 1), World (files w) (out ++ [ErrExamplesNeedResources])).
Proof.
  intros Hname Hlen Hnone. unfold main.
  destruct (normalize_skill_name raw_skill_name) as [|c r]; [done|].
  apply Nat.ltb_ge in Hlen. rewrite Hlen.
  assert (exists out,
            (if bool_decide (c :: r ≠ raw_skill_name)
             then print (NoteNormalized raw_skill_name (c :: r)) else ret tt) w =
            (Ok tt, World (files w) out)) as [out Hnoted].
  { case_bool_decide; [by eexists|]. exists (console w). by destruct w. }
  rewrite (bind_run_Ok _ _ _ _ _ Hnoted).
  destruct (parse_resources_outcome raw_resources (World (files w) out))
    as [(resources & Hparse & _ & Hempty)|(out' & _ & Hsome)]; [|done].
  rewrite (bind_run_Ok _ _ _ _ _ Hparse), (Hempty Hnone). by exists out.
Qed.

End Main.

Lemma main_examples_need_resources_witness :
  exists out,
    @main ascii_only noon (u "My Skill") [u "skills"] (u " , ") true (World ∅ []) =
    (Raised (SystemExit 1), World ∅ (out ++ [ErrExamplesNeedResources])).
Proof.
  apply (@main_examples_need_resources ascii_only noon (u "My Skill")
           [u "skills"] (u " , ") (World ∅ [])).
  - done.
  - vm_compute. lia.
  - reflexivity.
Defined.

(** ** From main to the validator *)

Section MainValidated.
Context {py : Python}.

(** What validate_skill makes of the directory init_skill returned. *)
Lemma validate_generated now skill_name path resources ex w d w' :
  is_skill_identifier skill_name = true ->
  is_az (hd 0%N skill_name) = true ->
  valid_datetime now = true ->
  init_skill now skill_name path resources ex w = (Ok (Some d), w') ->
  d = path ++ [skill_name] /\
  validate_skill None (files w') d =
    BasicPassed skill_name
      (basic_warnings (strip (template_text (title_case_skill_name skill_name)))) /\
  forall safe_load frontmatter,
    safe_load (template_frontmatter skill_name (title_case_skill_name skill_name)
                 (strftime_utc now)) = Some (YDict frontmatter) ->
    reads_as_written frontmatter skill_name (strftime_utc now) = true ->
    exists warnings fields,
      validate_skill (Some safe_load) (files w') d = Valid skill_name warnings fields.
Proof.
  intros Hid Hletter Hnow Hrun.
  pose proof (accepted_skill_identifier _ Hid Hletter) as Haccepted.
  unfold is_skill_identifier, hyphen_case in Hid.
  rewrite !andb_true_iff, !negb_true_iff in Hid.
  destruct Hid as [[_ [[[Hchars _] _] Hcons]] _].
  apply init_skill_produces in Hrun as (-> & Hdir & Hread).
  pose proof (fun yaml => validate_template yaml _ _ _ _ _ Hdir Hread Hcons
    (hyphen_free_consecutive _ (title_hyphen_free _ Hchars))
    (strftime_utc_hyphens now)) as Hvalidate.
  rewrite name_app in Hvalidate. split; [done|]. split; [apply (Hvalidate None)|].
  intros safe_load frontmatter Hload Hwritten.
  rewrite (Hvalidate (Some safe_load)), Hload.
  apply (written_frontmatter_valid skill_name (strftime_utc now)); try done.
  - by apply validate_timestamp_strftime.
  - apply strip_template_text.
Qed.

(** When main ends with status 0 and the normalized name begins with a
    letter, validate_skill passes on the directory of the normalized name
    under the path given: the basic validation without yaml, and with yaml
    the full one for every parser that reads the frontmatter as written. *)
Theorem main_then_validate (now : datetime) (raw_skill_name : str) (path : path)
    (raw_resources : str) (examples : bool) (w w' : world) :
  valid_datetime now = true ->
  is_az (hd 0%N (normalize_skill_name raw_skill_name)) = true ->
  main now raw_skill_name path raw_resources examples w =
    (Raised (SystemExit 0), w') ->
  (exists warnings,
     validate_skill None (files w') (path ++ [normalize_skill_name raw_skill_name]) =
     BasicPassed (normalize_skill_name raw_skill_name) warnings) /\
  (forall (safe_load : yaml_module) (frontmatter : list (yaml * yaml)),
     safe_load (template_frontmatter (normalize_skill_name raw_skill_name)
                  (title_case_skill_name (normalize_skill_name raw_skill_name))
                  (strftime_utc now)) = Some (YDict frontmatter) ->
     reads_as_written frontmatter (normalize_skill_name raw_skill_name)
       (strftime_utc now) = true ->
     exists warnings fields,
       validate_skill (Some safe_load) (files w')
         (path ++ [normalize_skill_name raw_skill_name]) =
       Valid (normalize_skill_name raw_skill_name) warnings fields).
Proof.
  intros Hnow Hletter Hmain.
  destruct (main_cases now raw_skill_name path raw_resources examples w)
    as [[out Hfail]|(Hid & resources & w0 & _ & _ & _ & Hrun)]; [congruence|].
  rewrite Hrun in Hmain.
  destruct (init_skill now (normalize_skill_name raw_skill_name) path resources
              examples w0) as [[[d|]|e] w1] eqn:Hinit; try done.
  cbn [fst snd] in Hmain. injection Hmain as <-.
  destruct (validate_generated _ _ _ _ _ _ _ _ Hid Hletter Hnow Hinit)
    as (-> & Hbasic & Hfull).
  split; [by eexists|done].
Qed.

End MainValidated.

Lemma main_then_validate_witness :
  let run := @main ascii_only noon (u "My Cool Skill!!") [u "skills"]
               (u "scripts, assets") true (World ∅ []) in
  fst run = Raised (SystemExit 0) /\
  (exists warnings,
     @validate_skill ascii_only None (files (snd run)) [u "skills"; u "my-cool-skill"] =
     BasicPassed (u "my-cool-skill") warnings) /\
  exists warnings fields,
    @validate_skill ascii_only
      (Some (fun _ => Some (YDict (template_mapping (u "my-cool-skill")
                                     (u "My Cool Skill") (strftime_utc noon)))))
      (files (snd run)) [u "skills"; u "my-cool-skill"] =
    Valid (u "my-cool-skill") warnings fields.
Proof.
  intros run. split; [vm_compute; reflexivity|].
  destruct (@main_then_validate ascii_only noon (u "My Cool Skill!!") [u "skills"]
              (u "scripts, assets") true (World ∅ []) (snd run))
    as [Hbasic Hfull].
  - reflexivity.
  - reflexivity.
  - apply (run_pair run). vm_compute. reflexivity.
  - split; [exact Hbasic|].
    apply (Hfull _ (template_mapping (u "my-cool-skill") (u "My Cool Skill")
                      (strftime_utc noon))); reflexivity.
Defined.

(** * More of the normalizer *)

(** ** The letters and digits of a name *)

Lemma az09_lower c : is_az09 (ascii_lower c) = letter_or_digit c.
Proof.
  unfold is_az09, ascii_lower, letter_or_digit, is_az, is_AZ, is_09.
  destruct (65 <=? c)%N eqn:H1, (c <=? 90)%N eqn:H2; cbn [andb orb];
    repeat match goal with
           | H : (_ <=? _)%N = true |- _ => apply N.leb_le in H
           | H : (_ <=? _)%N = false |- _ => apply N.leb_gt in H
           end;
    repeat match goal with
           | |- context [(?a <=? ?b)%N] => destruct (N.leb_spec a b)
           end; cbn [andb orb]; try done; lia.
Qed.

Lemma filter_drop_while (q p : N -> bool) s :
  (forall c, p c = true -> q c = false) ->
  List.filter q (drop_while p s) = List.filter q s.
Proof.
  intros Hpq. induction s as [|c s IH]; [done|]. cbn [drop_while List.filter].
  destruct (p c) eqn:Hp; [|done]. by rewrite (Hpq c Hp).
Qed.

(** strip takes away only what it is told to. *)
Lemma filter_strip_with (q p : N -> bool) s :
  (forall c, p c = true -> q c = false) ->
  List.filter q (strip_with p s) = List.filter q s.
Proof.
  intros Hpq. unfold strip_with.
  rewrite filter_rev, filter_drop_while, filter_rev, rev_involutive by done.
  by apply filter_drop_while.
Qed.

Lemma filter_sub_non_alnum b s :
  List.filter is_az09 (sub_non_alnum_from b s) = List.filter is_az09 s.
Proof.
  revert b. induction s as [|c s IH]; intros b; [done|].
  cbn [sub_non_alnum_from List.filter].
  destruct (is_az09 c) eqn:Hc.
  - cbn [List.filter]. by rewrite Hc, IH.
  - destruct b; [apply IH|]. cbn [List.filter].
    change (is_az09 HYPHEN) with false. apply IH.
Qed.

Lemma hyphen_not_az09 c : is_hyphen c = true -> is_az09 c = false.
Proof.
  intros Hc. destruct (is_az09 c) eqn:Haz; [|done].
  apply az09_not_hyphen in Haz. congruence.
Qed.

Lemma filter_sub_hyphen_runs s :
  List.filter is_az09 (sub_hyphen_runs s) = List.filter is_az09 s.
Proof.
  induction s as [|c s IH]; [done|]. cbn [sub_hyphen_runs List.filter].
  destruct (is_hyphen c && startswith [HYPHEN] s) eqn:Hrun.
  - apply andb_true_iff in Hrun as [Hc _]. by rewrite (hyphen_not_az09 c Hc).
  - cbn [List.filter]. by rewrite IH.
Qed.

Section NormalizerLetters.
Context {py : Python}.

Lemma filter_normalize s :
  forallb is_ascii s = true ->
  List.filter is_az09 (normalize_skill_name s) =
  List.map ascii_lower (List.filter letter_or_digit s).
Proof.
  intros Hs. rewrite normalize_ascii by done.
  unfold normalize_skill_name.
  change (@lower ascii_only) with (fun s => List.map ascii_lower s).
  change (@strip ascii_only) with (strip_with ascii_isspace). cbv beta.
  rewrite filter_sub_hyphen_runs, filter_strip_with by apply hyphen_not_az09.
  unfold sub_non_alnum. rewrite filter_sub_non_alnum, filter_map_swap. f_equal.
  rewrite (filter_ext _ letter_or_digit) by apply az09_lower.
  apply filter_strip_with. intros c Hc.
  revert Hc. unfold ascii_isspace, letter_or_digit, is_az, is_AZ, is_09.
  rewrite orb_true_iff, !orb_false_iff, !andb_true_iff, !andb_false_iff,
    !N.leb_le, !N.leb_gt. lia.
Qed.

(** Of an ASCII name the normalizer keeps the letters and digits, in their
    order and in lower case; what it changes is what stands between
    them. *)
Theorem normalize_keeps_letters_and_digits (s : str) :
  forallb is_ascii s = true ->
  List.filter is_az09 (normalize_skill_name s) =
  List.map ascii_lower (List.filter letter_or_digit s).
Proof. apply filter_normalize. Qed.

(** The normalized name of an ASCII name is empty, which main reports as a
    name without letter or digit, exactly when the name has no letter and
    no digit. *)
Theorem normalize_empty_iff (s : str) :
  forallb is_ascii s = true ->
  normalize_skill_name s = [] <-> existsb letter_or_digit s = false.
Proof.
  intros Hs. pose proof (filter_normalize s Hs) as Hfilter.
  assert (existsb letter_or_digit s = false <-> List.filter letter_or_digit s = [])
    as ->.
  { induction s as [|c s IH]; [done|]. cbn [existsb List.filter forallb] in *.
    apply andb_true_iff in Hs as [_ Hs].
    destruct (letter_or_digit c); [done|]. cbn [orb]. apply IH; [done|].
    by apply filter_normalize. }
  split.
  - intros Hempty. rewrite Hempty in Hfilter. cbn [List.filter] in Hfilter.
    symmetry in Hfilter. by apply map_eq_nil in Hfilter.
  - intros Hnone. rewrite Hnone in Hfilter. cbn [List.map] in Hfilter.
    pose proof (normalize_hyphen_case s) as Hcase.
    destruct (normalize_skill_name s) as [|c r]; [done|]. exfalso.
    unfold hyphen_case in Hcase. rewrite !andb_true_iff, !negb_true_iff in Hcase.
    destruct Hcase as [[[Hall Hlead] _] _].
    cbn [forallb] in Hall. apply andb_true_iff in Hall as [Hc _].
    rewrite leading_hyphen_cons in Hlead.
    apply allowed_char_cases in Hc as [Hc| ->]; [|done].
    cbn [List.filter] in Hfilter. by rewrite Hc in Hfilter.
Qed.

End NormalizerLetters.

Lemma normalize_keeps_letters_and_digits_witness :
  List.filter is_az09 (@normalize_skill_name ascii_only (u " My_Tool v2! ")) =
  u "mytoolv2".
Proof.
  rewrite (@normalize_keeps_letters_and_digits ascii_only); reflexivity.
Defined.

Lemma normalize_empty_iff_witness :
  @normalize_skill_name ascii_only (u " -- ?! ") = [] <->
  existsb letter_or_digit (u " -- ?! ") = false.
Proof. apply (@normalize_empty_iff ascii_only). reflexivity. Defined.

(** ** From the title back to the name *)

Lemma split_max_not_nil sep k s : split_max sep k s <> [].
Proof. destruct k; cbn [split_max]; [done|]. by destruct (partition sep s) as [[]|]. Qed.

(** join undoes split. *)
Lemma join_split_max sep k s : join sep (split_max sep k s) = s.
Proof.
  revert s. induction k as [|k IH]; intros s; cbn [split_max]; [done|].
  destruct (partition sep s) as [[before after]|] eqn:Hp; [|done].
  apply partition_Some in Hp. specialize (IH after).
  pose proof (split_max_not_nil sep k after) as Hne.
  destruct (split_max sep k after) as [|w ws]; [done|].
  cbn [join] in *. by rewrite IH.
Qed.

Lemma map_join (f : N -> N) sep words :
  List.map f (join sep words) = join (List.map f sep) (List.map (List.map f) words).
Proof.
  induction words as [|w words IH]; [done|].
  destruct words as [|w' words]; [done|].
  change (join sep (w :: w' :: words)) with (w ++ sep ++ join sep (w' :: words)).
  rewrite !List.map_app, IH. done.
Qed.

(** Where hyphens join words and none is first, last or next to another,
    no word is empty. *)
Lemma hyphen_joined_words words :
  join [HYPHEN] words <> [] ->
  leading_hyphen (join [HYPHEN] words) = false ->
  trailing_hyphen (join [HYPHEN] words) = false ->
  consecutive_hyphens (join [HYPHEN] words) = false ->
  Forall (fun w => w <> []) words.
Proof.
  induction words as [|w words IH]; [done|].
  destruct words as [|w' words]; [by repeat constructor|].
  change (join [HYPHEN] (w :: w' :: words))
    with (w ++ HYPHEN :: join [HYPHEN] (w' :: words)).
  set (rest := join [HYPHEN] (w' :: words)) in *.
  intros _ Hlead Htrail Hcons.
  assert (rest <> []) as Hrest.
  { intros Hnil. rewrite Hnil in Htrail. unfold trailing_hyphen in Htrail.
    by rewrite rev_unit in Htrail. }
  constructor.
  - intros ->. cbn [app] in Hlead. by rewrite leading_hyphen_cons in Hlead.
  - apply IH; [done| | |].
    + destruct rest as [|c rest'] eqn:Hr; [done|]. rewrite leading_hyphen_cons.
      destruct (is_hyphen c) eqn:Hc; [|done].
      apply N.eqb_eq in Hc. subst c.
      assert (consecutive_hyphens (w ++ HYPHEN :: HYPHEN :: rest') = true)
        as Hboth; [|congruence].
      apply contains_spec. by exists w, rest'.
    + unfold trailing_hyphen in *. rewrite rev_app_distr in Htrail.
      cbn [rev] in Htrail. rewrite <- app_assoc in Htrail.
      destruct (rev rest) as [|c r] eqn:Hr; [|done].
      apply (f_equal (@rev N)) in Hr. rewrite rev_involutive in Hr. done.
    + apply (contains_infix _ (w ++ [HYPHEN]) _ []).
      by rewrite app_nil_r, <- app_assoc.
Qed.

Lemma az09_lower_id c : is_az09 c = true -> ascii_lower c = c.
Proof. intros Hc. apply allowed_char_not_upper. unfold allowed_char. by rewrite Hc. Qed.

Lemma az09_upper_lower c : is_az09 c = true -> ascii_lower (ascii_upper c) = c.
Proof.
  unfold is_az09, ascii_lower, ascii_upper, is_az, is_AZ, is_09.
  rewrite orb_true_iff, !andb_true_iff, !N.leb_le. intros Hc.
  destruct (97 <=? c)%N eqn:H1, (c <=? 122)%N eqn:H2; cbn [andb];
    repeat match goal with
           | H : (_ <=? _)%N = true |- _ => apply N.leb_le in H
           | H : (_ <=? _)%N = false |- _ => apply N.leb_gt in H
           end.
  - assert ((65 <=? c - 32)%N && (c - 32 <=? 90)%N = true) as ->.
    { apply andb_true_iff. rewrite !N.leb_le. lia. }
    lia.
  - lia.
  - assert ((65 <=? c)%N && (c <=? 90)%N = false) as ->; [|done].
    apply andb_false_iff. rewrite !N.leb_gt. lia.
  - lia.
Qed.

(** Lowering a capitalized word of lowercase letters and digits gives the
    word. *)
Lemma lower_capitalize w :
  Forall (fun c => is_az09 c = true) w ->
  List.map ascii_lower (ascii_capitalize w) = w.
Proof.
  intros [|c w' Hc Hw']; [done|]. cbn [ascii_capitalize List.map].
  rewrite az09_upper_lower by done. f_equal.
  rewrite List.map_map. rewrite <- (map_id w') at 2. apply map_ext_in.
  intros x Hx. rewrite Forall_forall in Hw'.
  assert (is_az09 x = true) as Hx' by by apply Hw', list_elem_of_In.
  by rewrite !(az09_lower_id x Hx').
Qed.

Lemma sub_non_alnum_word b c w rest :
  Forall (fun c => is_az09 c = true) (c :: w) ->
  sub_non_alnum_from b ((c :: w) ++ rest) = (c :: w) ++ sub_non_alnum_from false rest.
Proof.
  revert b c. induction w as [|c' w IH]; intros b c Hw; inversion_clear Hw as [|? ? Hc Hw'];
    cbn [app sub_non_alnum_from]; rewrite Hc; [done|].
  f_equal. by apply (IH false c').
Qed.

(** The first pattern of the normalizer turns the spaces between words of
    lowercase letters and digits into hyphens. *)
Lemma sub_non_alnum_join words :
  Forall (fun w => w <> []) words ->
  Forall (Forall (fun c => is_az09 c = true)) words ->
  forall b, sub_non_alnum_from b (join (u " ") words) = join [HYPHEN] words.
Proof.
  induction words as [|w words IH]; intros Hne Haz b; [done|].
  inversion_clear Hne as [|? ? Hw Hne']. inversion_clear Haz as [|? ? Hwaz Haz'].
  destruct w as [|c w]; [done|].
  destruct words as [|w' words].
  - cbn [join]. rewrite <- (app_nil_r (c :: w)) at 1.
    rewrite sub_non_alnum_word by done. cbn [sub_non_alnum_from]. apply app_nil_r.
  - change (join (u " ") ((c :: w) :: w' :: words))
      with ((c :: w) ++ 32%N :: join (u " ") (w' :: words)).
    change (join [HYPHEN] ((c :: w) :: w' :: words))
      with ((c :: w) ++ HYPHEN :: join [HYPHEN] (w' :: words)).
    rewrite sub_non_alnum_word by done. f_equal.
    cbn [sub_non_alnum_from]. change (is_az09 32) with false. cbv iota.
    f_equal. by apply IH.
Qed.

Lemma join_Forall (P : N -> Prop) sep words :
  Forall P sep -> Forall (Forall P) words -> Forall P (join sep words).
Proof.
  intros Hsep. induction 1 as [|w words Hw Hwords IH]; [done|].
  destruct words as [|w' words]; [done|].
  change (join sep (w :: w' :: words)) with (w ++ sep ++ join sep (w' :: words)).
  by repeat (apply Forall_app; split).
Qed.

(** A text joined from words that are not empty begins as its first word
    and ends as its last. *)
Lemma join_ends (P : N -> Prop) sep words :
  Forall (fun w => w <> [] /\ Forall P w) words ->
  (forall c rest, join sep words = c :: rest -> P c) /\
  (forall c rest, rev (join sep words) = c :: rest -> P c).
Proof.
  intros Hwords. split.
  - destruct Hwords as [|w words [Hw HP] _]; [done|].
    destruct w as [|c0 w]; [done|]. inversion_clear HP as [|? ? Hc0 _].
    intros c rest. destruct words; cbn [join app]; by intros [= <- _].
  - destruct words as [|w0 words0] using rev_ind; [done|]. clear IHwords0.
    apply Forall_app in Hwords as [_ Hlast].
    inversion_clear Hlast as [|? ? [Hw HP] _].
    destruct (rev w0) as [|c0 tl] eqn:Hrev.
    { apply (f_equal (@rev N)) in Hrev. by rewrite rev_involutive in Hrev. }
    destruct (rev_join_last sep words0 w0 c0 tl Hrev) as [tl' ->].
    intros c rest [= <- _]. rewrite Forall_forall in HP. apply HP.
    apply list_elem_of_In, in_rev. rewrite Hrev. by left.
Qed.

Lemma strip_with_ends (p : N -> bool) sep words :
  Forall (fun w => w <> [] /\ Forall (fun c => p c = false) w) words ->
  strip_with p (join sep words) = join sep words.
Proof.
  intros Hwords. destruct (join_ends _ sep words Hwords) as [Hhead Hlast].
  by apply strip_with_id.
Qed.

Lemma az09_upper_letter c :
  is_az09 c = true -> letter_or_digit (ascii_upper c) = true.
Proof.
  unfold is_az09, ascii_upper, letter_or_digit, is_az, is_AZ, is_09.
  destruct (97 <=? c)%N eqn:H1, (c <=? 122)%N eqn:H2; cbn [andb orb]; try done.
  - intros _. apply N.leb_le in H1, H2.
    assert ((65 <=? c - 32)%N && (c - 32 <=? 90)%N = true) as ->; [|by rewrite orb_true_r].
    apply andb_true_iff. rewrite !N.leb_le. lia.
  - intros ->. by rewrite orb_true_r.
  - intros ->. by rewrite orb_true_r.
  - intros ->. by rewrite orb_true_r.
Qed.

Lemma letter_not_space c :
  letter_or_digit c = true -> is_ascii c = true /\ ascii_isspace c = false.
Proof.
  unfold letter_or_digit, is_ascii, ascii_isspace, is_az, is_AZ, is_09.
  rewrite !orb_true_iff, orb_false_iff, !andb_true_iff, !andb_false_iff,
    !N.leb_le, !N.leb_gt, N.ltb_lt. lia.
Qed.

(** A capitalized word of lowercase letters and digits holds letters and
    digits. *)
Lemma capitalize_word w :
  Forall (fun c => is_az09 c = true) w ->
  Forall (fun c => letter_or_digit c = true) (ascii_capitalize w).
Proof.
  intros [|c w' Hc Hw']; [done|]. cbn [ascii_capitalize]. constructor.
  - by apply az09_upper_letter.
  - apply Forall_forall. intros x Hx. apply list_elem_of_In, in_map_iff in Hx.
    destruct Hx as (y & <- & Hy). rewrite Forall_forall in Hw'.
    assert (is_az09 y = true) as Hy' by by apply Hw', list_elem_of_In.
    rewrite az09_lower_id by done. unfold letter_or_digit.
    unfold is_az09 in Hy'. apply orb_true_iff in Hy' as [->| ->]; [done|].
    by rewrite orb_true_r.
Qed.

Section TitleRoundTrip.
Context {py : Python}.

(** The words of a name in hyphen-case: the name is the words joined by
    hyphens, and each word is a run of lowercase letters and digits that is
    not empty. *)
Lemma hyphen_case_words skill_name :
  hyphen_case skill_name = true -> skill_name <> [] ->
  let words := split (u "-") skill_name in
  join [HYPHEN] words = skill_name /\
  Forall (fun w => w <> []) words /\
  Forall (Forall (fun c => is_az09 c = true)) words.
Proof.
  unfold hyphen_case. rewrite !andb_true_iff, !negb_true_iff.
  intros [[[Hall Hlead] Htrail] Hcons] Hname.
  set (words := split (u "-") skill_name).
  assert (join [HYPHEN] words = skill_name) as Hjoin by apply join_split_max.
  split; [done|]. split.
  - apply hyphen_joined_words; by rewrite Hjoin.
  - apply Forall_forall. intros w Hw. apply Forall_forall. intros c Hc.
    pose proof (split_max_char HYPHEN (length skill_name) skill_name w
                  (Nat.le_refl _) Hw) as Hfree.
    rewrite Forall_forall in Hfree. specialize (Hfree c Hc).
    pose proof (split_max_chars _ _ _ _ _ Hw Hc) as Hin.
    rewrite forallb_forall in Hall.
    apply list_elem_of_In, Hall, allowed_char_cases in Hin as [Hin|Hin]; done.
Qed.

(** The title of a name in hyphen-case normalizes to the name. *)
Theorem normalize_title_case (skill_name : str) :
  hyphen_case skill_name = true ->
  normalize_skill_name (title_case_skill_name skill_name) = skill_name.
Proof.
  intros Hcase.
  assert (forallb allowed_char skill_name = true) as Hall.
  { unfold hyphen_case in Hcase. rewrite !andb_true_iff in Hcase. tauto. }
  rewrite title_case_ascii by done.
  destruct (decide (skill_name = [])) as [->|Hname].
  { rewrite normalize_ascii by reflexivity. reflexivity. }
  destruct (hyphen_case_words skill_name Hcase Hname) as (Hjoin & Hne & Haz).
  unfold title_case_skill_name.
  change (@capitalize ascii_only) with ascii_capitalize.
  set (words := split (u "-") skill_name) in *.
  set (title := join (u " ") (List.map ascii_capitalize words)).
  assert (Forall (fun w => w <> [] /\ Forall (fun c => letter_or_digit c = true) w)
            (List.map ascii_capitalize words)) as Hcap.
  { apply Forall_forall. intros w Hw. apply list_elem_of_In, in_map_iff in Hw.
    destruct Hw as (w0 & <- & Hw0). apply list_elem_of_In in Hw0.
    rewrite Forall_forall in Hne, Haz. split.
    - specialize (Hne w0 Hw0). by destruct w0.
    - by apply capitalize_word, Haz. }
  assert (forallb is_ascii title = true) as Hascii.
  { apply forallb_forall. intros c Hc. apply list_elem_of_In in Hc. revert c Hc.
    apply Forall_forall, join_Forall; [by repeat constructor|].
    eapply Forall_impl; [exact Hcap|]. intros w [_ Hw].
    eapply Forall_impl; [exact Hw|]. intros c Hc. by apply letter_not_space. }
  rewrite normalize_ascii by done. unfold normalize_skill_name.
  change (@lower ascii_only) with (fun s => List.map ascii_lower s).
  change (@strip ascii_only) with (strip_with ascii_isspace). cbv beta.
  assert (strip_with ascii_isspace title = title) as ->.
  { apply strip_with_ends. eapply Forall_impl; [exact Hcap|]. intros w [Hw Hletters].
    split; [done|]. eapply Forall_impl; [exact Hletters|].
    intros c Hc. by apply letter_not_space. }
  assert (List.map ascii_lower title = join (u " ") words) as ->.
  { unfold title. rewrite map_join, List.map_map. f_equal.
    rewrite <- (map_id words) at 2. apply map_ext_in. intros w Hw.
    apply lower_capitalize. rewrite Forall_forall in Haz.
    by apply Haz, list_elem_of_In. }
  unfold sub_non_alnum. rewrite sub_non_alnum_join, Hjoin by done.
  unfold hyphen_case in Hcase. rewrite !andb_true_iff, !negb_true_iff in Hcase.
  destruct Hcase as [[[_ Hlead] Htrail] Hcons].
  rewrite strip_with_id.
  - by apply sub_hyphen_runs_id.
  - intros c rest ->. by rewrite leading_hyphen_cons in Hlead.
  - intros c rest Hrev. unfold trailing_hyphen in Htrail. rewrite Hrev in Htrail.
    by rewrite <- leading_hyphen_cons with (t := rest).
Qed.

End TitleRoundTrip.

Lemma normalize_title_case_witness :
  @title_case_skill_name ascii_only (u "my-cool-skill2") = u "My Cool Skill2" /\
  @normalize_skill_name ascii_only (@title_case_skill_name ascii_only (u "my-cool-skill2")) =
  u "my-cool-skill2".
Proof.
  split; [reflexivity|]. apply (@normalize_title_case ascii_only). reflexivity.
Defined.

(** * More of the validator *)

(** ** The stages before the frontmatter *)

Section EarlyStages.
Context {py : Python}.

(** The first three stages, with or without yaml: a path that does not
    exist, a path that is no directory, a directory without SKILL.md and a
    SKILL.md that cannot be read as a file each end the run with their own
    message. *)
Theorem validate_skill_early_stages (yaml : option yaml_module) (fs : filesystem)
    (skill_dir : path) :
  (path_exists_in fs skill_dir = false ->
   validate_skill yaml fs skill_dir = Fatal DirectoryMissing) /\
  (path_exists_in fs skill_dir = true -> is_dir_in fs skill_dir = false ->
   validate_skill yaml fs skill_dir = Fatal NotADirectory) /\
  (is_dir_in fs skill_dir = true ->
   path_exists_in fs (skill_dir ++ [u "SKILL.md"]) = false ->
   validate_skill yaml fs skill_dir = Fatal SkillMdNotFound) /\
  (is_dir_in fs skill_dir = true ->
   is_dir_in fs (skill_dir ++ [u "SKILL.md"]) = true ->
   validate_skill yaml fs skill_dir = Fatal (CannotRead IsADirectoryError)).
Proof.
  unfold validate_skill. repeat split.
  - by intros ->.
  - by intros -> ->.
  - intros Hdir ->. by rewrite (is_dir_exists _ _ Hdir), Hdir.
  - intros Hdir Hmd. rewrite (is_dir_exists _ _ Hdir), Hdir, (is_dir_exists _ _ Hmd).
    cbn [negb]. unfold read_text. unfold is_dir_in in Hmd.
    by destruct (lookup_node fs (skill_dir ++ [u "SKILL.md"])) as [[]|].
Qed.

(** validate_skill looks at the directory and at its SKILL.md and at
    nothing else: on two filesystems that have the same nodes there it
    gives the same outcome. *)
Theorem validate_skill_reads_two_paths (yaml : option yaml_module)
    (fs fs' : filesystem) (skill_dir : path) :
  lookup_node fs skill_dir = lookup_node fs' skill_dir ->
  lookup_node fs (skill_dir ++ [u "SKILL.md"]) =
    lookup_node fs' (skill_dir ++ [u "SKILL.md"]) ->
  validate_skill yaml fs skill_dir = validate_skill yaml fs' skill_dir.
Proof.
  intros Hdir Hmd. unfold validate_skill, path_exists_in, is_dir_in, read_text.
  by rewrite Hdir, Hmd.
Qed.

(** An id that is a number other than zero, the boolean true or a date has
    no first character: is_valid_skill_id raises TypeError, nothing catches
    it, and the run ends without a report. *)
Theorem unsubscriptable_id_raises (skill_name : str) (fm : list (yaml * yaml))
    (body : str) (id : yaml) :
  List.filter (fun field => negb (dict_has fm field)) REQUIRED_FIELDS = [] ->
  dict_get fm (u "id") = Some id ->
  match id with
  | YInt n => n <> 0%Z
  | YBool b => b = true
  | YFloat is_zero => is_zero = false
  | YTime => True
  | _ => False
  end ->
  validate_frontmatter skill_name fm body = Uncaught TypeError /\
  exit_status (validate_frontmatter skill_name fm body) = 1.
Proof.
  intros Hall Hid Hkind.
  assert (validate_frontmatter skill_name fm body = Uncaught TypeError) as ->; [|done].
  unfold validate_frontmatter. rewrite missing_fields, Hall. cbn [List.map].
  rewrite collect_unfold. unfold getitem. rewrite Hid. cbn [tried_bind].
  destruct id as [|b|n|z| | | |]; try done.
  - by subst b.
  - unfold is_valid_skill_id. cbn [truthy]. apply Z.eqb_neq in Hkind.
    by rewrite Hkind.
  - by subst z.
Qed.

End EarlyStages.

Lemma validate_skill_reads_two_paths_witness :
  @validate_skill ascii_only None
    (<[ [u "bare"; u "scripts"] := Dir ]> bare_package) [u "bare"] =
  @validate_skill ascii_only None bare_package [u "bare"].
Proof. by apply (@validate_skill_reads_two_paths ascii_only). Defined.

Lemma unsubscriptable_id_raises_witness :
  @validate_frontmatter ascii_only (u "123")
    ((YStr (u "id"), YInt 123) ::
     without (u "id") (template_mapping (u "123") (u "123") (strftime_utc noon)))
    sample_body = Uncaught TypeError /\
  exit_status
    (@validate_frontmatter ascii_only (u "123")
       ((YStr (u "id"), YInt 123) ::
        without (u "id") (template_mapping (u "123") (u "123") (strftime_utc noon)))
       sample_body) = 1.
Proof. by apply (@unsubscriptable_id_raises ascii_only) with (id := YInt 123). Defined.

(** ** What a valid outcome means *)

Lemma filter_missing_nil fm :
  List.filter (fun field => negb (dict_has fm field)) REQUIRED_FIELDS = [] <->
  forallb (dict_has fm) REQUIRED_FIELDS = true.
Proof.
  split; [|apply all_present].
  induction REQUIRED_FIELDS as [|f fields IH]; [done|]. cbn [List.filter forallb].
  destruct (dict_has fm f); [|done]. exact IH.
Qed.

Section ValidOutcome.
Context {py : Python}.

Lemma valid_conforms skill_name fm body n warnings fields :
  validate_frontmatter skill_name fm body = Valid n warnings fields ->
  n = skill_name /\ conforms skill_name fm /\
  field_is fm (u "description") sized = true /\ body <> [].
Proof.
  destruct (List.filter (fun field => negb (dict_has fm field)) REQUIRED_FIELDS)
    as [|missing more] eqn:Hall.
  2: { unfold validate_frontmatter. by rewrite missing_fields, Hall. }
  destruct (required_present fm (u "description") Hall) as [d Hd].
  { rewrite list_elem_of_In. simpl. tauto. }
  unfold validate_frontmatter. rewrite missing_fields, Hall. cbn [List.map].
  rewrite collect_unfold.
  destruct (getitem fm (u "id")) as [i|] eqn:H1; [|done]. cbn [tried_bind].
  destruct (is_valid_skill_id i) as [valid_id|] eqn:H2; [|done]. cbn [tried_bind].
  destruct (getitem fm (u "visibility")) as [visibility|] eqn:H3; [|done].
  cbn [tried_bind].
  destruct (not_in_visibility visibility) as [outside|] eqn:H4; [|done].
  cbn [tried_bind].
  destruct (getitem fm (u "created_at")) as [created_at|] eqn:H5; [|done].
  cbn [tried_bind].
  destruct (validate_timestamp created_at) as [created_ok|] eqn:H6; [|done].
  cbn [tried_bind].
  destruct (getitem fm (u "updated_at")) as [updated_at|] eqn:H7; [|done].
  cbn [tried_bind].
  destruct (validate_timestamp updated_at) as [updated_ok|] eqn:H8; [|done].
  cbn [tried_bind].
  destruct (getitem fm (u "tags")) as [tags|] eqn:H9; [|done]. cbn [tried_bind].
  destruct (getitem fm (u "tool_refs")) as [tool_refs|] eqn:H10; [|done].
  cbn [tried_bind].
  destruct (getitem fm (u "workflow_refs")) as [workflow_refs|] eqn:H11; [|done].
  cbn [tried_bind]. rewrite Hd. cbn [default from_option]. unfold id.
  destruct (sized d) eqn:Hsized; [|by destruct d].
  destruct (tried_bind (py_in (u "TODO") d) _) as [todo|]; [|done]. cbn [tried_bind].
  destruct (py_len d) as [len|]; [|done]. cbn [tried_bind].
  apply getitem_Fine in H1, H3, H5, H7, H9, H10, H11.
  destruct (schema_errors _ _ _ _ _ _ _ _ _ _ _ _ _) as [|e errors] eqn:Herrors; [|done].
  destruct (summary fm REQUIRED_FIELDS) as [shown|]; [|done].
  intros [= <- _ _]. split; [done|].
  unfold schema_errors in Herrors.
  repeat (apply app_eq_nil in Herrors as [? Herrors]).
  destruct (eq_str _ skill_name) eqn:Hid; [|done]. apply eq_str_true in Hid. subst.
  rewrite is_valid_skill_id_str in H2. injection H2 as <-.
  destruct (accepted_id skill_name) eqn:Haccepted; [|done].
  destruct outside; [done|].
  destruct created_ok; [|done]. destruct updated_ok; [|done].
  destruct tags; try done. destruct tool_refs; try done.
  destruct workflow_refs; try done.
  split; [|split].
  - split; [by apply filter_missing_nil|]. split; [done|]. split; [done|].
    split; [|split].
    + destruct visibility; try done. cbn [not_in_visibility] in H4.
      injection H4 as H4. apply negb_false_iff, bool_decide_eq_true in H4. eauto.
    + intros field [->|[->|[]%elem_of_nil]%elem_of_cons]%elem_of_cons.
      * destruct created_at; try done. cbn [validate_timestamp] in H6.
        injection H6 as H6. eauto.
      * destruct updated_at; try done. cbn [validate_timestamp] in H8.
        injection H8 as H8. eauto.
    + intros field [->|[->|[->|[]%elem_of_nil]%elem_of_cons]%elem_of_cons]%elem_of_cons;
        eauto.
  - unfold field_is. by rewrite Hd.
  - by destruct body.
Qed.

Lemma conforms_valid skill_name fm body :
  conforms skill_name fm ->
  field_is fm (u "description") sized = true -> body <> [] ->
  exists warnings fields,
    validate_frontmatter skill_name fm body = Valid skill_name warnings fields.
Proof.
  intros (Hall & Hid & Haccepted & (v & Hv & Hallowed) & Hstamps & Hlists) Hd Hbody.
  apply filter_missing_nil in Hall.
  destruct (Hstamps (u "created_at")) as (c & Hc & Hcreated); [by left|].
  destruct (Hstamps (u "updated_at")) as (up & Hup & Hupdated); [by right; left|].
  destruct (Hlists (u "tags")) as (tags & Htags); [by left|].
  destruct (Hlists (u "tool_refs")) as (tools & Htools); [by right; left|].
  destruct (Hlists (u "workflow_refs")) as (flows & Hflows); [by right; right; left|].
  apply field_is_Some in Hd as (d & Hd & Hsized).
  destruct (strings_do_not_raise skill_name fm body _ _ _ _ _ Hall Hid Hv Hc Hup
              Hd Hsized) as [passed Hpassed].
  pose proof (validate_frontmatter_checked skill_name fm body Hall) as Hchecked.
  destruct (validate_frontmatter skill_name fm body)
    as [f|n warnings|errors|n warnings fields|e]; try done.
  - exfalso. destruct Hchecked as [Hne Hchecked]. apply Hne.
    destruct Hchecked as (id & valid_id & visibility & outside & created_at &
      created_ok & updated_at & updated_ok & tags' & tools' & flows' &
      Hid' & Hvalid & Hvis' & Houtside & Hc' & Hcreated' & Hu' & Hupdated' &
      Htags' & Htools' & Hflows' & ->).
    rewrite Hid in Hid'. rewrite Hv in Hvis'. rewrite Hc in Hc'. rewrite Hup in Hu'.
    rewrite Htags in Htags'. rewrite Htools in Htools'. rewrite Hflows in Hflows'.
    injection Hid' as <-. injection Hvis' as <-. injection Hc' as <-.
    injection Hu' as <-. injection Htags' as <-. injection Htools' as <-.
    injection Hflows' as <-.
    rewrite is_valid_skill_id_str, Haccepted in Hvalid. injection Hvalid as <-.
    cbn [validate_timestamp] in Hcreated', Hupdated'.
    rewrite Hcreated in Hcreated'. rewrite Hupdated in Hupdated'.
    injection Hcreated' as <-. injection Hupdated' as <-.
    cbn [not_in_visibility] in Houtside.
    rewrite bool_decide_eq_true_2 in Houtside by done. injection Houtside as <-.
    unfold schema_errors. cbn [eq_str is_list negb]. unfold str_eqb.
    rewrite bool_decide_eq_true_2 by done. by destruct body.
  - destruct Hchecked as [-> _]. eauto.
Qed.

(** validate_frontmatter finds a frontmatter valid exactly when the
    frontmatter conforms, its description is a str or a collection, and the
    body is not empty. *)
Theorem valid_iff_conforms (skill_name : str) (fm : list (yaml * yaml)) (body : str) :
  (exists warnings fields,
     validate_frontmatter skill_name fm body = Valid skill_name warnings fields) <->
  conforms skill_name fm /\ field_is fm (u "description") sized = true /\ body <> [].
Proof.
  split.
  - intros (warnings & fields & Hvalid). by apply valid_conforms in Hvalid as [_ ?].
  - intros (Hconforms & Hd & Hbody). by apply conforms_valid.
Qed.

(** A valid outcome means that yaml was there, the path is a directory,
    its SKILL.md is a rule, a block, a rule and a text, the parser made a
    mapping of the stripped block, the mapping conforms for the name of the
    directory, and the stripped text is not empty. *)
Theorem valid_outcome_means (yaml : option yaml_module) (fs : filesystem)
    (skill_dir : path) (n : str) (warnings : list warning)
    (fields : list (str * display)) :
  validate_skill yaml fs skill_dir = Valid n warnings fields ->
  n = name skill_dir /\ is_dir_in fs skill_dir = true /\
  exists safe_load block text fm,
    yaml = Some safe_load /\
    read_text fs (skill_dir ++ [u "SKILL.md"]) =
      inr (u "---" ++ block ++ u "---" ++ text) /\
    safe_load (strip block) = Some (YDict fm) /\
    conforms (name skill_dir) fm /\
    strip text <> [].
Proof.
  unfold validate_skill.
  destruct (path_exists_in fs skill_dir); [|done]. cbn [negb].
  destruct (is_dir_in fs skill_dir) eqn:Hdir; [|done]. cbn [negb].
  destruct (path_exists_in fs (skill_dir ++ [u "SKILL.md"])); [|done]. cbn [negb].
  destruct (read_text fs (skill_dir ++ [u "SKILL.md"])) as [e|content]; [done|].
  destruct (startswith (u "---") content) eqn:Hstart; [|done]. cbn [negb].
  apply startswith_spec in Hstart as [rest ->].
  cbn [split_max]. rewrite partition_at_start.
  destruct (partition (u "---") rest) as [[block text]|] eqn:Hcut; [|done].
  apply partition_Some in Hcut. subst rest. cbn [length Nat.ltb Nat.leb nth].
  destruct yaml as [safe_load|]; [|done].
  destruct (safe_load (strip block)) as [[| | | | | | |fm]|] eqn:Hload; try done.
  intros (-> & Hconforms & _ & Hbody)%valid_conforms.
  split; [done|]. split; [done|]. by exists safe_load, block, text, fm.
Qed.

End ValidOutcome.

Lemma valid_outcome_means_witness :
  exists safe_load block text fm,
    Some (fun _ : str => Some (YDict (template_mapping (u "my-skill") (u "My Skill")
                                        (strftime_utc noon)))) = Some safe_load /\
    read_text sample_package [u "my-skill"; u "SKILL.md"] =
      inr (u "---" ++ block ++ u "---" ++ text) /\
    safe_load (@strip ascii_only block) = Some (YDict fm) /\
    @conforms ascii_only (u "my-skill") fm /\
    @strip ascii_only text <> [].
Proof.
  apply (@valid_outcome_means ascii_only
           (Some (fun _ => Some (YDict (template_mapping (u "my-skill") (u "My Skill")
                                          (strftime_utc noon)))))
           sample_package [u "my-skill"] (u "my-skill") [DescriptionShort]
           (template_fields (u "my-skill") (u "My Skill") (strftime_utc noon))).
  vm_compute. reflexivity.
Defined.

(** ** Counting the TODO markers *)

Lemma count_from_fuel sub n m s :
  sub <> [] -> length s <= n -> length s <= m ->
  count_from n sub s = count_from m sub s.
Proof.
  intros Hsub. revert m s. induction n as [|n IH]; intros m s Hn Hm.
  - destruct s; [|simpl in Hn; lia]. destruct m; [done|]. cbn [count_from].
    rewrite partition_unfold. by destruct sub.
  - destruct m as [|m].
    + destruct s; [|simpl in Hm; lia]. cbn [count_from].
      rewrite partition_unfold. by destruct sub.
    + cbn [count_from]. destruct (partition sub s) as [[before after]|] eqn:Hp; [|done].
      apply partition_Some in Hp. subst s. rewrite !length_app in Hn, Hm.
      destruct sub; [done|]. simpl in Hn, Hm. f_equal. apply IH; lia.
Qed.

Lemma count_from_S n sub s :
  count_from (S n) sub s =
  match partition sub s with
  | Some (_, after) => S (count_from n sub after)
  | None => 0
  end.
Proof. done. Qed.

(** count, from the left: an occurrence at the start is counted and passed
    over. *)
Lemma count_cons sub c s :
  sub <> [] ->
  count sub (c :: s) =
  if startswith sub (c :: s) then S (count sub (drop (length sub) (c :: s)))
  else count sub s.
Proof.
  intros Hsub. unfold count. cbn [length count_from]. rewrite partition_unfold.
  destruct (startswith sub (c :: s)) eqn:Hstart.
  - f_equal. apply count_from_fuel; [done| |done].
    destruct sub; [done|]. cbn [length drop]. rewrite length_drop. lia.
  - destruct s as [|c' s'].
    + cbn [count_from length]. rewrite partition_unfold. by destruct sub.
    + cbn [length]. rewrite (count_from_S (length s') sub (c' :: s')).
      destruct (partition sub (c' :: s')) as [[before after]|] eqn:Hp; [|done].
      f_equal. apply partition_Some in Hp.
      apply count_from_fuel; [done| |].
      * apply (f_equal length) in Hp. rewrite !length_app in Hp.
        destruct sub; [done|]. simpl in Hp. lia.
      * apply (f_equal length) in Hp. rewrite !length_app in Hp.
        destruct sub; [done|]. simpl in Hp. lia.
Qed.

Lemma count_zero sub s : sub <> [] -> count sub s = 0 <-> contains sub s = false.
Proof.
  intros Hsub. rewrite <- partition_None. unfold count. destruct s as [|c s].
  - cbn [length count_from]. rewrite partition_unfold. by destruct sub.
  - cbn [length count_from]. by destruct (partition sub (c :: s)) as [[]|].
Qed.

(** A character that does not begin [sub] begins no occurrence of it. *)
Lemma count_skip a sub c s :
  c <> a -> count (a :: sub) (c :: s) = count (a :: sub) s.
Proof.
  intros Hc. rewrite count_cons by done. cbn [startswith].
  apply N.eqb_neq in Hc. rewrite N.eqb_sym in Hc. by rewrite Hc.
Qed.

Lemma count_hit sub rest :
  sub <> [] -> count sub (sub ++ rest) = S (count sub rest).
Proof.
  intros Hsub. destruct sub as [|a sub]; [done|]. cbn [app].
  rewrite count_cons by done.
  change (a :: sub ++ rest) with ((a :: sub) ++ rest).
  by rewrite startswith_app, drop_app_length.
Qed.

(** Each marker in brackets holds a marker without them. *)
Lemma count_bracketed_le s : count (u "[TODO") s <= count (u "TODO") s.
Proof.
  change (u "[TODO") with (91%N :: u "TODO").
  change (u "TODO") with [84; 79; 68; 79]%N.
  remember (length s) as n eqn:Hn. revert s Hn.
  induction n as [n IH] using lt_wf_ind. intros s ->.
  destruct s as [|c s]; [done|].
  destruct (decide (c = 91%N)) as [->|Hc].
  - rewrite (count_skip 84 _ 91) by done.
    destruct (startswith [84; 79; 68; 79]%N s) eqn:Hplain.
    + apply startswith_spec in Hplain as [rest ->].
      rewrite (count_hit [84; 79; 68; 79]%N) by done.
      change (91%N :: [84; 79; 68; 79]%N ++ rest)
        with ((91%N :: [84; 79; 68; 79]%N) ++ rest).
      rewrite count_hit by done. apply le_n_S.
      apply (IH (length rest)); [|done]. simpl. lia.
    + rewrite count_cons by done. cbn [startswith]. rewrite N.eqb_refl.
      cbn [andb]. cbn [startswith] in Hplain. rewrite Hplain.
      apply (IH (length s)); [|done]. simpl. lia.
  - rewrite (count_skip 91) by done.
    destruct (startswith [84; 79; 68; 79]%N (c :: s)) eqn:Hplain.
    + apply startswith_spec in Hplain as [rest Hrest]. rewrite Hrest.
      rewrite (count_hit [84; 79; 68; 79]%N) by done.
      cbn [app] in Hrest. injection Hrest as -> ->.
      rewrite !(count_skip 91) by done.
      apply Nat.le_le_succ_r. apply (IH (length rest)); [|done]. simpl. lia.
    + rewrite (count_cons [84; 79; 68; 79]%N) by done. rewrite Hplain.
      apply (IH (length s)); [|done]. simpl. lia.
Qed.

(** validate_skill counts a marker in brackets twice: the count it reports
    is at least twice the number of such markers; and it is zero, with no
    warning of markers, exactly when TODO does not occur in the body. *)
Theorem todo_count_bracketed_twice (body : str) :
  2 * count (u "[TODO") body <= todo_count body /\
  (todo_count body = 0 <-> contains (u "TODO") body = false) /\
  (body_warnings body = [] <-> contains (u "TODO") body = false).
Proof.
  pose proof (count_bracketed_le body) as Hle.
  assert (todo_count body = 0 <-> contains (u "TODO") body = false) as Hzero.
  { rewrite <- count_zero by done. unfold todo_count. lia. }
  split; [unfold todo_count; lia|]. split; [done|].
  rewrite <- Hzero. unfold body_warnings. by destruct (todo_count body).
Qed.

(** ** The warnings of a package fresh from the generator *)

Lemma drop_while_keeps p before c rest :
  p c = false -> exists before', drop_while p (before ++ c :: rest) = before' ++ c :: rest.
Proof.
  intros Hc. induction before as [|a before [before' IH]]; cbn [app drop_while].
  - exists []. by rewrite Hc.
  - destruct (p a); [by exists before'|by exists (a :: before)].
Qed.

(** strip keeps what stands between two characters that it does not
    take. *)
Lemma strip_with_keeps p before c middle d after :
  p c = false -> p d = false ->
  exists before' after',
    strip_with p (before ++ (c :: middle ++ [d]) ++ after) =
    before' ++ (c :: middle ++ [d]) ++ after'.
Proof.
  intros Hc Hd. unfold strip_with. cbn [app].
  destruct (drop_while_keeps p before c ((middle ++ [d]) ++ after) Hc) as [before' ->].
  assert (rev (before' ++ c :: (middle ++ [d]) ++ after) =
          rev after ++ d :: rev (before' ++ c :: middle)) as ->.
  { rewrite !rev_app_distr. cbn [rev]. rewrite !rev_app_distr. cbn [rev app].
    by rewrite <- !app_assoc. }
  destruct (drop_while_keeps p (rev after) d (rev (before' ++ c :: middle)) Hd)
    as [after' ->].
  exists before', (rev after'). rewrite rev_app_distr. cbn [rev].
  rewrite rev_involutive. by rewrite <- !app_assoc.
Qed.

Section FreshPackage.
Context {py : Python}.

(** The body of the template keeps its markers. *)
Lemma template_body_todo skill_title :
  contains (u "TODO") (strip (template_text skill_title)) = true.
Proof.
  assert (exists before after,
            template_text skill_title =
            before ++ (84%N :: [79; 68]%N ++ [79%N]) ++ after) as (before & after & ->).
  { unfold template_text.
    change (body_lines skill_title)
      with ([[]; u "# " ++ skill_title] ++ skipn 17 (SKILL_TEMPLATE_lines [] [] [])).
    rewrite unlines_app.
    assert (contains (u "TODO") (unlines (skipn 17 (SKILL_TEMPLATE_lines [] [] []))) = true)
      as Hrest by (vm_compute; reflexivity).
    apply contains_spec in Hrest as (b & a & ->).
    exists (NEWLINE :: unlines [[]; u "# " ++ skill_title] ++ b), a.
    cbn [app]. by rewrite <- !app_assoc. }
  unfold strip.
  destruct (strip_with_keeps isspace before 84 [79; 68]%N 79 after)
    as (before' & after' & ->); [by rewrite isspace_ascii..|].
  apply contains_spec. by exists before', after'.
Qed.

(** The warnings of a valid outcome are those of the body and of the
    description. *)
Lemma valid_warnings skill_name fm body n warnings fields :
  validate_frontmatter skill_name fm body = Valid n warnings fields ->
  exists todo len, warnings = quality_warnings body todo len.
Proof.
  unfold validate_frontmatter.
  destruct (flat_map _ REQUIRED_FIELDS); [|done].
  destruct (collect_body skill_name fm) as [[e He]|Hfine].
  - by rewrite He.
  - destruct Hfine as (i & valid_id & visibility & outside & created_at &
      created_ok & updated_at & updated_ok & tags & tools & flows & todo & len & ->).
    destruct (schema_errors _ _ _ _ _ _ _ _ _ _ _ _ _); [|done].
    destruct (summary fm REQUIRED_FIELDS); [|done].
    intros [= _ <- _]. eauto.
Qed.

Lemma todo_warning body todo len :
  contains (u "TODO") body = true ->
  0 < todo_count body /\
  TodoMarkers (todo_count body) ∈ basic_warnings body /\
  TodoMarkers (todo_count body) ∈ quality_warnings body todo len.
Proof.
  intros Hbody.
  assert (todo_count body <> 0) as Hcount.
  { unfold todo_count. intros Hzero.
    assert (count (u "TODO") body = 0) as Hplain by lia.
    apply count_zero in Hplain; [congruence|done]. }
  split; [lia|].
  unfold basic_warnings, quality_warnings, body_warnings.
  destruct (todo_count body) as [|k]; [done|].
  split; rewrite !elem_of_app, list_elem_of_singleton; tauto.
Qed.

(** A package fresh from init_skill, for a Skill Identifier that begins
    with a letter, never passes without the warning of TODO markers: the
    body of the template holds them, and both the basic validation and a
    valid outcome of the full one list the warning with their count. *)
Theorem generated_package_warns (now : datetime) (skill_name : str) (path : path)
    (resources : list str) (include_examples : bool) (w w' : world)
    (skill_dir : list (list N)) :
  is_skill_identifier skill_name = true ->
  is_az (hd 0%N skill_name) = true ->
  valid_datetime now = true ->
  init_skill now skill_name path resources include_examples w =
    (Ok (Some skill_dir), w') ->
  exists k, 0 < k /\
    (exists warnings,
       validate_skill None (files w') skill_dir = BasicPassed skill_name warnings /\
       TodoMarkers k ∈ warnings) /\
    (forall safe_load n warnings fields,
       validate_skill (Some safe_load) (files w') skill_dir = Valid n warnings fields ->
       TodoMarkers k ∈ warnings).
Proof.
  intros Hid Hletter Hnow Hrun.
  set (body := strip (template_text (title_case_skill_name skill_name))).
  pose proof (template_body_todo (title_case_skill_name skill_name)) as Htodo.
  fold body in Htodo.
  destruct (todo_warning body false 0 Htodo) as (Hk & Hbasic & _).
  exists (todo_count body). split; [done|].
  destruct (validate_generated _ _ _ _ _ _ _ _ Hid Hletter Hnow Hrun)
    as (-> & Hnone & _).
  split; [by eexists|].
  intros safe_load n warnings fields.
  unfold is_skill_identifier, hyphen_case in Hid.
  rewrite !andb_true_iff, !negb_true_iff in Hid.
  destruct Hid as [[_ [[[Hchars _] _] Hcons]] _].
  apply init_skill_produces in Hrun as (_ & Hdir & Hread).
  rewrite (validate_template (Some safe_load) _ _ _ _ _ Hdir Hread Hcons
             (hyphen_free_consecutive _ (title_hyphen_free _ Hchars))
             (strftime_utc_hyphens now)).
  destruct (safe_load _) as [[| | | | | | |fm]|]; try done.
  intros (todo & len & ->)%valid_warnings.
  by apply todo_warning.
Qed.

End FreshPackage.

Lemma generated_package_warns_witness :
  let run := @init_skill ascii_only noon (u "my-skill") [u "skills"]
               [] false (World ∅ []) in
  fst run = Ok (Some [u "skills"; u "my-skill"]) /\
  exists k, 0 < k /\
    exists warnings,
      @validate_skill ascii_only None (files (snd run)) [u "skills"; u "my-skill"] =
      BasicPassed (u "my-skill") warnings /\
      TodoMarkers k ∈ warnings.
Proof.
  intros run. split; [vm_compute; reflexivity|].
  destruct (@generated_package_warns ascii_only noon (u "my-skill") [u "skills"]
              [] false (World ∅ []) (snd run) [u "skills"; u "my-skill"])
    as (k & Hk & Hbasic & _).
  - reflexivity.
  - reflexivity.
  - reflexivity.
  - apply (run_pair run). vm_compute. reflexivity.
  - by exists k.
Defined.

(** * The length of a normalized name *)

Lemma length_drop_while p s : length (drop_while p s) <= length s.
Proof.
  destruct (drop_while_suffix p s) as [before Hs]. rewrite Hs at 2.
  rewrite length_app. lia.
Qed.

Lemma length_strip_with p s : length (strip_with p s) <= length s.
Proof.
  destruct (strip_with_infix p s) as (before & after & Hs). rewrite Hs at 2.
  rewrite !length_app. lia.
Qed.

Lemma length_sub_non_alnum b s : length (sub_non_alnum_from b s) <= length s.
Proof.
  revert b. induction s as [|c s IH]; intros b; [done|]. cbn [sub_non_alnum_from].
  pose proof (IH true). pose proof (IH false).
  destruct (is_az09 c); [|destruct b]; cbn [length]; lia.
Qed.

Lemma length_sub_hyphen_runs s : length (sub_hyphen_runs s) <= length s.
Proof.
  induction s as [|c s IH]; [done|]. cbn [sub_hyphen_runs].
  destruct (is_hyphen c && startswith [HYPHEN] s); cbn [length]; lia.
Qed.

Section NormalizerLength.
Context {py : Python}.

(** The normalizer does not lengthen an ASCII name: a name of at most 64
    characters is never refused as too long. *)
Theorem normalize_length (s : str) :
  forallb is_ascii s = true ->
  length (normalize_skill_name s) <= length s.
Proof.
  intros Hs. rewrite normalize_ascii by done. unfold normalize_skill_name.
  change (@lower ascii_only) with (fun s => List.map ascii_lower s).
  change (@strip ascii_only) with (strip_with ascii_isspace). cbv beta.
  etrans; [apply length_sub_hyphen_runs|].
  etrans; [apply length_strip_with|].
  etrans; [apply length_sub_non_alnum|].
  rewrite length_map. apply length_strip_with.
Qed.

End NormalizerLength.

Lemma normalize_length_witness :
  length (@normalize_skill_name ascii_only (u "  My  Cool -- Skill!! ")) <= 22.
Proof. apply (@normalize_length ascii_only (u "  My  Cool -- Skill!! ")). reflexivity. Defined.

(** * The files init_skill writes *)

Lemma writes_only_ret {A} P (a : A) : writes_only P (ret a).
Proof. intros w q content x. by left. Qed.

Lemma writes_only_print P l : writes_only P (print l).
Proof. intros w q content x. by left. Qed.

Lemma writes_only_bind {A B} P (c : io A) (k : A -> io B) :
  writes_only P c -> (forall a, writes_only P (k a)) -> writes_only P (bind c k).
Proof.
  intros Hc Hk w q content x. unfold bind. specialize (Hc w q content x).
  destruct (c w) as [[a|e] w1]; simpl in *; [|done].
  intros [Hq|Hq]%Hk; [by apply Hc|by right].
Qed.

Lemma writes_only_try_except {A} P (body : io A) handler :
  writes_only P body -> (forall e, writes_only P (handler e)) ->
  writes_only P (try_except body handler).
Proof.
  intros Hbody Hhandler w q content x. unfold try_except.
  specialize (Hbody w q content x).
  destruct (body w) as [[a|[e|code]] w1]; simpl in *; try done.
  intros [Hq|Hq]%Hhandler; [by apply Hbody|by right].
Qed.

(** mkdir makes directories. *)
Lemma writes_only_os_mkdir P p : writes_only P (os_mkdir p).
Proof.
  intros w q content x. unfold os_mkdir.
  destruct (path_exists_in (files w) p); [by left|].
  destruct (lookup_node (files w) (parent p)) as [[]|]; simpl; try by left.
  destruct (decide (p = q)) as [->|Hne].
  - unfold lookup_node. destruct q; [done|]. by rewrite lookup_insert_eq.
  - rewrite lookup_node_insert_ne by done. by left.
Qed.

Lemma writes_only_mkdir P depth parents exist_ok p :
  writes_only P (mkdir depth parents exist_ok p).
Proof.
  revert parents exist_ok p.
  induction depth as [|depth IH]; intros parents exist_ok p w q content x;
    cbn [mkdir]; pose proof (writes_only_os_mkdir P p w q content x) as Hos;
    destruct (os_mkdir p w) as [[[]|[[]|code]] w1]; simpl in *;
    try done; try (case_match; by left); try by left.
  case_match; [by left|].
  by apply (writes_only_bind P _ _ (IH _ _ _) (fun _ => IH _ _ _)).
Qed.

Lemma writes_only_write_text (P : path -> Prop) p content :
  P p -> writes_only P (write_text p content).
Proof.
  intros Hp w q c x. unfold write_text.
  destruct (decide (p = q)) as [<-|Hne]; [by right|].
  destruct (lookup_node (files w) p) as [[|c0 x0]|]; simpl; [by left| |].
  - rewrite lookup_node_insert_ne by done. by left.
  - destruct (lookup_node (files w) (parent p)) as [[]|]; simpl; try by left.
    rewrite lookup_node_insert_ne by done. by left.
Qed.

Section WrittenFiles.
Context {py : Python}.

(** Without examples the loop over the resources writes no file. *)
Lemma writes_only_create_resource_dirs P skill_dir skill_name skill_title resources :
  writes_only P (create_resource_dirs skill_dir skill_name skill_title resources false).
Proof.
  induction resources as [|resource rest IH]; cbn [create_resource_dirs].
  { apply writes_only_ret. }
  apply writes_only_bind; [apply writes_only_mkdir|intros _].
  apply writes_only_bind; [|intros _; apply IH].
  repeat case_match; first [apply writes_only_print | apply writes_only_ret].
Qed.

(** Without examples SKILL.md is the one file init_skill writes: a file
    that is there after the run was there before it, with its text and its
    mode, or is the SKILL.md of the target.  The resource directories are
    made and left as they are. *)
Theorem init_skill_writes_one_file (now : datetime) (skill_name : str) (path : path)
    (resources : list str) (w : world) (q : list (list N)) (content : str) (x : bool) :
  lookup_node (files (snd (init_skill now skill_name path resources false w))) q =
    Some (File content x) ->
  lookup_node (files w) q = Some (File content x) \/
  q = (path ++ [skill_name]) ++ [u "SKILL.md"].
Proof.
  revert w q content x.
  change (writes_only (fun q => q = (path ++ [skill_name]) ++ [u "SKILL.md"])
            (init_skill now skill_name path resources false)).
  assert (forall l, writes_only (fun q => q = (path ++ [skill_name]) ++ [u "SKILL.md"])
                      (print l ;;; ret false)) as Hhandler.
  { intros l. apply writes_only_bind; [apply writes_only_print|].
    intros _. apply writes_only_ret. }
  unfold init_skill.
  apply writes_only_bind; [intros w q content x; by left|intros existing].
  destruct existing.
  { apply writes_only_bind; [apply writes_only_print|intros _; apply writes_only_ret]. }
  apply writes_only_bind; [|intros created].
  { apply writes_only_try_except; [|intros e; apply Hhandler].
    apply writes_only_bind; [apply writes_only_mkdir|intros _].
    apply writes_only_bind; [apply writes_only_print|intros _; apply writes_only_ret]. }
  destruct (negb created); [apply writes_only_ret|].
  apply writes_only_bind; [|intros written].
  { apply writes_only_try_except; [|intros e; apply Hhandler].
    apply writes_only_bind; [by apply writes_only_write_text|intros _].
    apply writes_only_bind; [apply writes_only_print|intros _; apply writes_only_ret]. }
  destruct (negb written); [apply writes_only_ret|].
  apply writes_only_bind; [|intros made].
  { destruct resources as [|r rest]; [apply writes_only_ret|].
    apply writes_only_try_except; [|intros e; apply Hhandler].
    apply writes_only_bind; [apply writes_only_create_resource_dirs|].
    intros _. apply writes_only_ret. }
  destruct (negb made); [apply writes_only_ret|].
  repeat (apply writes_only_bind; [apply writes_only_print|intros _]).
  apply writes_only_ret.
Qed.

End WrittenFiles.

Lemma init_skill_writes_one_file_witness :
  lookup_node (files (World bare_package [])) [u "bare"; u "SKILL.md"] =
    Some (File bare_document false) \/
  [u "bare"; u "SKILL.md"] = ([u "bare"] ++ [u "my-skill"]) ++ [u "SKILL.md"].
Proof.
  apply (@init_skill_writes_one_file ascii_only noon (u "my-skill") [u "bare"]
           [u "scripts"; u "assets"] (World bare_package [])).
  vm_compute. reflexivity.
Defined.

(** * main, a second time *)

Section MainTwice.
Context {py : Python}.

Lemma init_skill_existing now skill_name path resources ex w :
  path_exists_in (files w) (path ++ [skill_name]) = true ->
  init_skill now skill_name path resources ex w =
  (Ok None, World (files w) (console w ++ [ErrAlreadyExists (path ++ [skill_name])])).
Proof.
  intros Hex. unfold init_skill, path_exists. unfold bind at 1. by rewrite Hex.
Qed.

(** After a main that ended with status 0, a main for the same name and
    path ends with status 1, whatever its other arguments and the clock,
    and leaves the filesystem as it is. *)
Theorem main_twice (now : datetime) (raw_skill_name : str) (path : path)
    (raw_resources : str) (examples : bool) (w w' : world) :
  main now raw_skill_name path raw_resources examples w = (Raised (SystemExit 0), w') ->
  forall now' raw_resources' examples',
    fst (main now' raw_skill_name path raw_resources' examples' w') =
      Raised (SystemExit 1) /\
    files (snd (main now' raw_skill_name path raw_resources' examples' w')) = files w'.
Proof.
  intros Hfirst now' raw_resources' examples'.
  assert (path_exists_in (files w') (path ++ [normalize_skill_name raw_skill_name]) = true)
    as Hthere.
  { destruct (main_cases now raw_skill_name path raw_resources examples w)
      as [[out Hfail]|(_ & resources & w0 & _ & _ & _ & Hrun)]; [congruence|].
    rewrite Hrun in Hfirst.
    destruct (init_skill now (normalize_skill_name raw_skill_name) path resources
                examples w0) as [[[d|]|e] w1] eqn:Hinit; try done.
    cbn [fst snd] in Hfirst. injection Hfirst as <-.
    apply init_skill_produces in Hinit as (-> & Hdir & _).
    by apply is_dir_exists. }
  destruct (main_cases now' raw_skill_name path raw_resources' examples' w')
    as [[out ->]|(_ & resources & w0 & Hfiles & _ & _ & ->)]; [done|].
  rewrite init_skill_existing by by rewrite Hfiles.
  by rewrite <- Hfiles.
Qed.

End MainTwice.

Lemma main_twice_witness :
  let first := @main ascii_only noon (u "My Skill") [u "skills"] (u "scripts") false
                 (World ∅ []) in
  fst first = Raised (SystemExit 0) /\
  fst (@main ascii_only noon (u "My Skill") [u "skills"] (u "assets") true (snd first)) =
    Raised (SystemExit 1) /\
  files (snd (@main ascii_only noon (u "My Skill") [u "skills"] (u "assets") true
                (snd first))) = files (snd first).
Proof.
  intros first. split; [vm_compute; reflexivity|].
  apply (@main_twice ascii_only noon (u "My Skill") [u "skills"] (u "scripts") false
           (World ∅ []) (snd first)).
  apply (run_pair first). vm_compute. reflexivity.
Defined.

(** * A name that begins with a digit *)

Section DigitFirst.
Context {py : Python}.

(** The package init_skill makes for a Skill Identifier that does not begin
    with a letter (it begins with a digit) passes the basic validation and
    fails the full one, whatever the parser makes of its frontmatter: the
    id is not the name of the directory, or is_valid_skill_id refuses it,
    or a check raises. *)
Theorem digit_first_package_fails (now : datetime) (skill_name : str) (path : path)
    (resources : list str) (include_examples : bool) (w w' : world)
    (skill_dir : list (list N)) :
  is_skill_identifier skill_name = true ->
  is_az (hd 0%N skill_name) = false ->
  init_skill now skill_name path resources include_examples w =
    (Ok (Some skill_dir), w') ->
  (exists warnings,
     validate_skill None (files w') skill_dir = BasicPassed skill_name warnings) /\
  (forall safe_load : yaml_module,
     exit_status (validate_skill (Some safe_load) (files w') skill_dir) = 1).
Proof.
  intros Hid Hdigit Hrun.
  unfold is_skill_identifier, hyphen_case in Hid.
  rewrite !andb_true_iff, !negb_true_iff in Hid.
  destruct Hid as [[_ [[[Hchars _] _] Hcons]] _].
  assert (accepted_id skill_name = false) as Hrefused.
  { rewrite accepted_id_ascii.
    - unfold ascii_accepted_id. destruct skill_name as [|c r]; [done|].
      cbn [hd] in Hdigit. by rewrite Hdigit.
    - apply forallb_forall. intros c Hc. apply allowed_char_ascii.
      rewrite forallb_forall in Hchars. by apply Hchars. }
  apply init_skill_produces in Hrun as (-> & Hdir & Hread).
  pose proof (fun yaml => validate_template yaml _ _ _ _ _ Hdir Hread Hcons
    (hyphen_free_consecutive _ (title_hyphen_free _ Hchars))
    (strftime_utc_hyphens now)) as Hvalidate.
  rewrite name_app in Hvalidate. split.
  - rewrite (Hvalidate None). by eexists.
  - intros safe_load. rewrite (Hvalidate (Some safe_load)).
    destruct (safe_load _) as [[| | | | | | |fm]|]; try done.
    by apply refused_name_fails.
Qed.

End DigitFirst.

Lemma digit_first_package_fails_witness :
  let run := @init_skill ascii_only noon (u "2024-report") [u "skills"] [] false
               (World ∅ []) in
  fst run = Ok (Some [u "skills"; u "2024-report"]) /\
  (exists warnings,
     @validate_skill ascii_only None (files (snd run)) [u "skills"; u "2024-report"] =
     BasicPassed (u "2024-report") warnings) /\
  forall safe_load : yaml_module,
    exit_status
      (@validate_skill ascii_only (Some safe_load) (files (snd run))
         [u "skills"; u "2024-report"]) = 1.
Proof.
  intros run. split; [vm_compute; reflexivity|].
  apply (@digit_first_package_fails ascii_only noon (u "2024-report") [u "skills"]
           [] false (World ∅ []) (snd run)).
  - reflexivity.
  - reflexivity.
  - apply (run_pair run). vm_compute. reflexivity.
Defined.

(** * The generated package and the YAML it is written in *)

(** ** The lines of a text *)






(** ** Scalars *)














(** ** The title as a scalar *)





Section TitleScalar.
Context {py : Python}.


End TitleScalar.

(** ** The lines of the frontmatter *)









Section GeneratedPackageYaml.
Context {py : Python}.


End GeneratedPackageYaml.



(** * From main to the validator, the frontmatter read as YAML *)

Section MainValidatedYaml.
Context {py : Python}.





End MainValidatedYaml.


